(** * Verification of [model_monitoring/monitor.py]

    A shallow embedding of the monitoring set-up script: the Python
    functions become functions in a state-and-exception monad over a
    model of the interpreter store (the one mutable dictionary the
    script shares between calls), the local file system, the log-sink
    registry and the ordered trace of calls made to the cloud SDKs.
    Answers of the remote services that the script only reads (endpoint
    and job listings, exit statuses of child processes) are taken from
    an environment record.

    The two failures the script handles itself are modelled: of the file
    write and of the child process.  The services are taken to answer: a
    run in which a call to a service fails on its own (no network, no
    permission, a region or a value the service refuses) ends at that call
    with the exception of the library, and is not followed here. *)

From Stdlib Require Import ZArith QArith Ascii String List Lia.
From Stdlib Require Import DecimalString DecimalZ DecimalPos.
From stdpp Require Import base option list gmap strings fin_maps.

Set Warnings "-register-all".

Local Open Scope string_scope.
Local Open Scope list_scope.

(** ** Python strings *)

Module PyStr.

(** Characters that cannot be typed inside a literal here. *)
Definition dquote : string := String (ascii_of_nat 34) EmptyString.
Definition newline : string := String (ascii_of_nat 10) EmptyString.
Definition backslash : string := String (ascii_of_nat 92) EmptyString.
Definition slash : ascii := ascii_of_nat 47.

(** [s.split(sep)] for a one-character separator: never an empty list. *)
Fixpoint split (sep : ascii) (s : string) : list string :=
  match s with
  | EmptyString => [EmptyString]
  | String c s' =>
      if Ascii.eqb c sep then EmptyString :: split sep s'
      else match split sep s' with
           | h :: t => String c h :: t
           | [] => [String c EmptyString]
           end
  end.

(** [sep.join(parts)]. *)
Fixpoint join (sep : string) (parts : list string) : string :=
  match parts with
  | [] => EmptyString
  | [p] => p
  | p :: ps => p +:+ sep +:+ join sep ps
  end.

(** [parts[-1]] on the result of a split (which is never empty). *)
Definition last_segment (s : string) : string :=
  List.last (split slash s) EmptyString.

(** [c in s] for a character. *)
Fixpoint mem_char (c : ascii) (s : string) : bool :=
  match s with
  | EmptyString => false
  | String d s' => Ascii.eqb d c || mem_char c s'
  end.

(** [sub in s]: [sub] occurs somewhere inside [s]. *)
Definition contains (sub s : string) : Prop :=
  exists pre post, s = pre +:+ sub +:+ post.

(** [s[:n]] and [s[n:]]. *)
Fixpoint take (n : nat) (s : string) : string :=
  match n, s with
  | S n', String c s' => String c (take n' s')
  | _, _ => EmptyString
  end.

Fixpoint drop (n : nat) (s : string) : string :=
  match n, s with
  | S n', String _ s' => drop n' s'
  | _, _ => s
  end.

(** The character with code point 0. *)
Definition nul : ascii := ascii_of_nat 0.

(** [s.encode('utf-8')], the bytes as a string of characters: one byte for
    a code point below 128, two for the others below 256. *)
Definition utf8_char (c : ascii) : string :=
  let n := N_of_ascii c in
  if (n <? 128)%N then String c EmptyString
  else String (ascii_of_N (192 + n / 64))
         (String (ascii_of_N (128 + n mod 64)) EmptyString).

Fixpoint utf8 (s : string) : string :=
  match s with
  | EmptyString => EmptyString
  | String c s' => utf8_char c +:+ utf8 s'
  end.

(** A code point below 128: its own single byte in UTF-8. *)
Definition is_ascii (c : ascii) : bool := (N_of_ascii c <? 128)%N.

(** Number of times [c] occurs in [s]. *)
Fixpoint count_char (c : ascii) (s : string) : nat :=
  match s with
  | EmptyString => 0
  | String d s' => (if Ascii.eqb d c then 1 else 0) + count_char c s'
  end.

End PyStr.

(** ** Python values held by the configuration

    The retraining parameters come out of the YAML loader as a mapping from
    strings to values built from [None], booleans, integers, strings, lists,
    tuples (a [!!python/tuple] node) and nested mappings.  A dictionary keeps
    its keys in insertion order, so it is an association list without
    repeated keys.  A character is a code point below 256.  Floating-point
    values and mapping keys that are not strings are not part of this type:
    what is proved about the parameters is proved for the values below. *)

Inductive pyval : Type :=
| PNone
| PBool (b : bool)
| PInt (z : Z)
| PStr (s : string)
| PList (items : list pyval)
| PTuple (items : list pyval)
| PDict (entries : list (string * pyval)).

Abbreviation pydict := (list (string * pyval)).

Module PyDict.

(** [d.get(k)]. *)
Fixpoint get (k : string) (d : pydict) : option pyval :=
  match d with
  | [] => None
  | (k', v) :: d' => if String.eqb k' k then Some v else get k d'
  end.

(** [d[k] = v]: an existing key keeps its position, a new key goes last. *)
Fixpoint setitem (k : string) (v : pyval) (d : pydict) : pydict :=
  match d with
  | [] => [(k, v)]
  | (k', v') :: d' =>
      if String.eqb k' k then (k, v) :: d' else (k', v') :: setitem k v d'
  end.

(** Truth value of a mapping: [bool(d)]. *)
Definition truthy (d : pydict) : bool :=
  match d with [] => false | _ :: _ => true end.

End PyDict.

(** ** [json.dumps(obj, indent=4)]

    The text the encoder produces, piece by piece in the order the
    encoder emits them.  Text is a list of characters here; it is packed into
    a string where the script hands it to [write_file].  A tuple is written
    as a list is.  The encoder is total on [pyval]: the interpreter's limit
    on the number of digits of an integer it converts to text (4300 by
    default since Python 3.11, an error beyond) is taken as not reached. *)

Module Json.

Definition chars (s : string) : list ascii := list_ascii_of_string s.

Definition hex_digit (n : N) : ascii :=
  ascii_of_N (if (n <? 10)%N then 48 + n else 87 + n)%N.

(** One character of a string as the ASCII-only encoder writes it: the
    short escapes, [\u00xx] for the other characters outside space..tilde,
    the character itself otherwise. *)
Definition escape_char (c : ascii) : list ascii :=
  let n := N_of_ascii c in
  if (n =? 34)%N then chars "\" ++ [c]
  else if (n =? 92)%N then chars "\\"
  else if (n =? 10)%N then chars "\n"
  else if (n =? 13)%N then chars "\r"
  else if (n =? 9)%N then chars "\t"
  else if (n =? 8)%N then chars "\b"
  else if (n =? 12)%N then chars "\f"
  else if ((n <? 32) || (126 <? n))%N
       then chars "\u00" ++ [hex_digit (n / 16); hex_digit (n mod 16)]
  else [c].

Definition quote : ascii := ascii_of_nat 34.

Definition encode_string (s : string) : list ascii :=
  quote :: flat_map escape_char (chars s) ++ [quote].

(** [repr] of an integer: decimal, with a minus sign when negative. *)
Definition encode_int (z : Z) : list ascii :=
  chars (NilEmpty.string_of_int (Z.to_int z)).

Definition newline_indent (indent level : nat) : list ascii :=
  ascii_of_nat 10 :: repeat (ascii_of_nat 32) (indent * level).

Section Encoder.
Variable indent : nat.

Fixpoint encode (level : nat) (v : pyval) {struct v} : list ascii :=
  match v with
  | PNone => chars "null"
  | PBool true => chars "true"
  | PBool false => chars "false"
  | PInt z => encode_int z
  | PStr s => encode_string s
  | PList [] => chars "[]"
  | PList (x :: xs) =>
      chars "[" ++ newline_indent indent (S level) ++ encode (S level) x ++
      (fix rest (l : list pyval) : list ascii :=
         match l with
         | [] => []
         | y :: l' =>
             chars "," ++ newline_indent indent (S level) ++
             encode (S level) y ++ rest l'
         end) xs ++
      newline_indent indent level ++ chars "]"
  | PTuple [] => chars "[]"
  | PTuple (x :: xs) =>
      chars "[" ++ newline_indent indent (S level) ++ encode (S level) x ++
      (fix rest (l : list pyval) : list ascii :=
         match l with
         | [] => []
         | y :: l' =>
             chars "," ++ newline_indent indent (S level) ++
             encode (S level) y ++ rest l'
         end) xs ++
      newline_indent indent level ++ chars "]"
  | PDict [] => chars "{}"
  | PDict ((k, x) :: xs) =>
      chars "{" ++ newline_indent indent (S level) ++
      encode_string k ++ chars ": " ++ encode (S level) x ++
      (fix rest (l : list (string * pyval)) : list ascii :=
         match l with
         | [] => []
         | (k', y) :: l' =>
             chars "," ++ newline_indent indent (S level) ++
             encode_string k' ++ chars ": " ++ encode (S level) y ++ rest l'
         end) xs ++
      newline_indent indent level ++ chars "}"
  end.
End Encoder.

(** [json.dumps(d, indent=4)] for a mapping [d]. *)
Definition dumps (d : pydict) : string :=
  string_of_list_ascii (encode 4 0 (PDict d)).

(** *** [json.loads]

    The decoder, as the scanner of the library reads a text: values by their
    first character, strings with their escapes, numbers as an optional
    minus sign and either a zero or a non-zero digit and further digits,
    followed by an optional fraction and exponent, white space skipped
    between tokens.  A text that is not JSON gives [None], and
    so does one holding a number with a fraction or exponent, [NaN] or
    [Infinity], or an escape above code point 255: floats and such characters
    are outside [pyval]. *)

Definition is_ws (c : ascii) : bool :=
  let n := N_of_ascii c in
  ((n =? 32) || (n =? 9) || (n =? 10) || (n =? 13))%N.

Fixpoint skip_ws (s : list ascii) : list ascii :=
  match s with
  | c :: s' => if is_ws c then skip_ws s' else s
  | [] => []
  end.

Definition hex_value (c : ascii) : option N :=
  let n := N_of_ascii c in
  if ((48 <=? n) && (n <=? 57))%N then Some (n - 48)%N
  else if ((97 <=? n) && (n <=? 102))%N then Some (n - 87)%N
  else if ((65 <=? n) && (n <=? 70))%N then Some (n - 55)%N
  else None.

(** The code point of [\uXXXX]. *)
Definition decode_uXXXX (h1 h2 h3 h4 : ascii) : option N :=
  match hex_value h1, hex_value h2, hex_value h3, hex_value h4 with
  | Some a, Some b, Some c, Some d => Some (((a * 16 + b) * 16 + c) * 16 + d)%N
  | _, _, _, _ => None
  end.

(** The character a one-letter escape stands for. *)
Definition unescape (e : ascii) : option ascii :=
  let n := N_of_ascii e in
  if (n =? 34)%N then Some e
  else if (n =? 92)%N then Some e
  else if (n =? 47)%N then Some e
  else if (n =? 98)%N then Some (ascii_of_nat 8)
  else if (n =? 102)%N then Some (ascii_of_nat 12)
  else if (n =? 110)%N then Some (ascii_of_nat 10)
  else if (n =? 114)%N then Some (ascii_of_nat 13)
  else if (n =? 116)%N then Some (ascii_of_nat 9)
  else None.

Definition prepend {A B} (a : A) (r : option (list A * B)) : option (list A * B) :=
  match r with
  | Some (l, b) => Some (a :: l, b)
  | None => None
  end.

(** The characters of a string up to its closing quote, and what follows;
    the text starts just after the opening quote. *)
Fixpoint scanstring (s : list ascii) : option (list ascii * list ascii) :=
  match s with
  | [] => None
  | c :: rest =>
      if (N_of_ascii c =? 34)%N then Some ([], rest)
      else if (N_of_ascii c =? 92)%N then
        match rest with
        | [] => None
        | e :: rest1 =>
            if (N_of_ascii e =? 117)%N then
              match rest1 with
              | h1 :: h2 :: h3 :: h4 :: rest2 =>
                  match decode_uXXXX h1 h2 h3 h4 with
                  | Some n =>
                      if (n <? 256)%N then prepend (ascii_of_N n) (scanstring rest2)
                      else None
                  | None => None
                  end
              | _ => None
              end
            else
              match unescape e with
              | Some c' => prepend c' (scanstring rest1)
              | None => None
              end
        end
      else if (N_of_ascii c <? 32)%N then None
      else prepend c (scanstring rest)
  end.

Definition is_digit (c : ascii) : bool :=
  let n := N_of_ascii c in ((48 <=? n) && (n <=? 57))%N.

Fixpoint span_digits (s : list ascii) : list ascii * list ascii :=
  match s with
  | c :: s' =>
      if is_digit c then let (ds, r) := span_digits s' in (c :: ds, r)
      else ([], s)
  | [] => ([], [])
  end.

(** The integer part of a number: its text and what follows. *)
Definition match_integer (s : list ascii) : option (list ascii * list ascii) :=
  let (sign, s1) :=
    match s with
    | c :: s' => if (N_of_ascii c =? 45)%N then ([c], s') else ([], s)
    | [] => ([], [])
    end in
  match s1 with
  | c :: s2 =>
      if (N_of_ascii c =? 48)%N then Some (sign ++ [c], s2)
      else if is_digit c then
        let (ds, r) := span_digits s2 in Some (sign ++ c :: ds, r)
      else None
  | [] => None
  end.

Definition starts_with_digit (s : list ascii) : bool :=
  match s with
  | c :: _ => is_digit c
  | [] => false
  end.

(** A fraction [.d+] or an exponent [[eE][-+]?d+] comes next. *)
Definition float_follows (s : list ascii) : bool :=
  match s with
  | c :: s' =>
      let n := N_of_ascii c in
      if (n =? 46)%N then starts_with_digit s'
      else if ((n =? 101) || (n =? 69))%N then
        match s' with
        | d :: s'' =>
            if ((N_of_ascii d =? 43) || (N_of_ascii d =? 45))%N
            then starts_with_digit s''
            else is_digit d
        | [] => false
        end
      else false
  | [] => false
  end.

(** [int(text)] *)
Definition int_of_text (text : list ascii) : option Z :=
  option_map Z.of_int (NilEmpty.int_of_string (string_of_list_ascii text)).

Definition match_number (s : list ascii) : option (pyval * list ascii) :=
  match match_integer s with
  | Some (text, rest) =>
      if float_follows rest then None
      else match int_of_text text with
           | Some z => Some (PInt z, rest)
           | None => None
           end
  | None => None
  end.

Fixpoint strip_prefix (p s : list ascii) : option (list ascii) :=
  match p with
  | [] => Some s
  | c :: p' =>
      match s with
      | d :: s' => if Ascii.eqb c d then strip_prefix p' s' else None
      | [] => None
      end
  end.

(** [dict(pairs)]: later pairs win, keys keep their first position. *)
Definition dict_of_pairs (pairs : list (string * pyval)) : pydict :=
  fold_left (fun d kv => PyDict.setitem (fst kv) (snd kv) d) pairs [].

(** One value at the start of the text, and what follows it.  [fuel] bounds
    the number of nested values and of items read. *)
Fixpoint scan_once (fuel : nat) (s : list ascii) {struct fuel}
    : option (pyval * list ascii) :=
  match fuel with
  | 0 => None
  | S fuel' =>
      match s with
      | [] => None
      | c :: rest =>
          let n := N_of_ascii c in
          if (n =? 34)%N then
            match scanstring rest with
            | Some (cs, rest') => Some (PStr (string_of_list_ascii cs), rest')
            | None => None
            end
          else if (n =? 123)%N then
            match skip_ws rest with
            | c1 :: rest1 =>
                if (N_of_ascii c1 =? 125)%N then Some (PDict [], rest1)
                else match object_pairs fuel' (c1 :: rest1) with
                     | Some (pairs, rest2) => Some (PDict (dict_of_pairs pairs), rest2)
                     | None => None
                     end
            | [] => None
            end
          else if (n =? 91)%N then
            match skip_ws rest with
            | c1 :: rest1 =>
                if (N_of_ascii c1 =? 93)%N then Some (PList [], rest1)
                else match array_items fuel' (c1 :: rest1) with
                     | Some (items, rest2) => Some (PList items, rest2)
                     | None => None
                     end
            | [] => None
            end
          else if (n =? 110)%N then
            match strip_prefix (chars "ull") rest with
            | Some rest' => Some (PNone, rest')
            | None => None
            end
          else if (n =? 116)%N then
            match strip_prefix (chars "rue") rest with
            | Some rest' => Some (PBool true, rest')
            | None => None
            end
          else if (n =? 102)%N then
            match strip_prefix (chars "alse") rest with
            | Some rest' => Some (PBool false, rest')
            | None => None
            end
          else match_number s
      end
  end

with object_pairs (fuel : nat) (s : list ascii) {struct fuel}
    : option (list (string * pyval) * list ascii) :=
  match fuel with
  | 0 => None
  | S fuel' =>
      match s with
      | [] => None
      | c :: rest =>
          if (N_of_ascii c =? 34)%N then
            match scanstring rest with
            | Some (key, rest1) =>
                match skip_ws rest1 with
                | c2 :: rest2 =>
                    if (N_of_ascii c2 =? 58)%N then
                      match scan_once fuel' (skip_ws rest2) with
                      | Some (value, rest3) =>
                          match skip_ws rest3 with
                          | c4 :: rest4 =>
                              if (N_of_ascii c4 =? 125)%N then
                                Some ([(string_of_list_ascii key, value)], rest4)
                              else if (N_of_ascii c4 =? 44)%N then
                                match object_pairs fuel' (skip_ws rest4) with
                                | Some (pairs, rest5) =>
                                    Some ((string_of_list_ascii key, value) :: pairs,
                                          rest5)
                                | None => None
                                end
                              else None
                          | [] => None
                          end
                      | None => None
                      end
                    else None
                | [] => None
                end
            | None => None
            end
          else None
      end
  end

with array_items (fuel : nat) (s : list ascii) {struct fuel}
    : option (list pyval * list ascii) :=
  match fuel with
  | 0 => None
  | S fuel' =>
      match scan_once fuel' s with
      | Some (value, rest1) =>
          match skip_ws rest1 with
          | c2 :: rest2 =>
              if (N_of_ascii c2 =? 93)%N then Some ([value], rest2)
              else if (N_of_ascii c2 =? 44)%N then
                match array_items fuel' (skip_ws rest2) with
                | Some (items, rest3) => Some (value :: items, rest3)
                | None => None
                end
              else None
          | [] => None
          end
      | None => None
      end
  end.

(** [json.loads(s)]: one value, white space around it, nothing else. *)
Definition loads (s : string) : option pyval :=
  let text := skip_ws (chars s) in
  match scan_once (S (length text)) text with
  | Some (v, rest) =>
      match skip_ws rest with
      | [] => Some v
      | _ :: _ => None
      end
  | None => None
  end.

(** Every mapping inside the value has its keys once: what a value made of
    Python dictionaries always satisfies. *)
Fixpoint fresh_key (k : string) (d : list (string * pyval)) : bool :=
  match d with
  | [] => true
  | (k', _) :: d' => negb (String.eqb k' k) && fresh_key k d'
  end.

Fixpoint well_formed (v : pyval) : bool :=
  match v with
  | PList items | PTuple items =>
      (fix all (l : list pyval) : bool :=
         match l with
         | [] => true
         | x :: l' => well_formed x && all l'
         end) items
  | PDict entries =>
      (fix all (l : list (string * pyval)) : bool :=
         match l with
         | [] => true
         | (k, x) :: l' => fresh_key k l' && well_formed x && all l'
         end) entries
  | _ => true
  end.

(** No tuple anywhere inside the value: the values the decoder can give
    back, since it reads every array as a list. *)
Fixpoint tuple_free (v : pyval) : bool :=
  match v with
  | PList items =>
      (fix all (l : list pyval) : bool :=
         match l with
         | [] => true
         | x :: l' => tuple_free x && all l'
         end) items
  | PTuple _ => false
  | PDict entries =>
      (fix all (l : list (string * pyval)) : bool :=
         match l with
         | [] => true
         | (_, x) :: l' => tuple_free x && all l'
         end) entries
  | _ => true
  end.

(** Fuel with which [scan_once] reads the encoding of a value. *)
Fixpoint need (v : pyval) : nat :=
  match v with
  | PList items =>
      S ((fix sum (l : list pyval) : nat :=
            match l with
            | [] => 0
            | x :: l' => S (need x + sum l')
            end) items)
  | PDict entries =>
      S ((fix sum (l : list (string * pyval)) : nat :=
            match l with
            | [] => 0
            | (_, x) :: l' => S (need x + sum l')
            end) entries)
  | _ => 1
  end.

Definition need_items (items : list pyval) : nat :=
  fold_right (fun x n => S (need x + n)) 0 items.

Definition need_entries (entries : list (string * pyval)) : nat :=
  fold_right (fun kv n => S (need (snd kv) + n)) 0 entries.

(** The items of a list after the first, each behind its separator, as
    [encode] writes them; the same for the entries of a mapping. *)
Definition encode_more_items (indent level : nat) (items : list pyval) : list ascii :=
  flat_map (fun y => chars "," ++ newline_indent indent (S level) ++
                     encode indent (S level) y) items.

Definition encode_more_entries (indent level : nat) (entries : list (string * pyval))
    : list ascii :=
  flat_map (fun kv => chars "," ++ newline_indent indent (S level) ++
                      encode_string (fst kv) ++ chars ": " ++
                      encode indent (S level) (snd kv)) entries.

(** What may follow a number in a text: not a digit, a fraction or an
    exponent. *)
Definition delimited (rest : list ascii) : bool :=
  negb (starts_with_digit rest) && negb (float_follows rest).

End Json.

(** ** The SDK objects the script builds *)

(** Threshold tables ([feature name -> number]) and the sample rate are
    only handed on to the service, never computed with. *)
Abbreviation thresholds := (list (string * Q)).

Module model_monitoring.

Record SkewDetectionConfig := mkSkew {
  data_source : string;
  skew_thresholds : thresholds;
  target_field : string }.

Record DriftDetectionConfig := mkDrift {
  drift_thresholds : thresholds }.

(** Explanation-based detection: the script never builds one. *)
Record ExplanationConfig := mkExplanation { }.

Record ObjectiveConfig := mkObjective {
  skew_detection_config : option SkewDetectionConfig;
  drift_detection_config : option DriftDetectionConfig;
  explanation_config : option ExplanationConfig }.

Record RandomSampleConfig := mkSampling { sample_rate : Q }.

Record ScheduleConfig := mkSchedule { monitor_interval : Z }.

Record EmailAlertConfig := mkAlert {
  user_emails : list string;
  enable_logging : bool }.

End model_monitoring.

Import model_monitoring.

(** Keyword arguments of [ModelDeploymentMonitoringJob.create]. *)
Record job_create_args := mkCreate {
  c_display_name : string;
  c_logging_sampling_strategy : RandomSampleConfig;
  c_schedule_config : ScheduleConfig;
  c_alert_config : EmailAlertConfig;
  c_objective_configs : ObjectiveConfig;
  c_project : string;
  c_location : string;
  c_endpoint : string;
  c_enable_monitoring_pipeline_logs : bool }.

(** Keyword arguments of [ModelDeploymentMonitoringJob(id).update]. *)
Record job_update_args := mkUpdate {
  u_display_name : string;
  u_logging_sampling_strategy : RandomSampleConfig;
  u_schedule_config : ScheduleConfig;
  u_alert_config : EmailAlertConfig;
  u_objective_configs : ObjectiveConfig;
  u_enable_monitoring_pipeline_logs : bool }.

(** Where [subprocess.run] sends a stream of the child: [None] (inherit the
    parent's), [subprocess.DEVNULL], or [subprocess.STDOUT] (into the
    child's standard output, wherever that goes). *)
Inductive redirect := Inherit | DEVNULL | STDOUT.

(** A log sink as the logging client holds it. *)
Record sink := mkSink { sink_filter : string; sink_destination : string }.

(** ** Calls that leave the script, in the order they are made *)

Inductive call : Type :=
| SubprocessRun (args : list string) (shell check : bool) (stdout stderr : redirect)
| FileWrite (filepath text mode : string)
| StorageGetBucket (bucket : string)
| BlobUploadFromFilename (bucket blob filename : string)
| SinkExists (name : string)
| SinkUpdate (name filter destination : string)
| SinkCreate (name filter destination : string)
| AiplatformInit (project location : string)
| EndpointList (filter : string)
| EndpointGet (name : string)
| JobList (filter : string)
| JobCreate (a : job_create_args)
| JobUpdate (job_id : string) (a : job_update_args)
| Print (text : string)
| PPrint (d : pydict).

(** ** Exceptions *)

Inductive exn : Type :=
| CalledProcessError (returncode : Z) (cmd : list string)
| OSError (msg : string) (cause : option exn)
| RuntimeError (msg : string) (cause : option exn)
| ValueError (msg : string)
| StoreError.  (* a reference to no object: cannot happen in Python *)

(** How a file is opened: [r], [w], [a] or [x]. *)
Inductive access := Reading | Writing | Appending | Creating.

(** ** What the script reads from outside and cannot decide *)

Record env := mkEnv {
  (** [Endpoint.list(filter=...)] in a project and location: resource names. *)
  endpoint_list : string -> string -> string -> list string;
  (** [ModelDeploymentMonitoringJob.list(filter=...)]: resource names. *)
  job_list : string -> string -> string -> list string;
  (** Resource name the service gives a job it creates. *)
  created_resource_name : job_create_args -> string;
  (** Resource name of the job object built from a job identifier. *)
  job_resource_name : string -> string;
  (** Exit status of a child process. *)
  returncode_of : list string -> Z;
  (** [str(err)] of a [CalledProcessError]. *)
  str_called_process_error : Z -> list string -> string;
  (** The [OSError] text if opening or writing a path fails. *)
  open_error : string -> option string;
  (** When it fails: nothing if the path could not be opened, the number of
      bytes that reached the file if it was opened and the write failed. *)
  written_before_error : string -> option nat;
  (** [str(err)] of the [OSError] for an error number and a path. *)
  str_os_error : Z -> string -> string }.

(** ** Interpreter and service state *)

Abbreviation loc := positive.

Record state := mkState {
  heap : gmap loc pydict;                  (* dictionaries, by reference *)
  files : gmap string string;              (* local files: their bytes *)
  blobs : gmap (string * string) string;   (* bucket, object name -> content *)
  sinks : gmap string sink;                (* log sinks by name *)
  ai_context : option (string * string);   (* aiplatform.init project, location *)
  trace : list call }.

Definition set_heap (h : gmap loc pydict) (s : state) : state :=
  mkState h (files s) (blobs s) (sinks s) (ai_context s) (trace s).
Definition set_files (f : gmap string string) (s : state) : state :=
  mkState (heap s) f (blobs s) (sinks s) (ai_context s) (trace s).
Definition set_blobs (b : gmap (string * string) string) (s : state) : state :=
  mkState (heap s) (files s) b (sinks s) (ai_context s) (trace s).
Definition set_sinks (k : gmap string sink) (s : state) : state :=
  mkState (heap s) (files s) (blobs s) k (ai_context s) (trace s).
Definition set_ai_context (c : option (string * string)) (s : state) : state :=
  mkState (heap s) (files s) (blobs s) (sinks s) c (trace s).
Definition set_trace (t : list call) (s : state) : state :=
  mkState (heap s) (files s) (blobs s) (sinks s) (ai_context s) t.

(** ** The monad: state, and a result that is a value or a raised exception *)

Inductive result (A : Type) : Type :=
| Returned (a : A)
| Raised (e : exn).
Arguments Returned {A} a.
Arguments Raised {A} e.

Definition M (A : Type) : Type := state -> result A * state.

Definition ret {A} (a : A) : M A := fun s => (Returned a, s).

Definition bind {A B} (c : M A) (k : A -> M B) : M B :=
  fun s => match c s with
           | (Returned a, s') => k a s'
           | (Raised e, s') => (Raised e, s')
           end.

Definition raise {A} (e : exn) : M A := fun s => (Raised e, s).

(** [try: c  except <the exceptions h accepts> as err: h err]. *)
Definition try_except {A} (c : M A) (h : exn -> option (M A)) : M A :=
  fun s => match c s with
           | (Returned a, s') => (Returned a, s')
           | (Raised e, s') =>
               match h e with
               | Some handler => handler s'
               | None => (Raised e, s')
               end
           end.

Definition get_state : M state := fun s => (Returned s, s).
Definition modify (f : state -> state) : M unit := fun s => (Returned tt, f s).
Definition emit (c : call) : M unit := modify (fun s => set_trace (trace s ++ [c]) s).

#[global] Instance M_ret : MRet M := @ret.
#[global] Instance M_bind : MBind M := fun A B k c => bind c k.

(** ** The script *)

Section Script.
Variable E : env.

(** [f'{err}'] *)
Definition str_exn (e : exn) : string :=
  match e with
  | CalledProcessError rc cmd => str_called_process_error E rc cmd
  | OSError msg _ => msg
  | RuntimeError msg _ => msg
  | ValueError msg => msg
  | StoreError => EmptyString
  end.

(** *** Library calls *)

(** [print] and, below, [pprint.pprint] write to standard output; they are
    taken to succeed. *)
Definition print (text : string) : M unit := emit (Print text).

(** [subprocess.run(args, shell=, check=, stdout=, stderr=)]: runs the child
    to completion; with [check] a non-zero exit status raises
    [CalledProcessError].  The shell is taken to start: a command it cannot
    be handed (one holding a null character) is not modelled. *)
Definition subprocess_run (args : list string) (shell check : bool)
    (stdout stderr : redirect) : M Z :=
  emit (SubprocessRun args shell check stdout stderr);;
  let rc := returncode_of E args in
  if check && negb (rc =? 0)%Z then raise (CalledProcessError rc args)
  else mret rc.

(** What [open(filepath, mode, encoding='utf-8')] does before it touches
    the file system (Python 3.11): a mode or path it cannot use is a
    [ValueError], with the text given here.  The mode is made of the letters
    [x r w a + t b], none twice, with exactly one of [x r w a]; [b] does not
    go with a text encoding.  Otherwise it yields how the file is opened and
    whether for updating ([+]). *)
Definition check_open_args (filepath mode : string) : string + (access * bool) :=
  let has c := PyStr.mem_char c mode in
  if has PyStr.nul then inl "embedded null character"
  else if negb (forallb (fun c => PyStr.mem_char c "xrwa+tb") (list_ascii_of_string mode))
          || existsb (fun c => Nat.ltb 1 (PyStr.count_char c mode))
                     (list_ascii_of_string mode)
  then inl ("invalid mode: '" +:+ mode +:+ "'")
  else if has "t"%char && has "b"%char
  then inl "can't have text and binary mode at once"
  else if Nat.ltb 1 (PyStr.count_char "x"%char mode + PyStr.count_char "r"%char mode +
                     PyStr.count_char "w"%char mode + PyStr.count_char "a"%char mode)
  then inl "must have exactly one of create/read/write/append mode"
  else if has "b"%char
  then inl "binary mode doesn't take an encoding argument"
  else if PyStr.mem_char PyStr.nul filepath then inl "embedded null byte"
  else
    match (if has "x"%char then Some Creating
           else if has "r"%char then Some Reading
           else if has "w"%char then Some Writing
           else if has "a"%char then Some Appending
           else None) with
    | None =>
        inl "Must have exactly one of create/read/write/append mode and at most one plus"
    | Some acc => inr (acc, has "+"%char)
    end.

(** The error of the call that opens the file, if it fails: the system
    refuses the path, mode [x] finds the file there, mode [r] does not. *)
Definition open_failure (acc : access) (filepath : string) (old : option string)
    : option string :=
  match open_error E filepath, written_before_error E filepath with
  | Some msg, None => Some msg
  | _, _ =>
      match acc, old with
      | Creating, Some _ => Some (str_os_error E 17 filepath)
      | Reading, None => Some (str_os_error E 2 filepath)
      | _, _ => None
      end
  end.

(** The bytes of a file opened on the content [old] once [data] has been
    written: modes [w] and [x] start from an empty file, [a] writes at the
    end, [r+] over the beginning. *)
Definition content_written (acc : access) (old : option string) (data : string)
    : string :=
  match acc with
  | Writing | Creating => data
  | Appending => default EmptyString old +:+ data
  | Reading => data +:+ PyStr.drop (String.length data) (default EmptyString old)
  end.

(** [with open(filepath, mode, encoding='utf-8') as file: file.write(text)]
    on a system with [\n] as line separator.  Opening for writing empties
    the file before anything is written, so a write that fails leaves the
    bytes that got through, not the old content; a file opened with [r]
    alone cannot be written. *)
Definition open_and_write (filepath text mode : string) : M unit :=
  emit (FileWrite filepath text mode);;
  match check_open_args filepath mode with
  | inl msg => raise (ValueError msg)
  | inr (acc, updating) =>
      s ← get_state;
      let old := files s !! filepath in
      match open_failure acc filepath old with
      | Some msg => raise (OSError msg None)
      | None =>
          match acc, updating with
          | Reading, false => raise (OSError "not writable" None)
          | _, _ =>
              match open_error E filepath, written_before_error E filepath with
              | Some msg, Some n =>
                  modify (set_files
                            (<[filepath :=
                                 content_written acc old
                                   (PyStr.take n (PyStr.utf8 text))]> (files s)));;
                  raise (OSError msg None)
              | _, _ =>
                  modify (set_files
                            (<[filepath := content_written acc old (PyStr.utf8 text)]>
                               (files s)))
              end
          end
      end
  end.

(** [storage.Client().get_bucket(bucket)]: the bucket is taken to exist. *)
Definition storage_get_bucket (bucket : string) : M string :=
  emit (StorageGetBucket bucket);; mret bucket.

(** [bucket.blob(blob).upload_from_filename(filename)]: the service is taken
    to store the bytes of the file under the name it is given. *)
Definition upload_from_filename (bucket blob filename : string) : M unit :=
  emit (BlobUploadFromFilename bucket blob filename);;
  s ← get_state;
  match files s !! filename with
  | Some content => modify (fun s => set_blobs (<[(bucket, blob) := content]> (blobs s)) s)
  | None => raise (OSError "No such file or directory" None)
  end.

Definition sink_exists (name : string) : M bool :=
  emit (SinkExists name);;
  s ← get_state;
  mret (bool_decide (is_Some (sinks s !! name))).

Definition sink_update (name filter destination : string) : M unit :=
  emit (SinkUpdate name filter destination);;
  modify (fun s => set_sinks (<[name := mkSink filter destination]> (sinks s)) s).

Definition sink_create (name filter destination : string) : M unit :=
  emit (SinkCreate name filter destination);;
  modify (fun s => set_sinks (<[name := mkSink filter destination]> (sinks s)) s).

(** [aiplatform.init(project=, location=)]: the location is taken to be one
    the SDK knows. *)
Definition aiplatform_init (project location : string) : M unit :=
  emit (AiplatformInit project location);;
  modify (set_ai_context (Some (project, location))).

Definition ai_project_location : M (string * string) :=
  s ← get_state;
  mret (default (EmptyString, EmptyString) (ai_context s)).

Definition Endpoint_list (filter : string) : M (list string) :=
  emit (EndpointList filter);;
  pl ← ai_project_location;
  mret (endpoint_list E pl.1 pl.2 filter).

Definition Endpoint (name : string) : M string :=
  emit (EndpointGet name);; mret name.

Definition ModelDeploymentMonitoringJob_list (filter : string) : M (list string) :=
  emit (JobList filter);;
  pl ← ai_project_location;
  mret (job_list E pl.1 pl.2 filter).

(** Both return the job object; the script reads only its [resource_name].
    The service is taken to accept the arguments. *)
Definition ModelDeploymentMonitoringJob_create (a : job_create_args) : M string :=
  emit (JobCreate a);; mret (created_resource_name E a).

Definition ModelDeploymentMonitoringJob_update (job_id : string) (a : job_update_args)
    : M string :=
  emit (JobUpdate job_id a);; mret (job_resource_name E job_id).

(** *** The store of dictionaries *)

Definition deref (r : loc) : M pydict :=
  s ← get_state;
  match heap s !! r with
  | Some d => mret d
  | None => raise StoreError
  end.

(** [obj[k] = v] on the dictionary [r] refers to. *)
Definition dict_setitem (r : loc) (k : string) (v : pyval) : M unit :=
  d ← deref r;
  modify (fun s => set_heap (<[r := PyDict.setitem k v d]> (heap s)) s).

(** Truth value of an argument that is [None] or a dictionary. *)
Definition truthy_params (p : option loc) : M bool :=
  match p with
  | None => mret false
  | Some r => d ← deref r; mret (PyDict.truthy d)
  end.

(** *** [execute_process] *)

Definition execute_process (command : string) (to_null : bool) : M unit :=
  let stdout := if to_null then DEVNULL else Inherit in
  try_except
    (subprocess_run [command] true true stdout STDOUT;; mret tt)
    (fun err =>
       match err with
       | CalledProcessError _ _ =>
           Some (raise (RuntimeError ("Error executing process. " +:+ str_exn err)
                                     (Some err)))
       | _ => None
       end).

(** *** [write_file] *)

Definition write_file (filepath text mode : string) : M unit :=
  try_except
    (open_and_write filepath text mode)
    (fun err =>
       match err with
       | OSError _ _ =>
           Some (raise (OSError ("Error writing to file. " +:+ str_exn err) (Some err)))
       | _ => None
       end).

(** *** [upload_automatic_retraining_parameters] *)

Definition local_params_file : string :=
  "model_monitoring/automatic_retraining_parameters.json".

(** ['/'.join(path.split('/')[3:])] *)
Definition blob_filename (gs_auto_retraining_params_path : string) : string :=
  PyStr.join "/" (skipn 3 (PyStr.split PyStr.slash gs_auto_retraining_params_path)).

Definition upload_automatic_retraining_parameters
    (auto_retraining_params : loc)
    (gs_auto_retraining_params_path gs_pipeline_job_spec_path
       storage_bucket_name : string) : M unit :=
  dict_setitem auto_retraining_params "gs_pipeline_spec_path"
               (PStr gs_pipeline_job_spec_path);;
  d ← deref auto_retraining_params;
  let serialized_params := Json.dumps d in
  write_file local_params_file serialized_params "w";;
  bucket ← storage_get_bucket storage_bucket_name;
  let filename := blob_filename gs_auto_retraining_params_path in
  upload_from_filename bucket filename local_params_file.

(** *** [create_or_update_sink] *)

Definition create_or_update_sink (sink_name destination filter_ : string) : M unit :=
  ex ← sink_exists sink_name;
  if ex : bool then
    sink_update sink_name filter_ destination;;
    print ("Updated Anomaly Log Sink " +:+ sink_name +:+ "." +:+ PyStr.newline)
  else
    sink_create sink_name filter_ destination;;
    print ("Created Anomaly Log Sink " +:+ sink_name +:+ "." +:+ PyStr.newline).

(** *** [create_or_update_monitoring_job] *)

(** Truth value of an argument that is [None] or a list or table. *)
Definition truthy_list {A} (l : option (list A)) : bool :=
  match l with
  | Some (_ :: _) => true
  | _ => false
  end.

Definition monitoring_anomaly_log_filter
    (monitoring_location job_id project_id : string) : string :=
  "resource.type=" +:+ PyStr.dquote +:+
    "aiplatform.googleapis.com/ModelDeploymentMonitoringJob" +:+ PyStr.dquote +:+
    PyStr.newline +:+
  "resource.labels.location=" +:+ PyStr.dquote +:+ monitoring_location +:+
    PyStr.dquote +:+ PyStr.newline +:+
  "resource.labels.model_deployment_monitoring_job=" +:+ PyStr.dquote +:+ job_id +:+
    PyStr.dquote +:+ PyStr.newline +:+
  "logName=" +:+ PyStr.dquote +:+ "projects/" +:+ project_id +:+
    "/logs/aiplatform.googleapis.com%2Fmodel_monitoring_anomaly" +:+ PyStr.dquote +:+
    PyStr.newline +:+
  "severity>=WARNING" +:+ PyStr.newline.

Definition anomaly_log_destination (project_id pubsub_topic_name : string) : string :=
  "pubsub.googleapis.com/projects/" +:+ project_id +:+ "/topics/" +:+ pubsub_topic_name.

Definition cloud_logs_sa : string := "cloud-logs@system.gserviceaccount.com".

Definition update_iam (project_id : string) : string :=
  "gcloud projects add-iam-policy-binding " +:+ project_id +:+ " " +:+
    PyStr.backslash +:+ PyStr.newline +:+
  "--member=" +:+ PyStr.dquote +:+ "serviceAccount:" +:+ cloud_logs_sa +:+
    PyStr.dquote +:+ " " +:+ PyStr.backslash +:+ PyStr.newline +:+
  "--role=" +:+ PyStr.dquote +:+ "roles/pubsub.publisher" +:+ PyStr.dquote.

Definition endpoint_not_found (model_endpoint monitoring_location : string) : exn :=
  ValueError ("Model endpoint " +:+ model_endpoint +:+ " not found in " +:+
              monitoring_location).

(** Lines 176 to 192: the objective configuration. *)
Definition objective_config_of
    (skew_thresholds drift_thresholds : option thresholds)
    (training_dataset target_field : string) : ObjectiveConfig :=
  let skew_config :=
    if truthy_list skew_thresholds
    then Some (mkSkew training_dataset (default [] skew_thresholds) target_field)
    else None in
  let drift_config :=
    if truthy_list drift_thresholds
    then Some (mkDrift (default [] drift_thresholds))
    else None in
  mkObjective skew_config drift_config None.

(** Lines 167 to 234: resolve the endpoint, assemble the configurations,
    create the job or update the first one found.  Yields the resource
    name of the job object. *)
Definition resolve_and_upsert_job
    (alert_emails : option (list string))
    (drift_thresholds : option thresholds)
    (job_display_name model_endpoint : string)
    (monitoring_interval : Z)
    (monitoring_location project_id : string)
    (sample_rate : Q)
    (skew_thresholds : option thresholds)
    (target_field training_dataset : string) : M string :=
  aiplatform_init project_id monitoring_location;;
  (* check if endpoint exists *)
  endpoint_list ← Endpoint_list
    ("endpoint=" +:+ PyStr.dquote +:+ PyStr.last_segment model_endpoint +:+ PyStr.dquote);
  endpoint ← match endpoint_list with
             | [] => raise (endpoint_not_found model_endpoint monitoring_location)
             | _ :: _ => Endpoint model_endpoint
             end;
  (* Set skew and drift thresholds *)
  let objective_config :=
    objective_config_of skew_thresholds drift_thresholds training_dataset target_field in
  let random_sampling := mkSampling sample_rate in
  let schedule_config := mkSchedule monitoring_interval in
  let alert_emails := if truthy_list alert_emails then default [] alert_emails else [] in
  let alerting_config := mkAlert alert_emails true in
  (* check if job already exists *)
  job_list ← ModelDeploymentMonitoringJob_list
    ("display_name=" +:+ PyStr.dquote +:+ job_display_name +:+ PyStr.dquote);
  match job_list with
  | [] =>
      ModelDeploymentMonitoringJob_create
        (mkCreate job_display_name random_sampling schedule_config alerting_config
                  objective_config project_id monitoring_location endpoint true)
  | first :: _ =>
      let old_job_id := PyStr.last_segment first in
      job ← ModelDeploymentMonitoringJob_update old_job_id
        (mkUpdate job_display_name random_sampling schedule_config alerting_config
                  objective_config true);
      print ("Updated monitoring job " +:+ old_job_id +:+ " with new arguments.");;
      mret job
  end.

(** Lines 236 to 264: with retraining parameters, route the anomaly logs
    of the job to the topic and let the logging account publish. *)
Definition route_anomaly_logs
    (auto_retraining_params : option loc)
    (gs_auto_retraining_params_path log_sink_name monitoring_location project_id
       pubsub_topic_name : string)
    (job : string) : M unit :=
  retrain ← truthy_params auto_retraining_params;
  if retrain : bool then
    let job_id := PyStr.last_segment job in
    create_or_update_sink log_sink_name
      (anomaly_log_destination project_id pubsub_topic_name)
      (monitoring_anomaly_log_filter monitoring_location job_id project_id);;
    print ("All anomaly logs for this model monitoring job are being routed to pub/sub topic "
           +:+ pubsub_topic_name +:+ " for automatic retraining.");;
    print ("Retraining will use the following parameters located at "
           +:+ gs_auto_retraining_params_path +:+ ": " +:+ PyStr.newline);;
    d ← from_option deref (mret []) auto_retraining_params;
    emit (PPrint d);;
    print (PyStr.newline +:+ "Updating " +:+ cloud_logs_sa +:+ " with roles/pubsub.publisher");;
    execute_process (update_iam project_id) true
  else mret tt.

Definition create_or_update_monitoring_job
    (alert_emails : option (list string))
    (auto_retraining_params : option loc)
    (drift_thresholds : option thresholds)
    (gs_auto_retraining_params_path job_display_name log_sink_name
       model_endpoint : string)
    (monitoring_interval : Z)
    (monitoring_location project_id pubsub_topic_name : string)
    (sample_rate : Q)
    (skew_thresholds : option thresholds)
    (target_field training_dataset : string) : M unit :=
  job ← resolve_and_upsert_job alert_emails drift_thresholds job_display_name
          model_endpoint monitoring_interval monitoring_location project_id
          sample_rate skew_thresholds target_field training_dataset;
  route_anomaly_logs auto_retraining_params gs_auto_retraining_params_path
    log_sink_name monitoring_location project_id pubsub_topic_name job.
End Script.

(** ** The configuration file, once loaded *)

Record gcp_config := mkGcp {
  project_id : string;
  storage_bucket_name : string;
  pubsub_topic_name : string }.

Record monitoring_config := mkMonitoring {
  alert_emails : option (list string);
  auto_retraining_params : option loc;
  drift_thresholds_cfg : option thresholds;
  skew_thresholds_cfg : option thresholds;
  gs_auto_retraining_params_path : string;
  job_display_name : string;
  log_sink_name : string;
  model_endpoint : string;
  monitoring_interval : Z;
  monitoring_location : string;
  sample_rate_cfg : Q;
  target_field_cfg : string;
  training_dataset : string }.

Record pipelines_config := mkPipelines {
  gs_pipeline_job_spec_path : string }.

Record config := mkConfig {
  gcp : gcp_config;
  monitoring : monitoring_config;
  pipelines : pipelines_config }.

(** The body under [if __name__ == '__main__'], after the file is loaded. *)
Definition main (E : env) (cfg : config) : M unit :=
  retrain ← truthy_params (auto_retraining_params (monitoring cfg));
  (if retrain : bool then
     from_option
       (fun r =>
          upload_automatic_retraining_parameters E r
            (gs_auto_retraining_params_path (monitoring cfg))
            (gs_pipeline_job_spec_path (pipelines cfg))
            (storage_bucket_name (gcp cfg)))
       (mret tt) (auto_retraining_params (monitoring cfg))
   else mret tt);;
  create_or_update_monitoring_job E
    (alert_emails (monitoring cfg))
    (auto_retraining_params (monitoring cfg))
    (drift_thresholds_cfg (monitoring cfg))
    (gs_auto_retraining_params_path (monitoring cfg))
    (job_display_name (monitoring cfg))
    (log_sink_name (monitoring cfg))
    (model_endpoint (monitoring cfg))
    (monitoring_interval (monitoring cfg))
    (monitoring_location (monitoring cfg))
    (project_id (gcp cfg))
    (pubsub_topic_name (gcp cfg))
    (sample_rate_cfg (monitoring cfg))
    (skew_thresholds_cfg (monitoring cfg))
    (target_field_cfg (monitoring cfg))
    (training_dataset (monitoring cfg)).

(** ** Observing a run *)

(** The calls a computation adds to the trace when started in [s]. *)
Definition calls_made {A} (c : M A) (s : state) : list call :=
  drop (length (trace s)) (trace (c s).2).

Definition outcome {A} (c : M A) (s : state) : result A := (c s).1.

Definition final {A} (c : M A) (s : state) : state := (c s).2.

Definition is_job_create (c : call) : bool :=
  match c with JobCreate _ => true | _ => false end.
Definition is_job_update (c : call) : bool :=
  match c with JobUpdate _ _ => true | _ => false end.
Definition is_job_upsert (c : call) : bool := is_job_create c || is_job_update c.
Definition is_sink_create (c : call) : bool :=
  match c with SinkCreate _ _ _ => true | _ => false end.
Definition is_sink_update (c : call) : bool :=
  match c with SinkUpdate _ _ _ => true | _ => false end.
Definition is_sink_upsert (c : call) : bool := is_sink_create c || is_sink_update c.
Definition is_uploader_call (c : call) : bool :=
  match c with
  | FileWrite _ _ _ | StorageGetBucket _ | BlobUploadFromFilename _ _ _ => true
  | _ => false
  end.
Definition is_iam_grant (c : call) : bool :=
  match c with SubprocessRun _ _ _ _ _ => true | _ => false end.

(** Every [p]-call of the trace comes before every [q]-call. *)
Fixpoint all_before (p q : call -> bool) (tr : list call) : bool :=
  match tr with
  | [] => true
  | c :: tr' => (if q c then forallb (fun x => negb (p x)) (c :: tr') else true)
                && all_before p q tr'
  end.

(** Every [q]-call of the trace has a [p]-call somewhere before it. *)
Fixpoint preceded_by (p q : call -> bool) (seen : bool) (tr : list call) : bool :=
  match tr with
  | [] => true
  | c :: tr' => (if q c then seen else true) && preceded_by p q (seen || p c) tr'
  end.


(** The files once a write of [bytes] to [filepath] in mode [w] has failed:
    as they were if the file could not be opened, with the file cut to the
    bytes that got through if it could. *)
Definition left_by_failed_write (E : env) (filepath bytes : string)
    (fs : gmap string string) : gmap string string :=
  match written_before_error E filepath with
  | None => fs
  | Some n => <[filepath := PyStr.take n bytes]> fs
  end.

(** The calls [create_or_update_sink] makes, by whether the sink is there. *)
Definition sink_calls (present : bool) (sink_name destination filter_ : string)
    : list call :=
  if present then
    [SinkExists sink_name; SinkUpdate sink_name filter_ destination;
     Print ("Updated Anomaly Log Sink " +:+ sink_name +:+ "." +:+ PyStr.newline)]
  else
    [SinkExists sink_name; SinkCreate sink_name filter_ destination;
     Print ("Created Anomaly Log Sink " +:+ sink_name +:+ "." +:+ PyStr.newline)].

(** The mapping an argument of the script denotes in a store: nothing for
    [None]. *)
Definition params_in (s : state) (p : option loc) : option pydict :=
  match p with
  | Some r => heap s !! r
  | None => None
  end.

(** [auto_retraining_params] is a non-empty mapping. *)
Definition retraining_configured (s : state) (p : option loc) : bool :=
  match params_in s p with
  | Some (_ :: _) => true
  | _ => false
  end.

(** The trace has a call satisfying the first test, later one satisfying the
    second, and so on. *)
Fixpoint in_order (ps : list (call -> bool)) (tr : list call) : bool :=
  match tr with
  | [] => match ps with [] => true | _ :: _ => false end
  | c :: tr' =>
      match ps with
      | [] => true
      | p :: ps' => if p c then in_order ps' tr' else in_order ps tr'
      end
  end.

(** The run of the script gets as far as the IAM grant: retraining
    parameters are configured, the parameter file can be written and the
    endpoint is found. *)
Definition reaches_grant (E : env) (cfg : config) (s : state) : bool :=
  retraining_configured s (auto_retraining_params (monitoring cfg))
  && match open_error E local_params_file with
     | None => true
     | Some _ => false
     end
  && match endpoint_list E (project_id (gcp cfg)) (monitoring_location (monitoring cfg))
             ("endpoint=" +:+ PyStr.dquote +:+
              PyStr.last_segment (model_endpoint (monitoring cfg)) +:+ PyStr.dquote) with
     | [] => false
     | _ :: _ => true
     end.

(** The same configuration with another topic name. *)
Definition with_topic (topic : string) (cfg : config) : config :=
  mkConfig (mkGcp (project_id (gcp cfg)) (storage_bucket_name (gcp cfg)) topic)
           (monitoring cfg) (pipelines cfg).

(** The same configuration with [auto_retraining_params: null]. *)
Definition without_params (cfg : config) : config :=
  mkConfig (gcp cfg)
    (mkMonitoring
       (alert_emails (monitoring cfg)) None
       (drift_thresholds_cfg (monitoring cfg)) (skew_thresholds_cfg (monitoring cfg))
       (gs_auto_retraining_params_path (monitoring cfg))
       (job_display_name (monitoring cfg)) (log_sink_name (monitoring cfg))
       (model_endpoint (monitoring cfg)) (monitoring_interval (monitoring cfg))
       (monitoring_location (monitoring cfg)) (sample_rate_cfg (monitoring cfg))
       (target_field_cfg (monitoring cfg)) (training_dataset (monitoring cfg)))
    (pipelines cfg).

(** ** A concrete deployment, for worked examples *)

Module Example.

Definition endpoint_name : string := "projects/p/locations/us-central1/endpoints/123".
Definition endpoint_filter : string :=
  "endpoint=" +:+ PyStr.dquote +:+ "123" +:+ PyStr.dquote.
Definition job_filter : string :=
  "display_name=" +:+ PyStr.dquote +:+ "job1" +:+ PyStr.dquote.
Definition job_name (job_id : string) : string :=
  "projects/p/locations/us-central1/modelDeploymentMonitoringJobs/" +:+ job_id.

(** Project [p] in [us-central1] with the given endpoints matching
    [endpoint_filter] and the given jobs named [job1]; child processes exit
    with [status]; files can be written. *)
Definition cloud (endpoints jobs : list string) (status : Z) : env :=
  mkEnv
    (fun project location filter =>
       if String.eqb project "p" && String.eqb location "us-central1" &&
          String.eqb filter endpoint_filter
       then endpoints else [])
    (fun project location filter =>
       if String.eqb project "p" && String.eqb location "us-central1" &&
          String.eqb filter job_filter
       then jobs else [])
    (fun _ => job_name "9001")
    job_name
    (fun _ => status)
    (fun _ _ => "Command returned non-zero exit status.")
    (fun _ => None)
    (fun _ => None)
    (fun errno path =>
       (if (errno =? 17)%Z then "[Errno 17] File exists: "
        else if (errno =? 2)%Z then "[Errno 2] No such file or directory: "
        else "[Errno] ") +:+ "'" +:+ path +:+ "'").

(** Nothing allocated, written or registered yet. *)
Definition fresh : state := mkState ∅ ∅ ∅ ∅ None [].

(** The retraining parameters [{a: 1}] held at reference 1. *)
Definition params_ref : loc := 1%positive.
Definition with_params : state :=
  mkState {[ params_ref := [("a", PInt 1)] ]} ∅ ∅ ∅ None [].

Definition run_job (E : env) (params : option loc) : M unit :=
  create_or_update_monitoring_job E None params (Some [("f1", 1 # 10)])
    "gs://b/params.json" "job1" "sink1" endpoint_name 1 "us-central1" "p" "topic1"
    (8 # 10) None "label" "bq://p.d.t".

(** The configuration of the scenario with retraining parameters. *)
Definition config_with_params : config :=
  mkConfig
    (mkGcp "p" "b" "topic1")
    (mkMonitoring None (Some params_ref) (Some [("f1", 1 # 10)]) None
       "gs://b/params.json" "job1" "sink1" endpoint_name 1 "us-central1" (8 # 10)
       "label" "bq://p.d.t")
    (mkPipelines "gs://b/spec.json").

(** The same scenario without retraining parameters. *)
Definition config_without_params : config :=
  mkConfig (gcp config_with_params)
    (mkMonitoring None None (Some [("f1", 1 # 10)]) None
       "gs://b/params.json" "job1" "sink1" endpoint_name 1 "us-central1" (8 # 10)
       "label" "bq://p.d.t")
    (pipelines config_with_params).

Definition run_upload (E : env) : M unit :=
  upload_automatic_retraining_parameters E params_ref "gs://b/params.json"
    "gs://b/spec.json" "b".

(** The same project on a machine where the parameter file cannot be
    written. *)
Definition read_only_cloud : env :=
  mkEnv (endpoint_list (cloud [endpoint_name] [] 0))
        (job_list (cloud [endpoint_name] [] 0))
        (fun _ => job_name "9001")
        job_name
        (fun _ => 0%Z)
        (fun _ _ => "Command returned non-zero exit status.")
        (fun _ => Some "[Errno 30] Read-only file system")
        (fun _ => None)
        (str_os_error (cloud [endpoint_name] [] 0)).

(** The same project on a machine whose disk is full: the parameter file is
    opened, and emptied, and none of the text reaches it. *)
Definition full_disk_cloud : env :=
  mkEnv (endpoint_list (cloud [endpoint_name] [] 0))
        (job_list (cloud [endpoint_name] [] 0))
        (fun _ => job_name "9001")
        job_name
        (fun _ => 0%Z)
        (fun _ _ => "Command returned non-zero exit status.")
        (fun _ => Some "[Errno 28] No space left on device")
        (fun _ => Some 0)
        (str_os_error (cloud [endpoint_name] [] 0)).

(** The parameters [{window: (1, 2)}] held at reference 1: a tuple, as the
    loader builds it from a [!!python/tuple] node. *)
Definition with_tuple_params : state :=
  mkState {[ params_ref := [("window", PTuple [PInt 1; PInt 2])] ]} ∅ ∅ ∅ None [].

(** The parameters [{}] held at reference 1. *)
Definition with_empty_params : state :=
  mkState {[ params_ref := [] ]} ∅ ∅ ∅ None [].

(** The job arguments [run_job] assembles. *)
Definition objective : ObjectiveConfig :=
  mkObjective None (Some (mkDrift [("f1", 1 # 10)])) None.
Definition create_args : job_create_args :=
  mkCreate "job1" (mkSampling (8 # 10)) (mkSchedule 1) (mkAlert [] true) objective
           "p" "us-central1" endpoint_name true.
Definition update_args : job_update_args :=
  mkUpdate "job1" (mkSampling (8 # 10)) (mkSchedule 1) (mkAlert [] true) objective true.

End Example.

(** ** Proof support *)

Lemma append_assoc (a b c : string) : (a +:+ b) +:+ c = a +:+ b +:+ c.
Proof.
  induction a as [|x a IH]; [reflexivity|].
  change (String x ((a +:+ b) +:+ c) = String x (a +:+ b +:+ c)).
  rewrite IH. reflexivity.
Qed.

Lemma append_nil_r (a : string) : a +:+ EmptyString = a.
Proof.
  induction a as [|x a IH]; [reflexivity|].
  change (String x (a +:+ EmptyString) = String x a).
  rewrite IH. reflexivity.
Qed.

Lemma calls_made_app {A} (c : M A) (s : state) (new : list call) :
  trace (c s).2 = trace s ++ new -> calls_made c s = new.
Proof.
  intros H. unfold calls_made. rewrite H. apply drop_app_length.
Qed.

Lemma app_snoc_cons {A} (l k : list A) (x : A) : (l ++ [x]) ++ k = l ++ x :: k.
Proof. rewrite <- app_assoc. reflexivity. Qed.

Lemma bind_returned {A B} (c : M A) (k : A -> M B) (s s' : state) (a : A) :
  c s = (Returned a, s') -> (c ≫= k) s = k a s'.
Proof. intros H. unfold mbind, M_bind, bind. rewrite H. reflexivity. Qed.

Lemma bind_raised {A B} (c : M A) (k : A -> M B) (s s' : state) (e : exn) :
  c s = (Raised e, s') -> (c ≫= k) s = (Raised e, s').
Proof. intros H. unfold mbind, M_bind, bind. rewrite H. reflexivity. Qed.

Lemma calls_made_eq {A} (c : M A) (s s' : state) (r : result A) (new : list call) :
  c s = (r, s') -> trace s' = trace s ++ new -> calls_made c s = new.
Proof. intros H Ht. apply calls_made_app. rewrite H. exact Ht. Qed.

(** Unfold the monad and one layer of the script's primitives. *)
Ltac unfold_monad :=
  unfold mbind, M_bind, bind, mret, M_ret, ret, raise, try_except, emit, modify,
    get_state, outcome, final in *.

Ltac unfold_calls :=
  unfold print, subprocess_run, storage_get_bucket, upload_from_filename,
    sink_exists, sink_update, sink_create, aiplatform_init, ai_project_location,
    Endpoint_list, Endpoint, ModelDeploymentMonitoringJob_list,
    ModelDeploymentMonitoringJob_create, ModelDeploymentMonitoringJob_update,
    deref, dict_setitem, truthy_params in *.

(** Put a trace built by successive appends into the form [trace s ++ calls]. *)
Ltac normalise_trace :=
  repeat rewrite app_snoc_cons; try rewrite app_nil_r.

(** ** [execute_process] *)

Section ExecuteProcess.
Variable E : env.

Lemma execute_process_run (command : string) (to_null : bool) (s : state) :
  execute_process E command to_null s =
  (if (returncode_of E [command] =? 0)%Z then Returned tt
   else Raised (RuntimeError
          ("Error executing process. " +:+
           str_called_process_error E (returncode_of E [command]) [command])
          (Some (CalledProcessError (returncode_of E [command]) [command]))),
   set_trace (trace s ++ [SubprocessRun [command] true true
                            (if to_null then DEVNULL else Inherit) STDOUT]) s).
Proof.
  unfold execute_process. unfold_calls. unfold_monad. simpl.
  destruct (returncode_of E [command] =? 0)%Z; reflexivity.
Qed.
End ExecuteProcess.

(** ** [create_or_update_sink] *)

Lemma create_or_update_sink_run (sink_name destination filter_ : string) (s : state) :
  create_or_update_sink sink_name destination filter_ s =
  (Returned tt,
   mkState (heap s) (files s) (blobs s)
     (<[sink_name := mkSink filter_ destination]> (sinks s)) (ai_context s)
     (trace s ++ sink_calls (bool_decide (is_Some (sinks s !! sink_name)))
                            sink_name destination filter_)).
Proof.
  unfold create_or_update_sink, sink_calls. unfold_calls. unfold_monad. simpl.
  destruct (bool_decide (is_Some (sinks s !! sink_name))); simpl;
    unfold set_sinks, set_trace; simpl; normalise_trace; reflexivity.
Qed.

Ltac step := repeat progress (unfold_calls; unfold_monad; simpl).


(** ** Reading orderings off a trace *)

Lemma forallb_lookup {A} (f : A -> bool) (l : list A) (i : nat) (x : A) :
  forallb f l = true -> l !! i = Some x -> f x = true.
Proof.
  revert i. induction l as [|y l IH]; intros i Hall Hi; [discriminate|].
  simpl in Hall. apply andb_true_iff in Hall as [Hy Hl].
  destruct i as [|i]; simpl in Hi.
  - congruence.
  - eapply IH; eassumption.
Qed.

Lemma all_before_spec (p q : call -> bool) (tr : list call) :
  all_before p q tr = true ->
  forall i j u c,
    tr !! i = Some u -> p u = true -> tr !! j = Some c -> q c = true -> i < j.
Proof.
  induction tr as [|c0 tr IH]; intros Hall i j u c Hi Hu Hj Hc; [discriminate|].
  simpl in Hall. apply andb_true_iff in Hall as [Hhead Htail].
  destruct j as [|j].
  - simpl in Hj. injection Hj as ->. rewrite Hc in Hhead.
    pose proof (forallb_lookup (fun x => negb (p x)) (c :: tr) i u Hhead Hi) as Hn.
    simpl in Hn.
    rewrite Hu in Hn. discriminate.
  - destruct i as [|i]; [lia|]. simpl in Hi, Hj.
    pose proof (IH Htail i j u c Hi Hu Hj Hc). lia.
Qed.

Lemma preceded_by_spec (p q : call -> bool) (tr : list call) (seen : bool) :
  preceded_by p q seen tr = true ->
  forall k c,
    tr !! k = Some c -> q c = true ->
    seen = true \/ exists j u, j < k /\ tr !! j = Some u /\ p u = true.
Proof.
  revert seen. induction tr as [|c0 tr IH]; intros seen Hall k c Hk Hc; [discriminate|].
  simpl in Hall. apply andb_true_iff in Hall as [Hhead Htail].
  destruct k as [|k]; simpl in Hk.
  - injection Hk as ->. rewrite Hc in Hhead. left. exact Hhead.
  - destruct (IH _ Htail k c Hk Hc) as [Hseen | (j & u & Hlt & Hj & Hu)].
    + apply orb_true_iff in Hseen as [Hs | Hp]; [left; exact Hs|].
      right. exists 0, c0. repeat split; [lia | exact Hp].
    + right. exists (S j), u. repeat split; [lia | exact Hj | exact Hu].
Qed.

Lemma calls_made_trace {A} (c : M A) (s : state) (new : list call) :
  trace (final c s) = trace s ++ new ->
  trace (final c s) = trace s ++ calls_made c s.
Proof. intros H. rewrite (calls_made_app c s new H). exact H. Qed.

(** ** Decoding what the encoder writes *)

Example dumps_small :
  Json.dumps [("a", PInt 1); ("gs_pipeline_spec_path", PStr "gs://b/spec.json")] =
  "{" +:+ PyStr.newline +:+
  "    " +:+ PyStr.dquote +:+ "a" +:+ PyStr.dquote +:+ ": 1," +:+ PyStr.newline +:+
  "    " +:+ PyStr.dquote +:+ "gs_pipeline_spec_path" +:+ PyStr.dquote +:+ ": " +:+
  PyStr.dquote +:+ "gs://b/spec.json" +:+ PyStr.dquote +:+ PyStr.newline +:+ "}".
Proof. reflexivity. Qed.

Example loads_nested :
  Json.loads "  [1, 2 , -0,10,  {}  ] " =
    Some (PList [PInt 1; PInt 2; PInt 0; PInt 10; PDict []])
  /\ Json.loads "[1, 2.5]" = None
  /\ Json.loads "[01]" = None.
Proof. vm_compute. repeat split. Qed.

Section PyvalInduction.
Variable P : pyval -> Prop.
Hypothesis HNone : P PNone.
Hypothesis HBool : forall b, P (PBool b).
Hypothesis HInt : forall z, P (PInt z).
Hypothesis HStr : forall s, P (PStr s).
Hypothesis HList : forall items, Forall P items -> P (PList items).
Hypothesis HTuple : forall items, Forall P items -> P (PTuple items).
Hypothesis HDict : forall entries, Forall (fun kv => P (snd kv)) entries -> P (PDict entries).

(** Induction on values, with the hypothesis for every item of a list and
    every value of a mapping. *)
Lemma pyval_nested_ind : forall v, P v.
Proof.
  fix IH 1. intros [| b | z | s | items | items | entries].
  - exact HNone.
  - apply HBool.
  - apply HInt.
  - apply HStr.
  - apply HList. induction items as [|x items IHitems]; constructor.
    + apply IH.
    + exact IHitems.
  - apply HTuple. induction items as [|x items IHitems]; constructor.
    + apply IH.
    + exact IHitems.
  - apply HDict. induction entries as [|[k x] entries IHentries]; constructor.
    + apply IH.
    + exact IHentries.
Qed.
End PyvalInduction.

(** *** Strings *)

Lemma scanstring_escape (c : ascii) (tail : list ascii) :
  Json.scanstring (Json.escape_char c ++ tail) = Json.prepend c (Json.scanstring tail).
Proof.
  destruct c as [[] [] [] [] [] [] [] []]; reflexivity.
Qed.

Lemma scanstring_encoded (cs rest : list ascii) :
  Json.scanstring (flat_map Json.escape_char cs ++ Json.quote :: rest) = Some (cs, rest).
Proof.
  induction cs as [|c cs IH]; [reflexivity|].
  simpl. rewrite <- app_assoc, scanstring_escape, IH. reflexivity.
Qed.

Lemma encode_string_app (s : string) (rest : list ascii) :
  Json.encode_string s ++ rest =
  Json.quote :: flat_map Json.escape_char (Json.chars s) ++ Json.quote :: rest.
Proof. unfold Json.encode_string. simpl. rewrite <- app_assoc. reflexivity. Qed.

Lemma scan_string (s : string) (fuel : nat) (rest : list ascii) :
  Json.scan_once (S fuel) (Json.encode_string s ++ rest) = Some (PStr s, rest).
Proof.
  rewrite encode_string_app. simpl. rewrite scanstring_encoded.
  unfold Json.chars. rewrite string_of_list_ascii_of_string. reflexivity.
Qed.

(** *** White space *)

Lemma skip_ws_spaces (n : nat) (tail : list ascii) :
  Json.skip_ws (repeat (ascii_of_nat 32) n ++ tail) = Json.skip_ws tail.
Proof. induction n as [|n IH]; [reflexivity | exact IH]. Qed.

Lemma skip_ws_newline_indent (indent level : nat) (tail : list ascii) :
  Json.skip_ws (Json.newline_indent indent level ++ tail) = Json.skip_ws tail.
Proof. unfold Json.newline_indent. simpl. apply skip_ws_spaces. Qed.

Lemma skip_ws_head (c : ascii) (tail : list ascii) :
  Json.is_ws c = false -> Json.skip_ws (c :: tail) = c :: tail.
Proof. intros H. simpl. rewrite H. reflexivity. Qed.

(** *** Integers *)

Lemma chars_cons (c : ascii) (s : string) : Json.chars (String c s) = c :: Json.chars s.
Proof. reflexivity. Qed.

Lemma span_digits_uint (u : Decimal.uint) (rest : list ascii) :
  Json.starts_with_digit rest = false ->
  Json.span_digits (Json.chars (NilEmpty.string_of_uint u) ++ rest) =
  (Json.chars (NilEmpty.string_of_uint u), rest).
Proof.
  intros Hrest. induction u as [|u IH|u IH|u IH|u IH|u IH|u IH|u IH|u IH|u IH|u IH];
    try (simpl; rewrite ?chars_cons; simpl; rewrite IH; reflexivity).
  simpl. destruct rest as [|c rest]; [reflexivity|].
  simpl in *. rewrite Hrest. reflexivity.
Qed.

Lemma nzhead_not_D0 (d d' : Decimal.uint) : Decimal.nzhead d <> Decimal.D0 d'.
Proof. induction d; simpl; try discriminate; assumption. Qed.

Lemma to_uint_not_D0 (p : positive) (d : Decimal.uint) : Pos.to_uint p <> Decimal.D0 d.
Proof.
  intros H.
  assert (Hn : Decimal.unorm (Pos.to_uint p) = Pos.to_uint p).
  { rewrite <- (DecimalPos.Unsigned.to_of (Pos.to_uint p)).
    rewrite DecimalPos.Unsigned.of_to. reflexivity. }
  rewrite H in Hn. unfold Decimal.unorm in Hn. simpl in Hn.
  destruct (Decimal.nzhead d) eqn:Hz; try discriminate.
  - injection Hn as <-. apply (DecimalPos.Unsigned.to_uint_nonzero p). exact H.
  - exact (nzhead_not_D0 _ _ Hz).
Qed.

Lemma int_of_text_encode (z : Z) : Json.int_of_text (Json.encode_int z) = Some z.
Proof.
  unfold Json.int_of_text, Json.encode_int, Json.chars.
  rewrite string_of_list_ascii_of_string, NilEmpty.isi. simpl.
  rewrite DecimalZ.of_to. reflexivity.
Qed.

(** The integer pattern reads the digits of a positive number whole. *)
Lemma match_integer_pos (p : positive) (rest : list ascii) :
  Json.starts_with_digit rest = false ->
  Json.match_integer (Json.chars (NilEmpty.string_of_uint (Pos.to_uint p)) ++ rest) =
  Some (Json.chars (NilEmpty.string_of_uint (Pos.to_uint p)), rest).
Proof.
  intros Hrest.
  pose proof (to_uint_not_D0 p) as H0.
  pose proof (DecimalPos.Unsigned.to_uint_nonnil p) as Hnil.
  destruct (Pos.to_uint p) as [|u|u|u|u|u|u|u|u|u|u];
    [contradiction | exfalso; eapply H0; reflexivity | ..];
    simpl; rewrite ?chars_cons; unfold Json.match_integer; simpl;
    rewrite (span_digits_uint u rest Hrest); reflexivity.
Qed.

Lemma match_integer_neg (p : positive) (rest : list ascii) :
  Json.starts_with_digit rest = false ->
  Json.match_integer
    (Json.chars (String "-" (NilEmpty.string_of_uint (Pos.to_uint p))) ++ rest) =
  Some (Json.chars (String "-" (NilEmpty.string_of_uint (Pos.to_uint p))), rest).
Proof.
  intros Hrest.
  pose proof (to_uint_not_D0 p) as H0.
  pose proof (DecimalPos.Unsigned.to_uint_nonnil p) as Hnil.
  destruct (Pos.to_uint p) as [|u|u|u|u|u|u|u|u|u|u];
    [contradiction | exfalso; eapply H0; reflexivity | ..];
    simpl; rewrite ?chars_cons; unfold Json.match_integer; simpl;
    rewrite (span_digits_uint u rest Hrest); reflexivity.
Qed.

Lemma match_integer_encode (z : Z) (rest : list ascii) :
  Json.starts_with_digit rest = false ->
  Json.match_integer (Json.encode_int z ++ rest) = Some (Json.encode_int z, rest).
Proof.
  intros Hrest. destruct z as [|p|p].
  - reflexivity.
  - apply match_integer_pos, Hrest.
  - apply match_integer_neg, Hrest.
Qed.

Lemma match_number_encode (z : Z) (rest : list ascii) :
  Json.delimited rest = true ->
  Json.match_number (Json.encode_int z ++ rest) = Some (PInt z, rest).
Proof.
  unfold Json.delimited. intros H. apply andb_true_iff in H as [Hd Hf].
  apply negb_true_iff in Hd, Hf.
  unfold Json.match_number. rewrite (match_integer_encode z rest Hd), Hf.
  rewrite int_of_text_encode. reflexivity.
Qed.

(** The first character of an integer: a digit or the minus sign. *)
Lemma encode_int_head (z : Z) :
  exists c tail, Json.encode_int z = c :: tail /\
                 (Json.is_digit c = true \/ N_of_ascii c = 45%N).
Proof.
  destruct z as [|p|p].
  - exists "0"%char, []. split; [reflexivity | left; reflexivity].
  - unfold Json.encode_int. simpl.
    pose proof (DecimalPos.Unsigned.to_uint_nonnil p) as Hnil.
    destruct (Pos.to_uint p); [contradiction | ..];
      simpl; rewrite ?chars_cons; eexists _, _; (split; [reflexivity | left; reflexivity]).
  - unfold Json.encode_int. simpl. rewrite ?chars_cons.
    eexists _, _. split; [reflexivity | right; reflexivity].
Qed.

Lemma scan_int (z : Z) (fuel : nat) (rest : list ascii) :
  Json.delimited rest = true ->
  Json.scan_once (S fuel) (Json.encode_int z ++ rest) = Some (PInt z, rest).
Proof.
  intros Hrest. pose proof (match_number_encode z rest Hrest) as Hnum.
  destruct (encode_int_head z) as (c & tail & Hc & Hhead).
  rewrite Hc in *. simpl app in *. cbn [Json.scan_once].
  assert (Hn : ((N_of_ascii c =? 34) || (N_of_ascii c =? 123) || (N_of_ascii c =? 91) ||
                (N_of_ascii c =? 110) || (N_of_ascii c =? 116) ||
                (N_of_ascii c =? 102))%N = false).
  { destruct Hhead as [Hdig | H45].
    - unfold Json.is_digit in Hdig. apply andb_true_iff in Hdig as [Hlo Hhi].
      apply N.leb_le in Hlo, Hhi.
      repeat (apply orb_false_iff; split); apply N.eqb_neq; lia.
    - rewrite H45. reflexivity. }
  repeat (apply orb_false_iff in Hn as [Hn ?]).
  repeat match goal with H : (_ =? _)%N = false |- _ => rewrite H; clear H end.
  exact Hnum.
Qed.

(** *** The shape of encoded lists and mappings *)

Section Shape.
Variable indent : nat.

Lemma encode_list_cons (level : nat) (x : pyval) (xs : list pyval) :
  Json.encode indent level (PList (x :: xs)) =
  Json.chars "[" ++ Json.newline_indent indent (S level) ++
  Json.encode indent (S level) x ++ Json.encode_more_items indent level xs ++
  Json.newline_indent indent level ++ Json.chars "]".
Proof.
  cbn [Json.encode]. do 3 f_equal.
  induction xs as [|y ys IH]; [reflexivity|].
  cbn [Json.encode_more_items flat_map]. rewrite <- !app_assoc.
  do 3 f_equal. exact IH.
Qed.

Lemma encode_dict_cons (level : nat) (k : string) (x : pyval)
    (xs : list (string * pyval)) :
  Json.encode indent level (PDict ((k, x) :: xs)) =
  Json.chars "{" ++ Json.newline_indent indent (S level) ++
  Json.encode_string k ++ Json.chars ": " ++ Json.encode indent (S level) x ++
  Json.encode_more_entries indent level xs ++
  Json.newline_indent indent level ++ Json.chars "}".
Proof.
  cbn [Json.encode]. do 5 f_equal.
  induction xs as [|[k' y] ys IH]; [reflexivity|].
  cbn [Json.encode_more_entries flat_map fst snd]. rewrite <- !app_assoc.
  do 5 f_equal. exact IH.
Qed.

Lemma need_list (xs : list pyval) : Json.need (PList xs) = S (Json.need_items xs).
Proof. reflexivity. Qed.

Lemma need_dict (xs : list (string * pyval)) :
  Json.need (PDict xs) = S (Json.need_entries xs).
Proof.
  cbn [Json.need]. f_equal.
  induction xs as [|[k x] xs IH]; [reflexivity|]. simpl. rewrite <- IH. reflexivity.
Qed.

Lemma well_formed_list (xs : list pyval) :
  Json.well_formed (PList xs) = forallb Json.well_formed xs.
Proof. reflexivity. Qed.

Lemma tuple_free_list (xs : list pyval) :
  Json.tuple_free (PList xs) = forallb Json.tuple_free xs.
Proof. reflexivity. Qed.

Lemma tuple_free_dict_cons (k : string) (x : pyval) (xs : list (string * pyval)) :
  Json.tuple_free (PDict ((k, x) :: xs)) =
  Json.tuple_free x && Json.tuple_free (PDict xs).
Proof. reflexivity. Qed.

Lemma well_formed_dict (xs : list (string * pyval)) :
  Json.well_formed (PDict xs) =
  (fix all (l : list (string * pyval)) : bool :=
     match l with
     | [] => true
     | (k, x) :: l' => Json.fresh_key k l' && Json.well_formed x && all l'
     end) xs.
Proof. reflexivity. Qed.

Lemma well_formed_dict_cons (k : string) (x : pyval) (xs : list (string * pyval)) :
  Json.well_formed (PDict ((k, x) :: xs)) =
  Json.fresh_key k xs && Json.well_formed x && Json.well_formed (PDict xs).
Proof. reflexivity. Qed.

(** The first character of an encoded value starts a value: it is no white
    space and closes nothing. *)
Lemma encode_head (level : nat) (v : pyval) :
  exists c tail,
    Json.encode indent level v = c :: tail /\
    Json.is_ws c = false /\
    (N_of_ascii c =? 93)%N = false /\ (N_of_ascii c =? 125)%N = false.
Proof.
  destruct v as [| [|] | z | s | [|x xs] | [|x xs] | [|[k x] xs]];
    try (eexists _, _; repeat split; reflexivity).
  destruct (encode_int_head z) as (c & tail & Hc & Hhead).
  exists c, tail. split; [exact Hc|].
  destruct Hhead as [Hdig | H45].
  - unfold Json.is_digit in Hdig. apply andb_true_iff in Hdig as [Hlo Hhi].
    apply N.leb_le in Hlo, Hhi. unfold Json.is_ws.
    repeat split; repeat (apply orb_false_iff; split); apply N.eqb_neq; lia.
  - unfold Json.is_ws. rewrite H45. repeat split.
Qed.

Lemma skip_ws_encode (level : nat) (v : pyval) (tail : list ascii) :
  Json.skip_ws (Json.encode indent level v ++ tail) = Json.encode indent level v ++ tail.
Proof.
  destruct (encode_head level v) as (c & t & Hc & Hws & _).
  rewrite Hc. simpl. rewrite Hws. reflexivity.
Qed.
End Shape.

(** *** One step of the decoder *)

Lemma array_items_step (fuel : nat) (s : list ascii) :
  Json.array_items (S fuel) s =
  match Json.scan_once fuel s with
  | Some (value, rest1) =>
      match Json.skip_ws rest1 with
      | c2 :: rest2 =>
          if (N_of_ascii c2 =? 93)%N then Some ([value], rest2)
          else if (N_of_ascii c2 =? 44)%N then
            match Json.array_items fuel (Json.skip_ws rest2) with
            | Some (items, rest3) => Some (value :: items, rest3)
            | None => None
            end
          else None
      | [] => None
      end
  | None => None
  end.
Proof. reflexivity. Qed.

Lemma object_pairs_step (fuel : nat) (rest : list ascii) :
  Json.object_pairs (S fuel) (Json.quote :: rest) =
  match Json.scanstring rest with
  | Some (key, rest1) =>
      match Json.skip_ws rest1 with
      | c2 :: rest2 =>
          if (N_of_ascii c2 =? 58)%N then
            match Json.scan_once fuel (Json.skip_ws rest2) with
            | Some (value, rest3) =>
                match Json.skip_ws rest3 with
                | c4 :: rest4 =>
                    if (N_of_ascii c4 =? 125)%N then
                      Some ([(string_of_list_ascii key, value)], rest4)
                    else if (N_of_ascii c4 =? 44)%N then
                      match Json.object_pairs fuel (Json.skip_ws rest4) with
                      | Some (pairs, rest5) =>
                          Some ((string_of_list_ascii key, value) :: pairs, rest5)
                      | None => None
                      end
                    else None
                | [] => None
                end
            | None => None
            end
          else None
      | [] => None
      end
  | None => None
  end.
Proof. reflexivity. Qed.

Lemma scan_once_list (fuel : nat) (rest : list ascii) :
  Json.scan_once (S fuel) (Json.chars "[" ++ rest) =
  match Json.skip_ws rest with
  | c1 :: rest1 =>
      if (N_of_ascii c1 =? 93)%N then Some (PList [], rest1)
      else match Json.array_items fuel (c1 :: rest1) with
           | Some (items, rest2) => Some (PList items, rest2)
           | None => None
           end
  | [] => None
  end.
Proof. reflexivity. Qed.

Lemma scan_once_dict (fuel : nat) (rest : list ascii) :
  Json.scan_once (S fuel) (Json.chars "{" ++ rest) =
  match Json.skip_ws rest with
  | c1 :: rest1 =>
      if (N_of_ascii c1 =? 125)%N then Some (PDict [], rest1)
      else match Json.object_pairs fuel (c1 :: rest1) with
           | Some (pairs, rest2) => Some (PDict (Json.dict_of_pairs pairs), rest2)
           | None => None
           end
  | [] => None
  end.
Proof. reflexivity. Qed.

(** *** Lists and mappings *)

Section Roundtrip.
Variable indent : nat.

Let reads (v : pyval) : Prop :=
  forall level fuel rest,
    Json.need v <= fuel -> Json.delimited rest = true ->
    Json.scan_once fuel (Json.encode indent level v ++ rest) = Some (v, rest).

Lemma delimited_after_item (level : nat) (tail : list ascii) (xs : list pyval) :
  Json.delimited (Json.encode_more_items indent level xs ++
                  Json.newline_indent indent level ++ tail) = true.
Proof. destruct xs; reflexivity. Qed.

Lemma delimited_after_entry (level : nat) (tail : list ascii)
    (xs : list (string * pyval)) :
  Json.delimited (Json.encode_more_entries indent level xs ++
                  Json.newline_indent indent level ++ tail) = true.
Proof. destruct xs; reflexivity. Qed.

Lemma more_items_cons (level : nat) (y : pyval) (ys : list pyval) (tail : list ascii) :
  Json.encode_more_items indent level (y :: ys) ++ tail =
  ","%char :: Json.newline_indent indent (S level) ++
  Json.encode indent (S level) y ++ Json.encode_more_items indent level ys ++ tail.
Proof.
  cbn [Json.encode_more_items flat_map]. rewrite <- !app_assoc. reflexivity.
Qed.

Lemma more_entries_cons (level : nat) (k : string) (y : pyval)
    (ys : list (string * pyval)) (tail : list ascii) :
  Json.encode_more_entries indent level ((k, y) :: ys) ++ tail =
  ","%char :: Json.newline_indent indent (S level) ++
  Json.encode_string k ++ ":"%char :: " "%char ::
  Json.encode indent (S level) y ++ Json.encode_more_entries indent level ys ++ tail.
Proof.
  cbn [Json.encode_more_entries flat_map fst snd]. rewrite <- !app_assoc. reflexivity.
Qed.

Lemma array_items_encoded (xs : list pyval) :
  forall x, Forall reads (x :: xs) ->
  forall level fuel rest,
    Json.need_items (x :: xs) <= fuel ->
    Json.array_items fuel
      (Json.encode indent (S level) x ++ Json.encode_more_items indent level xs ++
       Json.newline_indent indent level ++ "]"%char :: rest) =
    Some (x :: xs, rest).
Proof.
  induction xs as [|y ys IH]; intros x Hall level fuel rest Hfuel;
    inversion Hall as [|? ? Hx Hrest]; subst;
    destruct fuel as [|fuel]; simpl in Hfuel; try lia;
    rewrite array_items_step.
  - rewrite (Hx (S level) fuel _ ltac:(lia)
               (delimited_after_item level _ [])).
    cbn [Json.encode_more_items flat_map app].
    rewrite skip_ws_newline_indent, skip_ws_head by reflexivity.
    reflexivity.
  - rewrite (Hx (S level) fuel _ ltac:(lia)
               (delimited_after_item level _ (y :: ys))).
    rewrite more_items_cons, skip_ws_head by reflexivity.
    change (N_of_ascii ","%char =? 93)%N with false.
    change (N_of_ascii ","%char =? 44)%N with true. cbv beta iota.
    rewrite skip_ws_newline_indent, skip_ws_encode.
    rewrite (IH y Hrest level fuel rest ltac:(simpl; lia)). reflexivity.
Qed.

Lemma scan_list (xs : list pyval) :
  Forall reads xs -> reads (PList xs).
Proof.
  intros Hall level fuel rest Hfuel _. rewrite need_list in Hfuel.
  destruct fuel as [|fuel]; [lia|].
  destruct xs as [|x xs]; [reflexivity|].
  rewrite encode_list_cons, <- !app_assoc, scan_once_list.
  rewrite skip_ws_newline_indent, skip_ws_encode.
  destruct (encode_head indent (S level) x) as (c & t & Hc & _ & Hclose & _).
  pose proof (array_items_encoded xs x Hall level fuel rest ltac:(lia)) as Hitems.
  cbn [Json.chars list_ascii_of_string app].
  rewrite Hc in *. cbn [app] in *. rewrite Hclose, Hitems. reflexivity.
Qed.
Lemma skip_ws_space (tail : list ascii) :
  Json.skip_ws (" "%char :: tail) = Json.skip_ws tail.
Proof. reflexivity. Qed.

Lemma object_pairs_encoded (xs : list (string * pyval)) :
  forall k x, reads x -> Forall (fun kv => reads (snd kv)) xs ->
  forall level fuel rest,
    Json.need_entries ((k, x) :: xs) <= fuel ->
    Json.object_pairs fuel
      (Json.encode_string k ++ ":"%char :: " "%char ::
       Json.encode indent (S level) x ++ Json.encode_more_entries indent level xs ++
       Json.newline_indent indent level ++ "}"%char :: rest) =
    Some ((k, x) :: xs, rest).
Proof.
  induction xs as [|[k' y] ys IH]; intros k x Hx Hall level fuel rest Hfuel;
    destruct fuel as [|fuel]; simpl in Hfuel; try lia;
    rewrite encode_string_app, object_pairs_step, scanstring_encoded;
    rewrite skip_ws_head by reflexivity;
    change (N_of_ascii ":"%char =? 58)%N with true; cbv beta iota;
    rewrite skip_ws_space, skip_ws_encode;
    unfold Json.chars; rewrite string_of_list_ascii_of_string.
  - rewrite (Hx (S level) fuel _ ltac:(lia) (delimited_after_entry level _ [])).
    cbn [Json.encode_more_entries flat_map app].
    rewrite skip_ws_newline_indent, skip_ws_head by reflexivity.
    reflexivity.
  - rewrite (Hx (S level) fuel _ ltac:(lia)
               (delimited_after_entry level _ ((k', y) :: ys))).
    rewrite more_entries_cons, skip_ws_head by reflexivity.
    change (N_of_ascii ","%char =? 125)%N with false.
    change (N_of_ascii ","%char =? 44)%N with true. cbv beta iota.
    rewrite skip_ws_newline_indent.
    rewrite encode_string_app, skip_ws_head by reflexivity.
    rewrite <- encode_string_app.
    inversion Hall as [|? ? Hy Hrest]; subst.
    rewrite (IH k' y Hy Hrest level fuel rest ltac:(simpl in *; lia)). reflexivity.
Qed.

Lemma setitem_fresh (k : string) (v : pyval) (acc : list (string * pyval)) :
  (forall kv, In kv acc -> fst kv <> k) ->
  PyDict.setitem k v acc = acc ++ [(k, v)].
Proof.
  induction acc as [|[k' v'] acc IH]; intros Hfresh; [reflexivity|].
  simpl. destruct (String.eqb_spec k' k) as [Heq|Hne].
  - exfalso. apply (Hfresh (k', v')); [left; reflexivity | exact Heq].
  - rewrite IH; [reflexivity|]. intros kv Hin. apply Hfresh. right. exact Hin.
Qed.

Lemma fresh_key_cons (k0 k : string) (x : pyval) (rest : list (string * pyval)) :
  Json.fresh_key k0 ((k, x) :: rest) = true -> k <> k0 /\ Json.fresh_key k0 rest = true.
Proof.
  simpl. intros H. apply andb_true_iff in H as [Hne Hrest].
  split; [|exact Hrest]. apply negb_true_iff in Hne.
  destruct (String.eqb_spec k k0); [discriminate | assumption].
Qed.

Lemma fold_setitem_fresh (pairs : list (string * pyval)) :
  forall acc,
    Json.well_formed (PDict pairs) = true ->
    (forall kv, In kv acc -> Json.fresh_key (fst kv) pairs = true) ->
    fold_left (fun d kv => PyDict.setitem (fst kv) (snd kv) d) pairs acc = acc ++ pairs.
Proof.
  induction pairs as [|[k x] pairs IH]; intros acc Hwf Hacc.
  - simpl. symmetry. apply app_nil_r.
  - rewrite well_formed_dict_cons in Hwf.
    apply andb_true_iff in Hwf as [Hwf Hrest].
    apply andb_true_iff in Hwf as [Hk _].
    cbn [fold_left fst snd]. rewrite setitem_fresh.
    + rewrite IH; [rewrite <- app_assoc; reflexivity | exact Hrest |].
      intros kv Hin. apply in_app_or in Hin as [Hin | [<- | []]].
      * apply (fresh_key_cons _ k x), Hacc, Hin.
      * exact Hk.
    + intros kv Hin Heq. destruct (fresh_key_cons _ k x _ (Hacc kv Hin)) as [Hne _].
      congruence.
Qed.

Lemma dict_of_pairs_fresh (pairs : list (string * pyval)) :
  Json.well_formed (PDict pairs) = true -> Json.dict_of_pairs pairs = pairs.
Proof.
  intros Hwf. unfold Json.dict_of_pairs.
  rewrite (fold_setitem_fresh pairs [] Hwf); [reflexivity|]. intros kv [].
Qed.

Lemma scan_dict (xs : list (string * pyval)) :
  Json.well_formed (PDict xs) = true ->
  Forall (fun kv => reads (snd kv)) xs -> reads (PDict xs).
Proof.
  intros Hwf Hall level fuel rest Hfuel _. rewrite need_dict in Hfuel.
  destruct fuel as [|fuel]; [lia|].
  destruct xs as [|[k x] xs]; [reflexivity|].
  rewrite encode_dict_cons, <- !app_assoc, scan_once_dict.
  rewrite skip_ws_newline_indent.
  inversion Hall as [|? ? Hx Hrest]; subst.
  pose proof (object_pairs_encoded xs k x Hx Hrest level fuel rest ltac:(lia))
    as Hpairs.
  cbn [Json.chars list_ascii_of_string app] in *.
  rewrite encode_string_app in *. rewrite skip_ws_head by reflexivity.
  change (N_of_ascii Json.quote =? 125)%N with false. cbv beta iota.
  rewrite Hpairs, (dict_of_pairs_fresh _ Hwf). reflexivity.
Qed.

(** The decoder reads back every value the encoder writes, tuples apart. *)
Lemma scan_encoded (v : pyval) :
  Json.well_formed v = true -> Json.tuple_free v = true -> reads v.
Proof.
  induction v as [| b | z | s | items IH | items IH | entries IH]
    using pyval_nested_ind; intros Hwf Htf.
  - intros level [|fuel] rest Hfuel _; [simpl in Hfuel; lia | reflexivity].
  - intros level [|fuel] rest Hfuel _; [simpl in Hfuel; lia|].
    destruct b; reflexivity.
  - intros level [|fuel] rest Hfuel Hrest; [simpl in Hfuel; lia|].
    apply scan_int, Hrest.
  - intros level [|fuel] rest Hfuel _; [simpl in Hfuel; lia|].
    apply scan_string.
  - apply scan_list. rewrite well_formed_list in Hwf. rewrite tuple_free_list in Htf.
    induction IH as [|x xs Hx _ IHxs]; constructor;
      simpl in Hwf, Htf; apply andb_true_iff in Hwf as [Hwx Hwxs];
      apply andb_true_iff in Htf as [Htx Htxs]; auto.
  - discriminate.
  - apply scan_dict; [exact Hwf|].
    induction IH as [|[k x] xs Hx _ IHxs]; constructor;
      rewrite well_formed_dict_cons in Hwf; rewrite tuple_free_dict_cons in Htf;
      apply andb_true_iff in Hwf as [Hwf Hwxs];
      apply andb_true_iff in Hwf as [_ Hwx];
      apply andb_true_iff in Htf as [Htx Htxs]; auto.
Qed.

End Roundtrip.

(** *** The whole text *)

Lemma length_newline_indent (indent level : nat) :
  length (Json.newline_indent indent level) = S (indent * level).
Proof. unfold Json.newline_indent. simpl. rewrite repeat_length. reflexivity. Qed.

(** The fuel [loads] starts with is enough: a value needs no more fuel than
    its encoding has characters. *)
Lemma need_le_length (indent : nat) (v : pyval) :
  forall level, Json.need v <= length (Json.encode indent level v).
Proof.
  induction v as [| b | z | s | items IH | items _ | entries IH]
    using pyval_nested_ind; intros level;
    [| | | | | destruct items; cbn [Json.encode Json.need]; simpl; lia |].
  - simpl. lia.
  - destruct b; simpl; lia.
  - destruct (encode_int_head z) as (c & tail & Hc & _).
    cbn [Json.encode Json.need]. rewrite Hc. simpl. lia.
  - cbn [Json.encode Json.need]. unfold Json.encode_string. simpl. lia.
  - rewrite need_list. destruct items as [|x xs]; [simpl; lia|].
    rewrite encode_list_cons, !length_app, !length_newline_indent.
    inversion IH as [|? ? Hx Hxs]; subst.
    assert (Hmore : Json.need_items xs <=
                    length (Json.encode_more_items indent level xs)).
    { clear Hx IH. induction Hxs as [|y ys Hy _ IHys]; [simpl; lia|].
      cbn [Json.encode_more_items flat_map Json.need_items fold_right].
      rewrite !length_app, length_newline_indent.
      specialize (Hy (S level)).
      change (flat_map _ ys) with (Json.encode_more_items indent level ys).
      change (fold_right _ 0 ys) with (Json.need_items ys). simpl. lia. }
    specialize (Hx (S level)). simpl. lia.
  - rewrite need_dict. destruct entries as [|[k x] xs]; [simpl; lia|].
    rewrite encode_dict_cons, !length_app, !length_newline_indent.
    inversion IH as [|? ? Hx Hxs]; subst.
    assert (Hmore : Json.need_entries xs <=
                    length (Json.encode_more_entries indent level xs)).
    { clear Hx IH. induction Hxs as [|[k' y] ys Hy _ IHys]; [simpl; lia|].
      cbn [Json.encode_more_entries flat_map Json.need_entries fold_right fst snd].
      rewrite !length_app, length_newline_indent.
      specialize (Hy (S level)).
      change (flat_map _ ys) with (Json.encode_more_entries indent level ys).
      change (fold_right _ 0 ys) with (Json.need_entries ys). simpl in *. lia. }
    specialize (Hx (S level)). simpl in *. lia.
Qed.

(** [json.loads(json.dumps(d, indent=4)) == d], for a mapping without
    tuples. *)
Lemma loads_dumps (d : pydict) :
  Json.well_formed (PDict d) = true -> Json.tuple_free (PDict d) = true ->
  Json.loads (Json.dumps d) = Some (PDict d).
Proof.
  intros Hwf Htf. unfold Json.loads, Json.dumps, Json.chars.
  rewrite list_ascii_of_string_of_list_ascii.
  pose proof (skip_ws_encode 4 0 (PDict d) []) as Hskip.
  rewrite app_nil_r in Hskip. rewrite Hskip.
  pose proof (scan_encoded 4 (PDict d) Hwf Htf 0
                (S (length (Json.encode 4 0 (PDict d)))) []) as Hscan.
  rewrite app_nil_r in Hscan. rewrite Hscan; [reflexivity | | reflexivity].
  pose proof (need_le_length 4 (PDict d) 0). lia.
Qed.

Lemma fresh_key_setitem (k0 k : string) (v : pyval) (d : pydict) :
  k <> k0 -> Json.fresh_key k0 d = true ->
  Json.fresh_key k0 (PyDict.setitem k v d) = true.
Proof.
  intros Hne. induction d as [|[k' x] d IH]; simpl; intros Hfresh.
  - rewrite andb_true_r. apply negb_true_iff.
    destruct (String.eqb_spec k k0); [contradiction | reflexivity].
  - apply andb_true_iff in Hfresh as [Hk' Hd].
    destruct (String.eqb k' k) eqn:Hk; simpl.
    + rewrite Hd, andb_true_r. apply negb_true_iff.
      destruct (String.eqb_spec k k0); [contradiction | reflexivity].
    + rewrite Hk', (IH Hd). reflexivity.
Qed.

Lemma well_formed_setitem (k : string) (v : pyval) (d : pydict) :
  Json.well_formed v = true -> Json.well_formed (PDict d) = true ->
  Json.well_formed (PDict (PyDict.setitem k v d)) = true.
Proof.
  intros Hv. induction d as [|[k' x] d IH]; intros Hwf.
  - simpl. rewrite Hv. reflexivity.
  - rewrite well_formed_dict_cons in Hwf.
    apply andb_true_iff in Hwf as [Hwf Hd].
    apply andb_true_iff in Hwf as [Hk' Hx].
    cbn [PyDict.setitem]. destruct (String.eqb_spec k' k) as [->|Hne].
    + rewrite well_formed_dict_cons, Hk', Hv, Hd. reflexivity.
    + rewrite well_formed_dict_cons, Hx, (IH Hd), fresh_key_setitem; auto.
Qed.

Lemma tuple_free_setitem (k : string) (v : pyval) (d : pydict) :
  Json.tuple_free v = true -> Json.tuple_free (PDict d) = true ->
  Json.tuple_free (PDict (PyDict.setitem k v d)) = true.
Proof.
  intros Hv. induction d as [|[k' x] d IH]; intros Htf.
  - simpl. rewrite Hv. reflexivity.
  - rewrite tuple_free_dict_cons in Htf. apply andb_true_iff in Htf as [Hx Hd].
    cbn [PyDict.setitem]. destruct (String.eqb k' k).
    + rewrite tuple_free_dict_cons, Hv, Hd. reflexivity.
    + rewrite tuple_free_dict_cons, Hx, (IH Hd). reflexivity.
Qed.

(** *** The encoded text as bytes

    The encoder writes characters below code point 128 only, so the bytes
    of its text are its characters. *)

Lemma utf8_ascii (l : list ascii) :
  forallb PyStr.is_ascii l = true ->
  PyStr.utf8 (string_of_list_ascii l) = string_of_list_ascii l.
Proof.
  induction l as [|c l IH]; [reflexivity|]. simpl. intros H.
  apply andb_true_iff in H as [Hc Hl]. unfold PyStr.utf8_char.
  unfold PyStr.is_ascii in Hc. rewrite Hc, (IH Hl). reflexivity.
Qed.

Lemma escape_char_ascii (c : ascii) :
  forallb PyStr.is_ascii (Json.escape_char c) = true.
Proof. destruct c as [[] [] [] [] [] [] [] []]; reflexivity. Qed.

Lemma encode_string_ascii (s : string) :
  forallb PyStr.is_ascii (Json.encode_string s) = true.
Proof.
  unfold Json.encode_string. cbn [forallb]. rewrite forallb_app.
  apply andb_true_iff. split; [reflexivity|]. apply andb_true_iff. split; [|reflexivity].
  induction (Json.chars s) as [|c cs IH]; [reflexivity|].
  cbn [flat_map]. rewrite forallb_app, escape_char_ascii, IH. reflexivity.
Qed.

Lemma uint_ascii (u : Decimal.uint) :
  forallb PyStr.is_ascii (Json.chars (NilEmpty.string_of_uint u)) = true.
Proof. induction u; simpl; rewrite ?chars_cons; simpl; auto. Qed.

Lemma encode_int_ascii (z : Z) : forallb PyStr.is_ascii (Json.encode_int z) = true.
Proof.
  unfold Json.encode_int. destruct z as [|p|p]; simpl; rewrite ?chars_cons;
    simpl; try apply uint_ascii. reflexivity.
Qed.

Lemma newline_indent_ascii (indent level : nat) :
  forallb PyStr.is_ascii (Json.newline_indent indent level) = true.
Proof.
  unfold Json.newline_indent. cbn [forallb].
  induction (indent * level) as [|n IH]; [reflexivity|]. exact IH.
Qed.

Lemma encode_tuple_as_list (indent level : nat) (xs : list pyval) :
  Json.encode indent level (PTuple xs) = Json.encode indent level (PList xs).
Proof. destruct xs; reflexivity. Qed.

Lemma more_items_ascii (indent level : nat) (ys : list pyval) :
  Forall (fun v => forall level,
            forallb PyStr.is_ascii (Json.encode indent level v) = true) ys ->
  forallb PyStr.is_ascii (Json.encode_more_items indent level ys) = true.
Proof.
  induction 1 as [|y ys Hy _ IHys]; [reflexivity|].
  cbn [Json.encode_more_items flat_map]. rewrite !forallb_app.
  rewrite newline_indent_ascii, Hy. exact IHys.
Qed.

Lemma more_entries_ascii (indent level : nat) (ys : list (string * pyval)) :
  Forall (fun kv => forall level,
            forallb PyStr.is_ascii (Json.encode indent level (snd kv)) = true) ys ->
  forallb PyStr.is_ascii (Json.encode_more_entries indent level ys) = true.
Proof.
  induction 1 as [|[k y] ys Hy _ IHys]; [reflexivity|].
  cbn [Json.encode_more_entries flat_map fst snd] in *. rewrite !forallb_app.
  rewrite newline_indent_ascii, encode_string_ascii, Hy. exact IHys.
Qed.

Lemma encode_list_ascii (indent : nat) (items : list pyval) :
  Forall (fun v => forall level,
            forallb PyStr.is_ascii (Json.encode indent level v) = true) items ->
  forall level, forallb PyStr.is_ascii (Json.encode indent level (PList items)) = true.
Proof.
  intros IH level. destruct items as [|x xs]; [reflexivity|].
  inversion IH as [|? ? Hx Hxs]; subst.
  rewrite encode_list_cons, !forallb_app, !newline_indent_ascii, Hx,
    (more_items_ascii indent level xs Hxs).
  reflexivity.
Qed.

Lemma encode_ascii (indent : nat) (v : pyval) :
  forall level, forallb PyStr.is_ascii (Json.encode indent level v) = true.
Proof.
  induction v as [| b | z | s | items IH | items IH | entries IH]
    using pyval_nested_ind; intros level.
  - reflexivity.
  - destruct b; reflexivity.
  - apply encode_int_ascii.
  - apply encode_string_ascii.
  - apply encode_list_ascii, IH.
  - rewrite encode_tuple_as_list. apply encode_list_ascii, IH.
  - destruct entries as [|[k x] xs]; [reflexivity|].
    inversion IH as [|? ? Hx Hxs]; subst. cbn [snd] in Hx.
    rewrite encode_dict_cons, !forallb_app, !newline_indent_ascii, encode_string_ascii,
      Hx, (more_entries_ascii indent level xs Hxs).
    reflexivity.
Qed.

(** The bytes [write_file] writes for the encoded parameters. *)
Lemma utf8_dumps (d : pydict) : PyStr.utf8 (Json.dumps d) = Json.dumps d.
Proof. unfold Json.dumps. apply utf8_ascii, encode_ascii. Qed.
(** ** [write_file] in mode [w] *)

Lemma check_open_args_w (filepath : string) :
  PyStr.mem_char PyStr.nul filepath = false ->
  check_open_args filepath "w" = inr (Writing, false).
Proof. intros H. unfold check_open_args. simpl. rewrite H. reflexivity. Qed.

Lemma write_file_run (E : env) (filepath text : string) (s : state) :
  PyStr.mem_char PyStr.nul filepath = false ->
  write_file E filepath text "w" s =
  match open_error E filepath with
  | Some msg =>
      (Raised (OSError ("Error writing to file. " +:+ msg) (Some (OSError msg None))),
       mkState (heap s)
               (left_by_failed_write E filepath (PyStr.utf8 text) (files s))
               (blobs s) (sinks s) (ai_context s)
               (trace s ++ [FileWrite filepath text "w"]))
  | None =>
      (Returned tt,
       mkState (heap s) (<[filepath := PyStr.utf8 text]> (files s)) (blobs s) (sinks s)
               (ai_context s) (trace s ++ [FileWrite filepath text "w"]))
  end.
Proof.
  intros Hpath. unfold write_file, open_and_write, left_by_failed_write, open_failure.
  unfold_monad. rewrite (check_open_args_w filepath Hpath). cbn [fst snd].
  destruct (open_error E filepath) as [msg|];
    destruct (written_before_error E filepath) as [n|]; reflexivity.
Qed.

(** ** [upload_automatic_retraining_parameters] *)

Section Upload.
Variable E : env.
Variables (r : loc)
          (gs_auto_retraining_params_path gs_pipeline_job_spec_path
             storage_bucket_name : string).

Let upload : M unit :=
  upload_automatic_retraining_parameters E r gs_auto_retraining_params_path
    gs_pipeline_job_spec_path storage_bucket_name.
Let injected (d : pydict) : pydict :=
  PyDict.setitem "gs_pipeline_spec_path" (PStr gs_pipeline_job_spec_path) d.
Let write_call (d : pydict) : call :=
  FileWrite local_params_file (Json.dumps (injected d)) "w".

Lemma upload_dangling (s : state) :
  heap s !! r = None -> upload s = (Raised StoreError, s).
Proof.
  intros Hr. unfold upload, upload_automatic_retraining_parameters. step.
  rewrite Hr. reflexivity.
Qed.

Lemma upload_write_fails (s : state) (d : pydict) (msg : string) :
  heap s !! r = Some d ->
  open_error E local_params_file = Some msg ->
  upload s =
  (Raised (OSError ("Error writing to file. " +:+ msg) (Some (OSError msg None))),
   mkState (<[r := injected d]> (heap s))
           (left_by_failed_write E local_params_file (Json.dumps (injected d)) (files s))
           (blobs s) (sinks s) (ai_context s)
           (trace s ++ [write_call d])).
Proof.
  intros Hr Hopen.
  unfold upload, upload_automatic_retraining_parameters. step.
  rewrite Hr. simpl. rewrite lookup_insert_eq. simpl.
  rewrite write_file_run by reflexivity. rewrite Hopen, utf8_dumps. reflexivity.
Qed.

Lemma upload_succeeds (s : state) (d : pydict) :
  heap s !! r = Some d ->
  open_error E local_params_file = None ->
  upload s =
  (Returned tt,
   mkState (<[r := injected d]> (heap s))
           (<[local_params_file := Json.dumps (injected d)]> (files s))
           (<[(storage_bucket_name, blob_filename gs_auto_retraining_params_path) :=
                Json.dumps (injected d)]> (blobs s))
           (sinks s) (ai_context s)
           (trace s ++ [write_call d; StorageGetBucket storage_bucket_name;
                        BlobUploadFromFilename storage_bucket_name
                          (blob_filename gs_auto_retraining_params_path)
                          local_params_file])).
Proof.
  intros Hr Hopen.
  unfold upload, upload_automatic_retraining_parameters. step.
  rewrite Hr. simpl. rewrite lookup_insert_eq. simpl.
  rewrite write_file_run by reflexivity. rewrite Hopen, utf8_dumps. simpl.
  rewrite lookup_insert_eq. simpl. normalise_trace. reflexivity.
Qed.
End Upload.

(** ** [create_or_update_monitoring_job], block by block *)

Section MonitoringJob.
Variable E : env.
Variables (alert_emails : option (list string))
          (auto_retraining_params : option loc)
          (drift_thresholds : option thresholds)
          (gs_auto_retraining_params_path job_display_name log_sink_name
             model_endpoint : string)
          (monitoring_interval : Z)
          (monitoring_location project_id pubsub_topic_name : string)
          (sample_rate : Q)
          (skew_thresholds : option thresholds)
          (target_field training_dataset : string).

Let endpoint_filter : string :=
  "endpoint=" +:+ PyStr.dquote +:+ PyStr.last_segment model_endpoint +:+ PyStr.dquote.
Let job_filter : string :=
  "display_name=" +:+ PyStr.dquote +:+ job_display_name +:+ PyStr.dquote.
Let objective : ObjectiveConfig :=
  objective_config_of skew_thresholds drift_thresholds training_dataset target_field.
Let alerting : EmailAlertConfig :=
  mkAlert (if truthy_list alert_emails then default [] alert_emails else []) true.
Let create_args : job_create_args :=
  mkCreate job_display_name (mkSampling sample_rate) (mkSchedule monitoring_interval)
           alerting objective project_id monitoring_location model_endpoint true.
Let update_args : job_update_args :=
  mkUpdate job_display_name (mkSampling sample_rate) (mkSchedule monitoring_interval)
           alerting objective true.
Let upsert : M string :=
  resolve_and_upsert_job E alert_emails drift_thresholds job_display_name
    model_endpoint monitoring_interval monitoring_location project_id
    sample_rate skew_thresholds target_field training_dataset.
Let located (s : state) (calls : list call) : state :=
  mkState (heap s) (files s) (blobs s) (sinks s)
          (Some (project_id, monitoring_location)) (trace s ++ calls).

Lemma upsert_endpoint_missing (s : state) :
  endpoint_list E project_id monitoring_location endpoint_filter = [] ->
  upsert s =
  (Raised (endpoint_not_found model_endpoint monitoring_location),
   located s [AiplatformInit project_id monitoring_location;
              EndpointList endpoint_filter]).
Proof.
  intros Hep. unfold upsert, resolve_and_upsert_job, located. step.
  fold endpoint_filter. rewrite Hep. simpl. normalise_trace. reflexivity.
Qed.

Lemma upsert_creates (s : state) :
  endpoint_list E project_id monitoring_location endpoint_filter <> [] ->
  job_list E project_id monitoring_location job_filter = [] ->
  upsert s =
  (Returned (created_resource_name E create_args),
   located s [AiplatformInit project_id monitoring_location;
              EndpointList endpoint_filter; EndpointGet model_endpoint;
              JobList job_filter; JobCreate create_args]).
Proof.
  intros Hep Hjl. unfold upsert, resolve_and_upsert_job, located. step.
  fold endpoint_filter.
  destruct (endpoint_list E project_id monitoring_location endpoint_filter);
    [done|]. simpl.
  fold job_filter. rewrite Hjl. simpl. normalise_trace. reflexivity.
Qed.

Lemma upsert_updates (s : state) (first : string) (others : list string) :
  endpoint_list E project_id monitoring_location endpoint_filter <> [] ->
  job_list E project_id monitoring_location job_filter = first :: others ->
  upsert s =
  (Returned (job_resource_name E (PyStr.last_segment first)),
   located s [AiplatformInit project_id monitoring_location;
              EndpointList endpoint_filter; EndpointGet model_endpoint;
              JobList job_filter;
              JobUpdate (PyStr.last_segment first) update_args;
              Print ("Updated monitoring job " +:+ PyStr.last_segment first +:+
                     " with new arguments.")]).
Proof.
  intros Hep Hjl. unfold upsert, resolve_and_upsert_job, located. step.
  fold endpoint_filter.
  destruct (endpoint_list E project_id monitoring_location endpoint_filter);
    [done|]. simpl.
  fold job_filter. rewrite Hjl. simpl. normalise_trace. reflexivity.
Qed.

Let route (job : string) : M unit :=
  route_anomaly_logs E auto_retraining_params gs_auto_retraining_params_path
    log_sink_name monitoring_location project_id pubsub_topic_name job.
Let iam_call : call :=
  SubprocessRun [update_iam project_id] true true DEVNULL STDOUT.
Let routing_calls (present : bool) (job : string) (d : pydict) : list call :=
  sink_calls present log_sink_name
    (anomaly_log_destination project_id pubsub_topic_name)
    (monitoring_anomaly_log_filter monitoring_location (PyStr.last_segment job)
       project_id) ++
  [Print ("All anomaly logs for this model monitoring job are being routed to pub/sub topic "
          +:+ pubsub_topic_name +:+ " for automatic retraining.");
   Print ("Retraining will use the following parameters located at "
          +:+ gs_auto_retraining_params_path +:+ ": " +:+ PyStr.newline);
   PPrint d;
   Print (PyStr.newline +:+ "Updating " +:+ cloud_logs_sa +:+
          " with roles/pubsub.publisher");
   iam_call].

Lemma route_skipped (job : string) (s : state) :
  retraining_configured s auto_retraining_params = false ->
  route job s =
  (match auto_retraining_params with
   | Some r => match heap s !! r with
               | Some _ => Returned tt
               | None => Raised StoreError
               end
   | None => Returned tt
   end, s).
Proof.
  unfold retraining_configured, params_in, route, route_anomaly_logs. step.
  destruct auto_retraining_params as [r|]; simpl; [|reflexivity].
  destruct (heap s !! r) as [[|kv d]|]; simpl; intros; try discriminate; reflexivity.
Qed.

Lemma route_wires (job : string) (s : state) (d : pydict) :
  params_in s auto_retraining_params = Some d -> d <> [] ->
  route job s =
  (outcome (execute_process E (update_iam project_id) true) s,
   mkState (heap s) (files s) (blobs s)
     (<[log_sink_name :=
          mkSink (monitoring_anomaly_log_filter monitoring_location
                    (PyStr.last_segment job) project_id)
                 (anomaly_log_destination project_id pubsub_topic_name)]> (sinks s))
     (ai_context s)
     (trace s ++ routing_calls (bool_decide (is_Some (sinks s !! log_sink_name))) job d)).
Proof.
  unfold params_in, route, route_anomaly_logs, routing_calls, iam_call, outcome.
  destruct auto_retraining_params as [r|]; [|discriminate].
  intros Hd Hne. destruct d as [|kv d]; [done|].
  step. rewrite Hd. simpl.
  rewrite create_or_update_sink_run. simpl. rewrite Hd. simpl.
  rewrite !execute_process_run. simpl.
  unfold set_trace. simpl. rewrite <- !app_assoc. simpl. reflexivity.
Qed.
(** *** Calls of the two blocks *)

Let whole : M unit :=
  create_or_update_monitoring_job E alert_emails auto_retraining_params
    drift_thresholds gs_auto_retraining_params_path job_display_name log_sink_name
    model_endpoint monitoring_interval monitoring_location project_id
    pubsub_topic_name sample_rate skew_thresholds target_field training_dataset.

Let upsert_calls : list call :=
  [AiplatformInit project_id monitoring_location; EndpointList endpoint_filter] ++
  match endpoint_list E project_id monitoring_location endpoint_filter with
  | [] => []
  | _ :: _ =>
      [EndpointGet model_endpoint; JobList job_filter] ++
      match job_list E project_id monitoring_location job_filter with
      | [] => [JobCreate create_args]
      | first :: _ =>
          [JobUpdate (PyStr.last_segment first) update_args;
           Print ("Updated monitoring job " +:+ PyStr.last_segment first +:+
                  " with new arguments.")]
      end
  end.

Lemma upsert_final (s : state) : final upsert s = located s upsert_calls.
Proof.
  unfold final, upsert_calls.
  destruct (endpoint_list E project_id monitoring_location endpoint_filter)
    as [|e es] eqn:Hep.
  - rewrite upsert_endpoint_missing by assumption. reflexivity.
  - destruct (job_list E project_id monitoring_location job_filter)
      as [|first others] eqn:Hjl.
    + rewrite upsert_creates by (assumption || (rewrite Hep; discriminate)).
      reflexivity.
    + rewrite (upsert_updates s first others)
        by (assumption || (rewrite Hep; discriminate)).
      reflexivity.
Qed.

Lemma upsert_outcome (s : state) :
  outcome upsert s =
  match endpoint_list E project_id monitoring_location endpoint_filter with
  | [] => Raised (endpoint_not_found model_endpoint monitoring_location)
  | _ :: _ =>
      match job_list E project_id monitoring_location job_filter with
      | [] => Returned (created_resource_name E create_args)
      | first :: _ => Returned (job_resource_name E (PyStr.last_segment first))
      end
  end.
Proof.
  unfold outcome.
  destruct (endpoint_list E project_id monitoring_location endpoint_filter)
    as [|e es] eqn:Hep.
  - rewrite upsert_endpoint_missing by assumption. reflexivity.
  - destruct (job_list E project_id monitoring_location job_filter)
      as [|first others] eqn:Hjl.
    + rewrite upsert_creates by (assumption || (rewrite Hep; discriminate)).
      reflexivity.
    + rewrite (upsert_updates s first others)
        by (assumption || (rewrite Hep; discriminate)).
      reflexivity.
Qed.

Lemma configured_inv (s : state) :
  retraining_configured s auto_retraining_params = true ->
  exists d, params_in s auto_retraining_params = Some d /\ d <> [].
Proof.
  unfold retraining_configured.
  destruct (params_in s auto_retraining_params) as [[|kv d]|]; try discriminate.
  intros _. eexists. split; [reflexivity | discriminate].
Qed.

(** What the second block adds to the trace. *)
Lemma route_calls (job : string) (s : state) :
  calls_made (route job) s =
  match params_in s auto_retraining_params with
  | Some (kv :: d) =>
      routing_calls (bool_decide (is_Some (sinks s !! log_sink_name))) job (kv :: d)
  | _ => []
  end.
Proof.
  destruct (retraining_configured s auto_retraining_params) eqn:Hc.
  - destruct (configured_inv s Hc) as (d & Hd & Hne).
    rewrite Hd. destruct d as [|kv d]; [done|].
    eapply calls_made_eq; [apply (route_wires job s (kv :: d)); done | reflexivity].
  - eapply calls_made_eq; [apply route_skipped; assumption |].
    unfold retraining_configured in Hc.
    destruct (params_in s auto_retraining_params) as [[|kv d]|];
      try discriminate; symmetry; apply app_nil_r.
Qed.

Lemma params_in_located (s : state) (calls : list call) :
  params_in (located s calls) auto_retraining_params =
  params_in s auto_retraining_params.
Proof. reflexivity. Qed.

Lemma whole_run (s : state) :
  whole s =
  match outcome upsert s with
  | Returned job => route job (located s upsert_calls)
  | Raised e => (Raised e, located s upsert_calls)
  end.
Proof.
  unfold whole, create_or_update_monitoring_job. fold upsert.
  pose proof (upsert_final s) as Hf. unfold final in Hf. unfold outcome.
  destruct (upsert s) as [[job|e] s'] eqn:Hu; simpl in *; subst s'.
  - erewrite bind_returned by exact Hu. reflexivity.
  - erewrite bind_raised by exact Hu. reflexivity.
Qed.

Lemma whole_calls (s : state) :
  calls_made whole s =
  upsert_calls ++
  match outcome upsert s with
  | Returned job => calls_made (route job) (located s upsert_calls)
  | Raised _ => []
  end.
Proof.
  unfold calls_made at 1. rewrite whole_run.
  destruct (outcome upsert s) as [job|e]; simpl.
  - pose proof (route_calls job (located s upsert_calls)) as Hr.
    assert (Ht : trace (route job (located s upsert_calls)).2 =
                 trace (located s upsert_calls) ++
                 calls_made (route job) (located s upsert_calls)).
    { rewrite Hr. rewrite params_in_located.
      destruct (retraining_configured s auto_retraining_params) eqn:Hc.
      - destruct (configured_inv s Hc) as (d & Hd & Hne). rewrite Hd.
        destruct d as [|kv d]; [done|].
        rewrite (route_wires job (located s upsert_calls) (kv :: d)) by done.
        reflexivity.
      - rewrite route_skipped by exact Hc. simpl.
        unfold retraining_configured in Hc.
        destruct (params_in s auto_retraining_params) as [[|kv d]|];
          try discriminate; symmetry; apply app_nil_r. }
    rewrite Ht. simpl. rewrite <- app_assoc. apply drop_app_length.
  - rewrite app_nil_r. apply drop_app_length.
Qed.

Lemma routing_calls_no_job (present : bool) (job : string) (d : pydict) :
  List.filter (fun c => is_job_create c || is_job_update c)
              (routing_calls present job d) = [].
Proof. destruct present; reflexivity. Qed.

Lemma route_calls_no_job (job : string) (s : state) :
  List.filter (fun c => is_job_create c || is_job_update c)
              (calls_made (route job) s) = [].
Proof.
  rewrite route_calls.
  destruct (params_in s auto_retraining_params) as [[|kv d]|]; try reflexivity.
  apply routing_calls_no_job.
Qed.
Let job_object : string :=
  match job_list E project_id monitoring_location job_filter with
  | [] => created_resource_name E create_args
  | first :: _ => job_resource_name E (PyStr.last_segment first)
  end.

(** All the calls of the function, in order. *)
Lemma whole_calls_closed (s : state) :
  calls_made whole s =
  upsert_calls ++
  match endpoint_list E project_id monitoring_location endpoint_filter with
  | [] => []
  | _ :: _ =>
      match params_in s auto_retraining_params with
      | Some (kv :: d) =>
          routing_calls (bool_decide (is_Some (sinks s !! log_sink_name)))
                        job_object (kv :: d)
      | _ => []
      end
  end.
Proof.
  rewrite whole_calls, upsert_outcome. f_equal. unfold job_object.
  destruct (endpoint_list E project_id monitoring_location endpoint_filter);
    [reflexivity|].
  destruct (job_list E project_id monitoring_location job_filter);
    rewrite route_calls; reflexivity.
Qed.

Lemma whole_outcome (s : state) :
  outcome whole s =
  match endpoint_list E project_id monitoring_location endpoint_filter with
  | [] => Raised (endpoint_not_found model_endpoint monitoring_location)
  | _ :: _ =>
      match auto_retraining_params with
      | None => Returned tt
      | Some r =>
          match heap s !! r with
          | None => Raised StoreError
          | Some [] => Returned tt
          | Some (_ :: _) => outcome (execute_process E (update_iam project_id) true) s
          end
      end
  end.
Proof.
  unfold outcome at 1. rewrite whole_run, upsert_outcome.
  destruct (endpoint_list E project_id monitoring_location endpoint_filter);
    [reflexivity|].
  assert (Hroute : forall job,
    (route job (located s upsert_calls)).1 =
    match auto_retraining_params with
    | None => Returned tt
    | Some r =>
        match heap s !! r with
        | None => Raised StoreError
        | Some [] => Returned tt
        | Some (_ :: _) => outcome (execute_process E (update_iam project_id) true) s
        end
    end).
  { intros job.
    destruct (retraining_configured s auto_retraining_params) eqn:Hc.
    - destruct (configured_inv s Hc) as (d & Hd & Hne).
      rewrite (route_wires job (located s upsert_calls) d) by done.
      unfold params_in in Hd. destruct auto_retraining_params as [r|]; [|done].
      rewrite Hd. destruct d; [done|].
      unfold outcome. simpl. rewrite !execute_process_run. reflexivity.
    - rewrite route_skipped by exact Hc. simpl.
      unfold retraining_configured, params_in in Hc.
      destruct auto_retraining_params as [r|]; [|reflexivity].
      destruct (heap s !! r) as [[|kv d]|]; try discriminate; reflexivity. }
  destruct (job_list E project_id monitoring_location job_filter); apply Hroute.
Qed.

Lemma route_trace (job : string) (s : state) :
  trace (final (route job) s) = trace s ++ calls_made (route job) s.
Proof.
  destruct (retraining_configured s auto_retraining_params) eqn:Hc.
  - destruct (configured_inv s Hc) as (d & Hd & Hne).
    eapply calls_made_trace. unfold final.
    rewrite (route_wires job s d) by done. reflexivity.
  - eapply (calls_made_trace _ _ []). unfold final.
    rewrite route_skipped by exact Hc. simpl. symmetry. apply app_nil_r.
Qed.

Lemma whole_trace (s : state) :
  trace (final whole s) = trace s ++ calls_made whole s.
Proof.
  rewrite whole_calls. unfold final. rewrite whole_run.
  destruct (outcome upsert s) as [job|e]; simpl.
  - change ((route job (located s upsert_calls)).2)
      with (final (route job) (located s upsert_calls)).
    rewrite route_trace. unfold located. cbn [trace].
    rewrite <- app_assoc. reflexivity.
  - rewrite app_nil_r. reflexivity.
Qed.

(** *** The script body: upload, then the job *)

Variables (storage_bucket_name gs_pipeline_job_spec_path : string).

Let cfg : config :=
  mkConfig
    (mkGcp project_id storage_bucket_name pubsub_topic_name)
    (mkMonitoring alert_emails auto_retraining_params drift_thresholds skew_thresholds
       gs_auto_retraining_params_path job_display_name log_sink_name model_endpoint
       monitoring_interval monitoring_location sample_rate target_field
       training_dataset)
    (mkPipelines gs_pipeline_job_spec_path).
Let injected (d : pydict) : pydict :=
  PyDict.setitem "gs_pipeline_spec_path" (PStr gs_pipeline_job_spec_path) d.
Let write_call (d : pydict) : call :=
  FileWrite local_params_file (Json.dumps (injected d)) "w".
Let upload_calls (d : pydict) : list call :=
  [write_call d; StorageGetBucket storage_bucket_name;
   BlobUploadFromFilename storage_bucket_name
     (blob_filename gs_auto_retraining_params_path) local_params_file].
Let uploaded (s : state) (r : loc) (d : pydict) : state :=
  mkState (<[r := injected d]> (heap s))
          (<[local_params_file := Json.dumps (injected d)]> (files s))
          (<[(storage_bucket_name, blob_filename gs_auto_retraining_params_path) :=
               Json.dumps (injected d)]> (blobs s))
          (sinks s) (ai_context s) (trace s ++ upload_calls d).

Lemma main_unfold (s : state) :
  main E cfg s =
  (retrain ← truthy_params auto_retraining_params;
   (if retrain : bool then
      from_option
        (fun r => upload_automatic_retraining_parameters E r
                    gs_auto_retraining_params_path gs_pipeline_job_spec_path
                    storage_bucket_name)
        (mret tt) auto_retraining_params
    else mret tt);;
   whole) s.
Proof. reflexivity. Qed.

Lemma main_not_configured (s : state) :
  retraining_configured s auto_retraining_params = false ->
  main E cfg s =
  match auto_retraining_params with
  | Some r => match heap s !! r with
              | Some _ => whole s
              | None => (Raised StoreError, s)
              end
  | None => whole s
  end.
Proof.
  intros Hc. rewrite main_unfold.
  unfold retraining_configured, params_in in Hc.
  destruct auto_retraining_params as [r|]; [|reflexivity].
  unfold truthy_params, deref. unfold_monad. simpl.
  destruct (heap s !! r) as [[|kv d]|]; try discriminate; reflexivity.
Qed.

Lemma main_configured (s : state) (r : loc) (d : pydict) :
  auto_retraining_params = Some r -> heap s !! r = Some d -> d <> [] ->
  main E cfg s =
  match open_error E local_params_file with
  | Some msg =>
      (Raised (OSError ("Error writing to file. " +:+ msg) (Some (OSError msg None))),
       mkState (<[r := injected d]> (heap s))
               (left_by_failed_write E local_params_file (Json.dumps (injected d))
                  (files s))
               (blobs s) (sinks s) (ai_context s) (trace s ++ [write_call d]))
  | None => whole (uploaded s r d)
  end.
Proof.
  intros Hp Hr Hne. rewrite main_unfold.
  destruct auto_retraining_params as [r'|]; [injection Hp as ->| discriminate].
  destruct d as [|kv d]; [done|].
  unfold truthy_params, deref at 1. unfold_monad. simpl. rewrite Hr. simpl.
  destruct (open_error E local_params_file) as [msg|] eqn:Hopen.
  - rewrite (upload_write_fails E r _ _ _ s (kv :: d) msg Hr Hopen). reflexivity.
  - rewrite (upload_succeeds E r _ _ _ s (kv :: d) Hr Hopen). reflexivity.
Qed.

Lemma main_calls_not_configured (s : state) :
  retraining_configured s auto_retraining_params = false ->
  calls_made (main E cfg) s = [] \/ calls_made (main E cfg) s = upsert_calls.
Proof.
  intros Hc.
  assert (Hwhole : calls_made whole s = upsert_calls).
  { rewrite whole_calls_closed.
    unfold retraining_configured in Hc.
    destruct (endpoint_list E project_id monitoring_location endpoint_filter);
      [apply app_nil_r|].
    destruct (params_in s auto_retraining_params) as [[|kv d]|];
      try discriminate; apply app_nil_r. }
  unfold calls_made at 1 2. rewrite (main_not_configured s Hc).
  destruct auto_retraining_params as [r|].
  - destruct (heap s !! r).
    + right. exact Hwhole.
    + left. simpl. apply drop_all.
  - right. exact Hwhole.
Qed.

Lemma setitem_cons (k : string) (v : pyval) (d : pydict) :
  exists kv d', PyDict.setitem k v d = kv :: d'.
Proof.
  destruct d as [|[k' v'] d]; simpl; [eauto|].
  destruct (String.eqb k' k); eauto.
Qed.

Lemma main_calls_configured (s : state) (r : loc) (d : pydict) :
  auto_retraining_params = Some r -> heap s !! r = Some d -> d <> [] ->
  calls_made (main E cfg) s =
  match open_error E local_params_file with
  | Some _ => [write_call d]
  | None =>
      upload_calls d ++ upsert_calls ++
      match endpoint_list E project_id monitoring_location endpoint_filter with
      | [] => []
      | _ :: _ =>
          routing_calls (bool_decide (is_Some (sinks s !! log_sink_name)))
                        job_object (injected d)
      end
  end.
Proof.
  intros Hp Hr Hne. unfold calls_made at 1.
  rewrite (main_configured s r d Hp Hr Hne).
  destruct (open_error E local_params_file) as [msg|].
  - simpl. apply drop_app_length.
  - change ((whole (uploaded s r d)).2) with (final whole (uploaded s r d)).
    rewrite whole_trace, whole_calls_closed.
    unfold uploaded at 1. cbn [trace]. rewrite <- app_assoc, drop_app_length.
    do 2 f_equal.
    destruct (endpoint_list E project_id monitoring_location endpoint_filter);
      [reflexivity|].
    unfold params_in, uploaded. cbn [heap sinks].
    destruct auto_retraining_params as [r'|]; [injection Hp as ->| discriminate].
    rewrite lookup_insert_eq.
    destruct (setitem_cons "gs_pipeline_spec_path" (PStr gs_pipeline_job_spec_path) d)
      as (kv & d' & Hset).
    unfold injected. rewrite Hset. reflexivity.
Qed.

Lemma main_outcome_configured (s : state) (r : loc) (d : pydict) :
  auto_retraining_params = Some r -> heap s !! r = Some d -> d <> [] ->
  outcome (main E cfg) s = Returned tt ->
  open_error E local_params_file = None
  /\ endpoint_list E project_id monitoring_location endpoint_filter <> [].
Proof.
  intros Hp Hr Hne. unfold outcome at 1.
  rewrite (main_configured s r d Hp Hr Hne).
  destruct (open_error E local_params_file) as [msg|]; [discriminate|].
  change ((whole (uploaded s r d)).1) with (outcome whole (uploaded s r d)).
  rewrite whole_outcome.
  destruct (endpoint_list E project_id monitoring_location endpoint_filter);
    [discriminate|].
  intros _. split; [reflexivity | discriminate].
Qed.

Lemma upsert_calls_plain :
  forallb (fun c => negb (is_uploader_call c || is_sink_upsert c || is_iam_grant c))
          upsert_calls = true.
Proof.
  unfold upsert_calls.
  destruct (endpoint_list E project_id monitoring_location endpoint_filter);
    [reflexivity|].
  destruct (job_list E project_id monitoring_location job_filter); reflexivity.
Qed.

(** Without retraining parameters: no upload, no sink upsert, no grant. *)
Lemma main_gated (s : state) :
  retraining_configured s auto_retraining_params = false ->
  forallb (fun c => negb (is_uploader_call c || is_sink_upsert c || is_iam_grant c))
          (calls_made (main E cfg) s) = true.
Proof.
  intros Hc. destruct (main_calls_not_configured s Hc) as [-> | ->];
    [reflexivity | apply upsert_calls_plain].
Qed.

Lemma configured_ref (s : state) :
  retraining_configured s auto_retraining_params = true ->
  exists r d, auto_retraining_params = Some r /\ heap s !! r = Some d /\ d <> [].
Proof.
  intros Hc. destruct (configured_inv s Hc) as (d & Hd & Hne).
  unfold params_in in Hd. destruct auto_retraining_params as [r|]; [|discriminate].
  exists r, d. done.
Qed.

(** With retraining parameters: the orderings, as checks on the trace. *)
Lemma main_ordered (s : state) :
  retraining_configured s auto_retraining_params = true ->
  let made := calls_made (main E cfg) s in
  (exists text rest, made = FileWrite local_params_file text "w" :: rest)
  /\ all_before is_uploader_call is_job_upsert made = true
  /\ preceded_by is_job_upsert (fun c => is_sink_upsert c || is_iam_grant c)
                  false made = true
  /\ (outcome (main E cfg) s = Returned tt ->
      in_order [is_uploader_call; is_job_upsert; is_sink_upsert; is_iam_grant]
               made = true).
Proof.
  intros Hc made. subst made.
  destruct (configured_ref s Hc) as (r & d & Hp & Hd & Hne).
  pose proof (main_outcome_configured s r d Hp Hd Hne) as Hout.
  rewrite (main_calls_configured s r d Hp Hd Hne).
  unfold upload_calls, upsert_calls, routing_calls, sink_calls, write_call.
  destruct (open_error E local_params_file) as [msg|].
  { repeat split; eauto. intros Hret. destruct (Hout Hret) as [[=] _]. }
  destruct (endpoint_list E project_id monitoring_location endpoint_filter)
    as [|e es].
  { repeat split; eauto. intros Hret. destruct (Hout Hret) as [_ Hep]. done. }
  destruct (job_list E project_id monitoring_location job_filter);
    destruct (bool_decide (is_Some (sinks s !! log_sink_name)));
    repeat split; eauto.
Qed.

(** The grant is the one child process the script ever starts. *)
Lemma main_iam_calls (s : state) :
  List.filter is_iam_grant (calls_made (main E cfg) s) =
  if reaches_grant E cfg s then [iam_call] else [].
Proof.
  unfold reaches_grant, cfg. simpl. fold endpoint_filter. fold cfg.
  destruct (retraining_configured s auto_retraining_params) eqn:Hc.
  - destruct (configured_ref s Hc) as (r & d & Hp & Hd & Hne).
    rewrite (main_calls_configured s r d Hp Hd Hne).
    unfold upload_calls, upsert_calls, routing_calls, sink_calls, write_call.
    destruct (open_error E local_params_file) as [msg|]; [reflexivity|].
    destruct (endpoint_list E project_id monitoring_location endpoint_filter)
      as [|e es]; [reflexivity|].
    destruct (job_list E project_id monitoring_location job_filter);
      destruct (bool_decide (is_Some (sinks s !! log_sink_name))); reflexivity.
  - simpl. destruct (main_calls_not_configured s Hc) as [-> | ->]; [reflexivity|].
    unfold upsert_calls.
    destruct (endpoint_list E project_id monitoring_location endpoint_filter);
      [reflexivity|].
    destruct (job_list E project_id monitoring_location job_filter); reflexivity.
Qed.

(** *** Properties of [create_or_update_monitoring_job] *)

(** C3: when the endpoint lookup (by the last segment of [model_endpoint], in
    the project and location given) finds nothing, the function raises a
    [ValueError] whose text names [model_endpoint] and [monitoring_location];
    the only calls made are the initialisation and that lookup, so no job is
    created or updated. *)
Theorem endpoint_missing_raises_not_found (s : state) :
  endpoint_list E project_id monitoring_location endpoint_filter = [] ->
  let message :=
    "Model endpoint " +:+ model_endpoint +:+ " not found in " +:+ monitoring_location in
  outcome whole s = Raised (ValueError message)
  /\ PyStr.contains model_endpoint message
  /\ PyStr.contains monitoring_location message
  /\ calls_made whole s =
       [AiplatformInit project_id monitoring_location; EndpointList endpoint_filter]
  /\ List.filter is_job_upsert (calls_made whole s) = [].
Proof.
  intros Hep message.
  assert (Hcalls : calls_made whole s =
            [AiplatformInit project_id monitoring_location;
             EndpointList endpoint_filter]).
  { rewrite whole_calls, upsert_outcome. unfold upsert_calls. rewrite Hep.
    reflexivity. }
  split; [|split; [|split; [|split]]].
  - unfold outcome. rewrite whole_run, upsert_outcome, Hep. reflexivity.
  - exists "Model endpoint ", (" not found in " +:+ monitoring_location).
    reflexivity.
  - exists ("Model endpoint " +:+ model_endpoint +:+ " not found in "), EmptyString.
    subst message. rewrite !append_assoc, append_nil_r. reflexivity.
  - exact Hcalls.
  - rewrite Hcalls. reflexivity.
Qed.

(** C1, as the code has it: once the endpoint lookup has found the endpoint,
    an empty job list for the display name leads to exactly one create call
    and no update call, and a non-empty one to exactly one update call, on
    the identifier that is the last segment of the first match's resource
    name, and no create call. *)
Theorem job_upsert_by_display_name (s : state) :
  endpoint_list E project_id monitoring_location endpoint_filter <> [] ->
  match job_list E project_id monitoring_location job_filter with
  | [] =>
      List.filter is_job_create (calls_made whole s) = [JobCreate create_args]
      /\ List.filter is_job_update (calls_made whole s) = []
  | first :: _ =>
      List.filter is_job_update (calls_made whole s) =
        [JobUpdate (PyStr.last_segment first) update_args]
      /\ List.filter is_job_create (calls_made whole s) = []
  end.
Proof.
  intros Hep.
  assert (Hroute : forall p : call -> bool,
            (forall c, p c = true -> is_job_create c || is_job_update c = true) ->
            forall job s', List.filter p (calls_made (route job) s') = []).
  { intros p Hp job s'. pose proof (route_calls_no_job job s') as Hno.
    induction (calls_made (route job) s') as [|c l IH]; [reflexivity|].
    simpl in *. destruct (is_job_create c || is_job_update c) eqn:Hc;
      [discriminate|].
    destruct (p c) eqn:Hpc; [rewrite (Hp c Hpc) in Hc; discriminate|].
    apply IH, Hno. }
  rewrite whole_calls, upsert_outcome. unfold upsert_calls.
  destruct (endpoint_list E project_id monitoring_location endpoint_filter)
    as [|e es]; [done|].
  destruct (job_list E project_id monitoring_location job_filter) as [|first others];
    rewrite !List.filter_app, !Hroute;
    try (split; reflexivity);
    intros c Hc; rewrite Hc; try reflexivity; apply orb_true_r.
Qed.

(** *** The state the function leaves *)

Lemma whole_wired (s : state) (d : pydict) :
  endpoint_list E project_id monitoring_location endpoint_filter <> [] ->
  params_in s auto_retraining_params = Some d -> d <> [] ->
  whole s =
  (outcome (execute_process E (update_iam project_id) true) s,
   mkState (heap s) (files s) (blobs s)
     (<[log_sink_name :=
          mkSink (monitoring_anomaly_log_filter monitoring_location
                    (PyStr.last_segment job_object) project_id)
                 (anomaly_log_destination project_id pubsub_topic_name)]> (sinks s))
     (Some (project_id, monitoring_location))
     (trace s ++ upsert_calls ++
      routing_calls (bool_decide (is_Some (sinks s !! log_sink_name))) job_object d)).
Proof.
  intros Hep Hd Hne. rewrite whole_run, upsert_outcome.
  unfold job_object, upsert_calls.
  destruct (endpoint_list E project_id monitoring_location endpoint_filter)
    as [|e es]; [done|].
  destruct (job_list E project_id monitoring_location job_filter) as [|first others];
    rewrite (route_wires _ _ d) by done;
    unfold outcome, located; rewrite !execute_process_run; cbn [fst heap files blobs
      sinks ai_context trace]; rewrite <- !app_assoc; reflexivity.
Qed.

Lemma whole_plain (s : state) :
  endpoint_list E project_id monitoring_location endpoint_filter = [] \/
  retraining_configured s auto_retraining_params = false ->
  final whole s = located s upsert_calls.
Proof.
  intros Hcase. unfold final. rewrite whole_run, upsert_outcome.
  destruct (endpoint_list E project_id monitoring_location endpoint_filter)
    as [|e es] eqn:Hep; [reflexivity|].
  destruct Hcase as [[=]|Hc].
  destruct (job_list E project_id monitoring_location job_filter);
    rewrite route_skipped by exact Hc; reflexivity.
Qed.

(** X7: whatever its outcome, [create_or_update_monitoring_job] leaves the
    stored dictionaries (so the retraining parameters), the local files and
    the bucket objects as they were, and touches no log sink other than
    [log_sink_name]; that one it leaves as it was too when the retraining
    parameters are none or an empty mapping, and when the endpoint is not
    found.  When it returns, the SDK context is the project and location
    given. *)
Theorem monitoring_job_frame (s : state) :
  heap (final whole s) = heap s
  /\ files (final whole s) = files s
  /\ blobs (final whole s) = blobs s
  /\ (forall name, name <> log_sink_name ->
        sinks (final whole s) !! name = sinks s !! name)
  /\ (retraining_configured s auto_retraining_params = false ->
      sinks (final whole s) = sinks s)
  /\ (endpoint_list E project_id monitoring_location endpoint_filter = [] ->
      sinks (final whole s) = sinks s)
  /\ (outcome whole s = Returned tt ->
      ai_context (final whole s) = Some (project_id, monitoring_location)).
Proof.
  assert (Hep : endpoint_list E project_id monitoring_location endpoint_filter = [] \/
                endpoint_list E project_id monitoring_location endpoint_filter <> []).
  { destruct (endpoint_list E project_id monitoring_location endpoint_filter);
      [left; reflexivity | right; discriminate]. }
  destruct (retraining_configured s auto_retraining_params) eqn:Hc.
  - destruct Hep as [Hep | Hep].
    + rewrite (whole_plain s (or_introl Hep)). repeat split; discriminate.
    + destruct (configured_inv s Hc) as (d & Hd & Hne).
      unfold final. rewrite (whole_wired s d Hep Hd Hne).
      cbn [snd heap files blobs sinks ai_context].
      repeat split; try discriminate; try contradiction.
      intros name Hname. apply lookup_insert_ne. congruence.
  - rewrite (whole_plain s (or_intror Hc)). repeat split.
Qed.

Lemma sink_calls_upserts (present : bool) (name destination filter_ : string) :
  List.filter is_sink_upsert (sink_calls present name destination filter_) =
  [if present then SinkUpdate name filter_ destination
   else SinkCreate name filter_ destination].
Proof. destruct present; reflexivity. Qed.

Lemma whole_sink_upserts (s : state) :
  List.filter is_sink_upsert (calls_made whole s) = [] \/
  List.filter is_sink_upsert (calls_made whole s) =
    [if bool_decide (is_Some (sinks s !! log_sink_name))
     then SinkUpdate log_sink_name
            (monitoring_anomaly_log_filter monitoring_location
               (PyStr.last_segment job_object) project_id)
            (anomaly_log_destination project_id pubsub_topic_name)
     else SinkCreate log_sink_name
            (monitoring_anomaly_log_filter monitoring_location
               (PyStr.last_segment job_object) project_id)
            (anomaly_log_destination project_id pubsub_topic_name)].
Proof.
  rewrite whole_calls_closed, List.filter_app.
  assert (Hplain : List.filter is_sink_upsert upsert_calls = []).
  { unfold upsert_calls.
    destruct (endpoint_list E project_id monitoring_location endpoint_filter);
      [reflexivity|].
    destruct (job_list E project_id monitoring_location job_filter); reflexivity. }
  rewrite Hplain. cbn [app].
  destruct (endpoint_list E project_id monitoring_location endpoint_filter);
    [left; reflexivity|].
  destruct (params_in s auto_retraining_params) as [[|kv d]|];
    [left; reflexivity | | left; reflexivity].
  right. unfold routing_calls. rewrite List.filter_app, sink_calls_upserts.
  reflexivity.
Qed.

(** X8: every sink call [create_or_update_monitoring_job] makes is for
    [log_sink_name], with the anomaly filter of the job it has just created
    or updated (named by the last segment of that job's resource name) and
    the topic of the project as destination; it is an update when the sink
    is there and a creation when it is not, and there is at most one such
    call.  If the function changes what the registry holds under
    [log_sink_name], then to that filter and destination. *)
Theorem sink_calls_carry_job_filter (s : state) :
  let job_id :=
    PyStr.last_segment
      match job_list E project_id monitoring_location job_filter with
      | [] => created_resource_name E create_args
      | first :: _ => job_resource_name E (PyStr.last_segment first)
      end in
  let filter_ := monitoring_anomaly_log_filter monitoring_location job_id project_id in
  let destination :=
    "pubsub.googleapis.com/projects/" +:+ project_id +:+ "/topics/" +:+
    pubsub_topic_name in
  (forall c, In c (calls_made whole s) -> is_sink_upsert c = true ->
     c = if bool_decide (is_Some (sinks s !! log_sink_name))
         then SinkUpdate log_sink_name filter_ destination
         else SinkCreate log_sink_name filter_ destination)
  /\ length (List.filter is_sink_upsert (calls_made whole s)) <= 1
  /\ (sinks (final whole s) !! log_sink_name <> sinks s !! log_sink_name ->
      sinks (final whole s) !! log_sink_name = Some (mkSink filter_ destination)).
Proof.
  intros job_id filter_ destination. subst job_id filter_ destination.
  split; [|split].
  - intros c Hin Hc.
    assert (Hf : In c (List.filter is_sink_upsert (calls_made whole s))).
    { apply List.filter_In. split; assumption. }
    destruct (whole_sink_upserts s) as [Hnone | Hone].
    + rewrite Hnone in Hf. destruct Hf.
    + rewrite Hone in Hf. destruct Hf as [<- | []]. reflexivity.
  - destruct (whole_sink_upserts s) as [-> | ->]; simpl; lia.
  - assert (Hep : endpoint_list E project_id monitoring_location endpoint_filter = [] \/
                  endpoint_list E project_id monitoring_location endpoint_filter <> []).
    { destruct (endpoint_list E project_id monitoring_location endpoint_filter);
        [left; reflexivity | right; discriminate]. }
    destruct (retraining_configured s auto_retraining_params) eqn:Hc.
    + destruct Hep as [Hep | Hep].
      * rewrite (whole_plain s (or_introl Hep)). intros []. reflexivity.
      * destruct (configured_inv s Hc) as (d & Hd & Hne).
        unfold final. rewrite (whole_wired s d Hep Hd Hne). cbn [snd sinks].
        intros _. apply lookup_insert_eq.
    + rewrite (whole_plain s (or_intror Hc)). intros []. reflexivity.
Qed.

(** *** The script body: outcomes and what is left behind *)

Let grant_outcome : result unit :=
  if (returncode_of E [update_iam project_id] =? 0)%Z then Returned tt
  else Raised (RuntimeError
         ("Error executing process. " +:+
          str_called_process_error E (returncode_of E [update_iam project_id])
            [update_iam project_id])
         (Some (CalledProcessError (returncode_of E [update_iam project_id])
                  [update_iam project_id]))).

Lemma not_configured_cases (s : state) :
  retraining_configured s auto_retraining_params = false ->
  auto_retraining_params = None \/
  exists r, auto_retraining_params = Some r /\
            (heap s !! r = None \/ heap s !! r = Some []).
Proof.
  unfold retraining_configured, params_in.
  destruct auto_retraining_params as [r|]; [|left; reflexivity].
  destruct (heap s !! r) as [[|kv d]|] eqn:Hr; try discriminate; intros _; right;
    exists r; (split; [reflexivity|]); [right | left]; first [reflexivity | exact Hr].
Qed.

Lemma main_outcome_closed (s : state) :
  outcome (main E cfg) s =
  match auto_retraining_params with
  | Some r =>
      match heap s !! r with
      | None => Raised StoreError
      | Some [] =>
          match endpoint_list E project_id monitoring_location endpoint_filter with
          | [] => Raised (endpoint_not_found model_endpoint monitoring_location)
          | _ :: _ => Returned tt
          end
      | Some (_ :: _) =>
          match open_error E local_params_file with
          | Some msg =>
              Raised (OSError ("Error writing to file. " +:+ msg)
                              (Some (OSError msg None)))
          | None =>
              match endpoint_list E project_id monitoring_location endpoint_filter with
              | [] => Raised (endpoint_not_found model_endpoint monitoring_location)
              | _ :: _ => grant_outcome
              end
          end
      end
  | None =>
      match endpoint_list E project_id monitoring_location endpoint_filter with
      | [] => Raised (endpoint_not_found model_endpoint monitoring_location)
      | _ :: _ => Returned tt
      end
  end.
Proof.
  destruct (retraining_configured s auto_retraining_params) eqn:Hc.
  - destruct (configured_ref s Hc) as (r & d & Hp & Hd & Hne).
    unfold outcome at 1. rewrite (main_configured s r d Hp Hd Hne), Hp, Hd.
    destruct d as [|kv d]; [done|].
    destruct (open_error E local_params_file) as [msg|]; [reflexivity|].
    change ((whole (uploaded s r (kv :: d))).1)
      with (outcome whole (uploaded s r (kv :: d))).
    rewrite whole_outcome, Hp. unfold uploaded at 1. cbn [heap].
    rewrite lookup_insert_eq.
    destruct (setitem_cons "gs_pipeline_spec_path" (PStr gs_pipeline_job_spec_path)
                (kv :: d)) as (kv' & d' & Hset).
    unfold injected. rewrite Hset.
    unfold outcome. rewrite execute_process_run. reflexivity.
  - unfold outcome at 1. rewrite (main_not_configured s Hc).
    destruct (not_configured_cases s Hc) as [Hp | (r & Hp & [Hr | Hr])];
      rewrite Hp; try rewrite Hr; try reflexivity;
      change ((whole s).1) with (outcome whole s);
      rewrite whole_outcome, Hp; try rewrite Hr; reflexivity.
Qed.

Lemma main_final_wired (s : state) (r : loc) (d : pydict) :
  auto_retraining_params = Some r -> heap s !! r = Some d -> d <> [] ->
  open_error E local_params_file = None ->
  endpoint_list E project_id monitoring_location endpoint_filter <> [] ->
  main E cfg s =
  (grant_outcome,
   mkState (<[r := injected d]> (heap s))
     (<[local_params_file := Json.dumps (injected d)]> (files s))
     (<[(storage_bucket_name, blob_filename gs_auto_retraining_params_path) :=
          Json.dumps (injected d)]> (blobs s))
     (<[log_sink_name :=
          mkSink (monitoring_anomaly_log_filter monitoring_location
                    (PyStr.last_segment job_object) project_id)
                 (anomaly_log_destination project_id pubsub_topic_name)]> (sinks s))
     (Some (project_id, monitoring_location))
     (trace s ++ upload_calls d ++ upsert_calls ++
      routing_calls (bool_decide (is_Some (sinks s !! log_sink_name))) job_object
                    (injected d))).
Proof.
  intros Hp Hr Hne Hopen Hep.
  rewrite (main_configured s r d Hp Hr Hne), Hopen.
  destruct (setitem_cons "gs_pipeline_spec_path" (PStr gs_pipeline_job_spec_path) d)
    as (kv' & d' & Hset).
  rewrite (whole_wired (uploaded s r d) (injected d) Hep).
  - unfold outcome, uploaded. rewrite execute_process_run.
    cbn [fst heap files blobs sinks ai_context trace].
    rewrite <- !app_assoc. reflexivity.
  - unfold params_in, uploaded. cbn [heap]. rewrite Hp. apply lookup_insert_eq.
  - unfold injected. rewrite Hset. discriminate.
Qed.

(** A printed mapping is the one written to the parameter file. *)
Lemma main_prints_written (s : state) :
  Forall (fun c => match c with
                   | PPrint d' =>
                       exists d, d' = injected d /\
                         In (FileWrite local_params_file (Json.dumps d') "w")
                            (calls_made (main E cfg) s)
                   | _ => True
                   end) (calls_made (main E cfg) s).
Proof.
  destruct (retraining_configured s auto_retraining_params) eqn:Hc.
  - destruct (configured_ref s Hc) as (r & d & Hp & Hd & Hne).
    rewrite (main_calls_configured s r d Hp Hd Hne).
    unfold upload_calls, upsert_calls, routing_calls, sink_calls, write_call.
    destruct (open_error E local_params_file) as [msg|];
      [repeat constructor|].
    destruct (endpoint_list E project_id monitoring_location endpoint_filter)
      as [|e es]; [repeat constructor|].
    destruct (job_list E project_id monitoring_location job_filter);
      destruct (bool_decide (is_Some (sinks s !! log_sink_name)));
      repeat constructor; exists d; (split; [reflexivity | left; reflexivity]).
  - destruct (main_calls_not_configured s Hc) as [-> | ->]; [constructor|].
    unfold upsert_calls.
    destruct (endpoint_list E project_id monitoring_location endpoint_filter);
      [repeat constructor|].
    destruct (job_list E project_id monitoring_location job_filter);
      repeat constructor.
Qed.


(** *** How far a run got, read off its outcome *)

Lemma main_closed (s : state) :
  (retraining_configured s auto_retraining_params = false
   /\ ((outcome (main E cfg) s = Raised StoreError /\ calls_made (main E cfg) s = [])
       \/ (outcome (main E cfg) s =
             match endpoint_list E project_id monitoring_location endpoint_filter with
             | [] => Raised (endpoint_not_found model_endpoint monitoring_location)
             | _ :: _ => Returned tt
             end
           /\ calls_made (main E cfg) s = upsert_calls)))
  \/ (exists r d,
        auto_retraining_params = Some r /\ heap s !! r = Some d /\ d <> []
        /\ retraining_configured s auto_retraining_params = true
        /\ match open_error E local_params_file with
           | Some msg =>
               outcome (main E cfg) s =
                 Raised (OSError ("Error writing to file. " +:+ msg)
                                 (Some (OSError msg None)))
               /\ calls_made (main E cfg) s = [write_call d]
           | None =>
               outcome (main E cfg) s =
                 match endpoint_list E project_id monitoring_location endpoint_filter with
                 | [] => Raised (endpoint_not_found model_endpoint monitoring_location)
                 | _ :: _ => grant_outcome
                 end
               /\ calls_made (main E cfg) s =
                    upload_calls d ++ upsert_calls ++
                    match endpoint_list E project_id monitoring_location
                            endpoint_filter with
                    | [] => []
                    | _ :: _ =>
                        routing_calls (bool_decide (is_Some (sinks s !! log_sink_name)))
                                      job_object (injected d)
                    end
           end).
Proof.
  destruct (retraining_configured s auto_retraining_params) eqn:Hc.
  - right. destruct (configured_ref s Hc) as (r & d & Hp & Hd & Hne).
    exists r, d. repeat (split; [assumption|]). split; [reflexivity|].
    rewrite (main_calls_configured s r d Hp Hd Hne), main_outcome_closed, Hp, Hd.
    destruct d as [|kv d]; [done|].
    destruct (open_error E local_params_file) as [msg|]; split; reflexivity.
  - left. split; [reflexivity|].
    rewrite main_outcome_closed.
    assert (Hwhole : calls_made whole s = upsert_calls).
    { rewrite whole_calls_closed.
      unfold retraining_configured in Hc.
      destruct (endpoint_list E project_id monitoring_location endpoint_filter);
        [apply app_nil_r|].
      destruct (params_in s auto_retraining_params) as [[|kv d]|];
        try discriminate; apply app_nil_r. }
    unfold calls_made at 1 2. rewrite (main_not_configured s Hc).
    destruct (not_configured_cases s Hc) as [Hp | (r & Hp & [Hr | Hr])];
      rewrite Hp; try rewrite Hr.
    + right. split; [reflexivity | exact Hwhole].
    + left. split; [reflexivity|]. simpl. apply drop_all.
    + right. split; [reflexivity | exact Hwhole].
Qed.

Lemma endpoint_cases :
  endpoint_list E project_id monitoring_location endpoint_filter = [] \/
  exists e es, endpoint_list E project_id monitoring_location endpoint_filter = e :: es.
Proof.
  destruct (endpoint_list E project_id monitoring_location endpoint_filter) as [|e es];
    [left; reflexivity | right; exists e, es; reflexivity].
Qed.

Lemma upsert_calls_one_upsert :
  endpoint_list E project_id monitoring_location endpoint_filter <> [] ->
  length (List.filter is_job_upsert upsert_calls) = 1.
Proof.
  unfold upsert_calls.
  destruct (endpoint_list E project_id monitoring_location endpoint_filter);
    [done|]. intros _.
  destruct (job_list E project_id monitoring_location job_filter); reflexivity.
Qed.

Lemma upsert_calls_stop_at_lookup :
  endpoint_list E project_id monitoring_location endpoint_filter = [] ->
  upsert_calls =
    [AiplatformInit project_id monitoring_location; EndpointList endpoint_filter].
Proof. unfold upsert_calls. intros ->. reflexivity. Qed.

Lemma grant_outcome_returned :
  grant_outcome = Returned tt -> returncode_of E [update_iam project_id] = 0%Z.
Proof.
  unfold grant_outcome.
  destruct (Z.eqb_spec (returncode_of E [update_iam project_id]) 0);
    [intros _; assumption | discriminate].
Qed.

Lemma grant_outcome_raised (e : exn) :
  grant_outcome = Raised e ->
  returncode_of E [update_iam project_id] <> 0%Z
  /\ e = RuntimeError
           ("Error executing process. " +:+
            str_called_process_error E (returncode_of E [update_iam project_id])
              [update_iam project_id])
           (Some (CalledProcessError (returncode_of E [update_iam project_id])
                    [update_iam project_id])).
Proof.
  unfold grant_outcome.
  destruct (Z.eqb_spec (returncode_of E [update_iam project_id]) 0);
    [discriminate|]. intros [= <-]. split; [assumption | reflexivity].
Qed.

Lemma full_run_in_order (s : state) (d : pydict) :
  endpoint_list E project_id monitoring_location endpoint_filter <> [] ->
  in_order [is_uploader_call; is_job_upsert; is_sink_upsert; is_iam_grant]
    (upload_calls d ++ upsert_calls ++
     routing_calls (bool_decide (is_Some (sinks s !! log_sink_name))) job_object
       (injected d)) = true
  /\ length (List.filter is_job_upsert
               (upload_calls d ++ upsert_calls ++
                routing_calls (bool_decide (is_Some (sinks s !! log_sink_name)))
                  job_object (injected d))) = 1.
Proof.
  unfold upload_calls, upsert_calls, routing_calls, sink_calls, write_call.
  destruct (endpoint_list E project_id monitoring_location endpoint_filter);
    [done|]. intros _.
  destruct (job_list E project_id monitoring_location job_filter);
    destruct (bool_decide (is_Some (sinks s !! log_sink_name))); split; reflexivity.
Qed.

(** A run that raised the wrapped write error made the write attempt and
    nothing else. *)
Lemma main_write_error (s : state) (msg : string) (cause : option exn) :
  outcome (main E cfg) s = Raised (OSError ("Error writing to file. " +:+ msg) cause) ->
  retraining_configured s auto_retraining_params = true
  /\ exists text, calls_made (main E cfg) s = [FileWrite local_params_file text "w"].
Proof.
  destruct (main_closed s) as [[_ [[Hout _] | [Hout _]]] | (r & d & _ & _ & _ & Hc & H)].
  - rewrite Hout. discriminate.
  - rewrite Hout.
    destruct (endpoint_list E project_id monitoring_location endpoint_filter);
      discriminate.
  - destruct (open_error E local_params_file) as [msg'|]; destruct H as [Hout Hcalls];
      rewrite Hout.
    + intros _. split; [exact Hc|]. rewrite Hcalls. eexists. reflexivity.
    + destruct (endpoint_list E project_id monitoring_location endpoint_filter);
        [discriminate|].
      unfold grant_outcome.
      destruct (returncode_of E [update_iam project_id] =? 0)%Z; discriminate.
Qed.

(** A run that raised the endpoint error made no job, sink or grant call. *)
Lemma main_not_found (s : state) :
  outcome (main E cfg) s = Raised (endpoint_not_found model_endpoint monitoring_location) ->
  endpoint_list E project_id monitoring_location endpoint_filter = []
  /\ forallb (fun c => negb (is_job_upsert c || is_sink_upsert c || is_iam_grant c))
             (calls_made (main E cfg) s) = true.
Proof.
  destruct (main_closed s) as [[_ [[Hout _] | [Hout Hcalls]]] | (r & d & _ & _ & _ & _ & H)].
  - rewrite Hout. discriminate.
  - rewrite Hout, Hcalls.
    destruct endpoint_cases as [Hep | (e & es & Hep)]; rewrite Hep; [|discriminate].
    intros _. split; [reflexivity|].
    rewrite (upsert_calls_stop_at_lookup Hep). reflexivity.
  - destruct (open_error E local_params_file) as [msg'|]; destruct H as [Hout Hcalls];
      rewrite Hout; [discriminate|]. rewrite Hcalls.
    destruct endpoint_cases as [Hep | (e & es & Hep)]; rewrite Hep.
    + intros _. split; [reflexivity|].
      rewrite (upsert_calls_stop_at_lookup Hep). reflexivity.
    + unfold grant_outcome.
      destruct (returncode_of E [update_iam project_id] =? 0)%Z; discriminate.
Qed.

(** A run that raised the wrapped process error got as far as the grant. *)
Lemma main_grant_error (s : state) (msg : string) (rc : Z) (cmd : list string) :
  outcome (main E cfg) s = Raised (RuntimeError msg (Some (CalledProcessError rc cmd))) ->
  cmd = [update_iam project_id] /\ rc = returncode_of E cmd /\ rc <> 0%Z
  /\ retraining_configured s auto_retraining_params = true
  /\ in_order [is_uploader_call; is_job_upsert; is_sink_upsert; is_iam_grant]
              (calls_made (main E cfg) s) = true.
Proof.
  destruct (main_closed s) as [[_ [[Hout _] | [Hout _]]] | (r & d & _ & _ & _ & Hc & H)].
  - rewrite Hout. discriminate.
  - rewrite Hout.
    destruct (endpoint_list E project_id monitoring_location endpoint_filter);
      discriminate.
  - destruct (open_error E local_params_file) as [msg'|]; destruct H as [Hout Hcalls];
      rewrite Hout; [discriminate|]. rewrite Hcalls.
    destruct endpoint_cases as [Hep | (e & es & Hep)]; rewrite Hep; [discriminate|].
    intros Hg. destruct (grant_outcome_raised _ Hg) as [Hrc [= -> -> ->]].
    assert (Hne : endpoint_list E project_id monitoring_location endpoint_filter <> [])
      by (rewrite Hep; discriminate).
    pose proof (full_run_in_order s d Hne) as [Hord _].
    repeat split; assumption.
Qed.

(** A run that returned found the endpoint and made one job call; with
    retraining parameters it went through all four steps. *)
Lemma main_returned (s : state) :
  outcome (main E cfg) s = Returned tt ->
  endpoint_list E project_id monitoring_location endpoint_filter <> []
  /\ length (List.filter is_job_upsert (calls_made (main E cfg) s)) = 1
  /\ (retraining_configured s auto_retraining_params = true ->
      returncode_of E [update_iam project_id] = 0%Z
      /\ in_order [is_uploader_call; is_job_upsert; is_sink_upsert; is_iam_grant]
                  (calls_made (main E cfg) s) = true).
Proof.
  destruct (main_closed s) as [[Hc [[Hout _] | [Hout Hcalls]]] | (r & d & _ & _ & _ & _ & H)].
  - rewrite Hout. discriminate.
  - rewrite Hout, Hcalls, Hc.
    destruct endpoint_cases as [Hep | (e & es & Hep)]; rewrite Hep; [discriminate|].
    assert (Hne : endpoint_list E project_id monitoring_location endpoint_filter <> [])
      by (rewrite Hep; discriminate).
    intros _. split; [discriminate|]. split; [|discriminate].
    apply upsert_calls_one_upsert, Hne.
  - destruct (open_error E local_params_file) as [msg'|]; destruct H as [Hout Hcalls];
      rewrite Hout; [discriminate|]. rewrite Hcalls.
    destruct endpoint_cases as [Hep | (e & es & Hep)]; rewrite Hep; [discriminate|].
    assert (Hne : endpoint_list E project_id monitoring_location endpoint_filter <> [])
      by (rewrite Hep; discriminate).
    intros Hg. pose proof (full_run_in_order s d Hne) as [Hord Hone].
    split; [discriminate|]. split; [exact Hone|]. intros _.
    split; [apply grant_outcome_returned, Hg | exact Hord].
Qed.

End MonitoringJob.



(** *** Worked runs *)

(** C3 on a project without the endpoint. *)
Lemma endpoint_missing_raises_not_found_witness :
  let run := Example.run_job (Example.cloud [] [] 0) None in
  let message :=
    "Model endpoint projects/p/locations/us-central1/endpoints/123 not found in us-central1" in
  outcome run Example.fresh = Raised (ValueError message)
  /\ PyStr.contains Example.endpoint_name message
  /\ PyStr.contains "us-central1" message
  /\ calls_made run Example.fresh =
       [AiplatformInit "p" "us-central1"; EndpointList Example.endpoint_filter]
  /\ List.filter is_job_upsert (calls_made run Example.fresh) = [].
Proof.
  exact (endpoint_missing_raises_not_found (Example.cloud [] [] 0) None None
           (Some [("f1", 1 # 10)]) "gs://b/params.json" "job1" "sink1"
           Example.endpoint_name 1 "us-central1" "p" "topic1" (8 # 10) None "label"
           "bq://p.d.t" Example.fresh eq_refl).
Defined.

(** C1 as stated does not hold: in a project where neither the endpoint nor a
    job named [job1] exists, the job list for the display name is empty, yet
    the run stops at the endpoint check and makes no create call. *)
Lemma empty_job_list_without_create :
  let E := Example.cloud [] [] 0 in
  let run := Example.run_job E None in
  job_list E "p" "us-central1" Example.job_filter = []
  /\ outcome run Example.fresh =
       Raised (endpoint_not_found Example.endpoint_name "us-central1")
  /\ length (List.filter is_job_create (calls_made run Example.fresh)) = 0
  /\ length (List.filter is_job_create (calls_made run Example.fresh)) <> 1.
Proof. vm_compute. repeat split. discriminate. Qed.

(** C1 on a project with the endpoint: without a job named [job1] one create
    call; with two such jobs one update call, on the first one listed. *)
Lemma job_upsert_by_display_name_witness :
  (let run := Example.run_job (Example.cloud [Example.endpoint_name] [] 0) None in
   List.filter is_job_create (calls_made run Example.fresh) =
     [JobCreate Example.create_args]
   /\ List.filter is_job_update (calls_made run Example.fresh) = [])
  /\
  (let run := Example.run_job
                (Example.cloud [Example.endpoint_name]
                               [Example.job_name "42"; Example.job_name "7"] 0) None in
   List.filter is_job_update (calls_made run Example.fresh) =
     [JobUpdate "42" Example.update_args]
   /\ List.filter is_job_create (calls_made run Example.fresh) = []).
Proof.
  split.
  - refine (job_upsert_by_display_name (Example.cloud [Example.endpoint_name] [] 0)
              None None (Some [("f1", 1 # 10)]) "gs://b/params.json" "job1" "sink1"
              Example.endpoint_name 1 "us-central1" "p" "topic1" (8 # 10) None "label"
              "bq://p.d.t" Example.fresh _).
    vm_compute. discriminate.
  - refine (job_upsert_by_display_name
              (Example.cloud [Example.endpoint_name]
                             [Example.job_name "42"; Example.job_name "7"] 0)
              None None (Some [("f1", 1 # 10)]) "gs://b/params.json" "job1" "sink1"
              Example.endpoint_name 1 "us-central1" "p" "topic1" (8 # 10) None "label"
              "bq://p.d.t" Example.fresh _).
    vm_compute. discriminate.
Defined.
(** ** Properties of [execute_process] and [create_or_update_sink] *)

(** C10: [execute_process] always runs the child with its standard error sent
    into its standard output, whether the output is discarded ([to_null]) or
    inherited; it raises exactly when the exit status is not zero, and what it
    raises is a [RuntimeError] whose text ends with the text of the process
    error and whose cause is that error. *)
Theorem execute_process_merges_stderr_and_wraps_failure
    (E : env) (command : string) (to_null : bool) (s : state) :
  calls_made (execute_process E command to_null) s =
    [SubprocessRun [command] true true (if to_null then DEVNULL else Inherit) STDOUT]
  /\ (forall e : exn,
        outcome (execute_process E command to_null) s = Raised e <->
        returncode_of E [command] <> 0%Z /\
        e = RuntimeError
              ("Error executing process. " +:+
               str_exn E (CalledProcessError (returncode_of E [command]) [command]))
              (Some (CalledProcessError (returncode_of E [command]) [command])))
  /\ (outcome (execute_process E command to_null) s = Returned tt <->
      returncode_of E [command] = 0%Z).
Proof.
  split; [|split].
  - eapply calls_made_eq; [apply execute_process_run | reflexivity].
  - intros e. unfold outcome. rewrite execute_process_run. simpl.
    destruct (Z.eqb_spec (returncode_of E [command]) 0) as [Hz|Hz].
    + split; [discriminate | intros [Hne _]; contradiction].
    + split.
      * intros [= <-]. split; [assumption | reflexivity].
      * intros [_ ->]. reflexivity.
  - unfold outcome. rewrite execute_process_run. simpl.
    destruct (Z.eqb_spec (returncode_of E [command]) 0) as [Hz|Hz].
    + split; [intros _; assumption | reflexivity].
    + split; [discriminate | contradiction].
Qed.

(** C5: [create_or_update_sink] asks whether the sink exists; if it does it
    makes one update call and no create call, otherwise one create call and no
    update call.  Either call names the sink by the [sink_name] given and
    carries the same filter and destination, which are what the sink holds
    afterwards; no other sink changes. *)
Theorem create_or_update_sink_upserts
    (sink_name destination filter_ : string) (s : state) :
  let run := create_or_update_sink sink_name destination filter_ in
  (match sinks s !! sink_name with
   | Some _ =>
       List.filter is_sink_upsert (calls_made run s) =
         [SinkUpdate sink_name filter_ destination]
   | None =>
       List.filter is_sink_upsert (calls_made run s) =
         [SinkCreate sink_name filter_ destination]
   end)
  /\ calls_made run s =
       sink_calls (bool_decide (is_Some (sinks s !! sink_name)))
                  sink_name destination filter_
  /\ sinks (final run s) !! sink_name = Some (mkSink filter_ destination)
  /\ (forall other : string,
        other <> sink_name -> sinks (final run s) !! other = sinks s !! other)
  /\ outcome run s = Returned tt.
Proof.
  intros run. subst run.
  assert (Hcalls : calls_made (create_or_update_sink sink_name destination filter_) s =
                   sink_calls (bool_decide (is_Some (sinks s !! sink_name)))
                              sink_name destination filter_).
  { eapply calls_made_eq; [apply create_or_update_sink_run | reflexivity]. }
  unfold final, outcome. rewrite Hcalls, create_or_update_sink_run. simpl.
  split; [|split; [|split; [|split]]].
  - destruct (sinks s !! sink_name) as [old|] eqn:Hs.
    + rewrite bool_decide_eq_true_2 by eauto. reflexivity.
    + rewrite bool_decide_eq_false_2 by (intros [? ?]; discriminate). reflexivity.
  - reflexivity.
  - apply lookup_insert_eq.
  - intros other Hne. apply lookup_insert_ne. congruence.
  - reflexivity.
Qed.

(** ** Splitting and joining paths *)

Example split_gs :
  PyStr.split PyStr.slash "gs://bucket/a/b.json" = ["gs:"; ""; "bucket"; "a"; "b.json"].
Proof. reflexivity. Qed.

Lemma split_nonempty (sep : ascii) (s : string) : PyStr.split sep s <> [].
Proof.
  destruct s as [|c s]; simpl; [discriminate|].
  destruct (Ascii.eqb c sep); [discriminate|].
  destruct (PyStr.split sep s); discriminate.
Qed.

Lemma join_cons (sep p : string) (ps : list string) :
  ps <> [] -> PyStr.join sep (p :: ps) = p +:+ sep +:+ PyStr.join sep ps.
Proof. destruct ps; [contradiction | reflexivity]. Qed.

Lemma join_split (sep : ascii) (s : string) :
  PyStr.join (String sep EmptyString) (PyStr.split sep s) = s.
Proof.
  induction s as [|c s IH]; [reflexivity|]. simpl.
  destruct (Ascii.eqb_spec c sep) as [->|Hne].
  - rewrite join_cons by apply split_nonempty. simpl. rewrite IH. reflexivity.
  - destruct (PyStr.split sep s) as [|h t] eqn:Hs.
    + exfalso. eapply split_nonempty, Hs.
    + rewrite <- IH. destruct t; reflexivity.
Qed.

Lemma split_app_sep (sep : ascii) (a rest : string) :
  PyStr.mem_char sep a = false ->
  PyStr.split sep (a +:+ String sep rest) = a :: PyStr.split sep rest.
Proof.
  induction a as [|c a IH]; simpl; intros Hmem.
  - rewrite Ascii.eqb_refl. reflexivity.
  - apply orb_false_iff in Hmem as [Hc Ha]. rewrite Hc, (IH Ha). reflexivity.
Qed.

Lemma slash_app (x : string) : "/" +:+ x = String PyStr.slash x.
Proof. reflexivity. Qed.

(** ** The object path of the upload *)


(** ** Properties of the whole script *)

(** C4: without retraining parameters (absent, or an empty mapping) a run of
    the script never writes or uploads the parameter file, never upserts a log
    sink and never runs the IAM grant.  With them, the run starts with the
    uploader writing the parameter file; every call of the uploader comes
    before every job create or update call; every sink upsert and every IAM
    grant has a job create or update call before it; and a run that completes
    has made, in this order, an uploader call, a job upsert, a sink upsert and
    the IAM grant. *)
Theorem retraining_steps_gated_and_ordered (E : env) (cfg : config) (s : state) :
  let params := auto_retraining_params (monitoring cfg) in
  let made := calls_made (main E cfg) s in
  (retraining_configured s params = false ->
   forall c, In c made ->
     is_uploader_call c = false /\ is_sink_upsert c = false /\ is_iam_grant c = false)
  /\ (retraining_configured s params = true ->
      (exists text rest, made = FileWrite local_params_file text "w" :: rest)
      /\ (forall i j u c,
            made !! i = Some u -> is_uploader_call u = true ->
            made !! j = Some c -> is_job_upsert c = true -> i < j)
      /\ (forall k c,
            made !! k = Some c -> is_sink_upsert c || is_iam_grant c = true ->
            exists j u, j < k /\ made !! j = Some u /\ is_job_upsert u = true)
      /\ (outcome (main E cfg) s = Returned tt ->
          in_order [is_uploader_call; is_job_upsert; is_sink_upsert; is_iam_grant]
                   made = true)).
Proof.
  intros params0 made. subst params0 made.
  destruct cfg as [[pid bucket topic]
                   [emails params drift skew path name sink_name endpoint interval
                      location rate target dataset]
                   [spec]].
  cbn [monitoring auto_retraining_params].
  split.
  - intros Hc c Hin.
    pose proof (main_gated E emails params drift path name sink_name endpoint interval
                  location pid topic rate skew target dataset bucket spec s Hc) as Hall.
    rewrite forallb_forall in Hall. specialize (Hall c Hin).
    apply negb_true_iff in Hall.
    apply orb_false_iff in Hall as [Hall Hiam].
    apply orb_false_iff in Hall as [Hup Hsink]. done.
  - intros Hc.
    destruct (main_ordered E emails params drift path name sink_name endpoint interval
                location pid topic rate skew target dataset bucket spec s Hc)
      as (Hfirst & Hbefore & Hafter & Hdone).
    split; [exact Hfirst|]. split; [|split; [|exact Hdone]].
    + apply all_before_spec. exact Hbefore.
    + intros k c Hk Hq.
      destruct (preceded_by_spec _ _ _ _ Hafter k c Hk Hq) as [[=]|H]. exact H.
Qed.

(** C9: the command of the IAM grant is built from the project identifier
    alone: a fixed text, the identifier, and a fixed tail that binds
    [roles/pubsub.publisher] to the logging service account.  The grants a
    run makes are the same whatever topic name is configured, and each is
    that command. *)
Theorem iam_grant_ignores_topic (E : env) (cfg : config) (topic : string) (s : state) :
  List.filter is_iam_grant (calls_made (main E (with_topic topic cfg)) s) =
  List.filter is_iam_grant (calls_made (main E cfg) s)
  /\ (forall c, In c (calls_made (main E cfg) s) -> is_iam_grant c = true ->
        c = SubprocessRun [update_iam (project_id (gcp cfg))] true true DEVNULL STDOUT)
  /\ (exists tail : string,
        (forall project : string,
           update_iam project =
           "gcloud projects add-iam-policy-binding " +:+ project +:+ tail)
        /\ PyStr.contains
             ("--member=" +:+ PyStr.dquote +:+
              "serviceAccount:cloud-logs@system.gserviceaccount.com" +:+ PyStr.dquote)
             tail
        /\ PyStr.contains
             ("--role=" +:+ PyStr.dquote +:+ "roles/pubsub.publisher" +:+ PyStr.dquote)
             tail).
Proof.
  destruct cfg as [[pid bucket topic0]
                   [emails params drift skew path name sink_name endpoint interval
                      location rate target dataset]
                   [spec]].
  unfold with_topic. cbn [gcp monitoring pipelines project_id storage_bucket_name].
  pose proof (main_iam_calls E emails params drift path name sink_name endpoint
                interval location pid topic rate skew target dataset bucket spec s)
    as Hnew.
  pose proof (main_iam_calls E emails params drift path name sink_name endpoint
                interval location pid topic0 rate skew target dataset bucket spec s)
    as Hold.
  split; [|split].
  - rewrite Hnew, Hold. reflexivity.
  - intros c Hin Hc.
    assert (Hf : In c (List.filter is_iam_grant
                         (calls_made (main E
                            (mkConfig (mkGcp pid bucket topic0)
                               (mkMonitoring emails params drift skew path name sink_name
                                  endpoint interval location rate target dataset)
                               (mkPipelines spec))) s))).
    { apply filter_In. split; assumption. }
    rewrite Hold in Hf.
    destruct (reaches_grant _ _ _); simpl in Hf; [|contradiction].
    destruct Hf as [<-|[]]. reflexivity.
  - exists (" " +:+ PyStr.backslash +:+ PyStr.newline +:+
            "--member=" +:+ PyStr.dquote +:+ "serviceAccount:" +:+ cloud_logs_sa +:+
            PyStr.dquote +:+ " " +:+ PyStr.backslash +:+ PyStr.newline +:+
            "--role=" +:+ PyStr.dquote +:+ "roles/pubsub.publisher" +:+ PyStr.dquote).
    split; [reflexivity|]. split.
    + exists (" " +:+ PyStr.backslash +:+ PyStr.newline),
             (" " +:+ PyStr.backslash +:+ PyStr.newline +:+
              "--role=" +:+ PyStr.dquote +:+ "roles/pubsub.publisher" +:+ PyStr.dquote).
      reflexivity.
    + exists (" " +:+ PyStr.backslash +:+ PyStr.newline +:+
              "--member=" +:+ PyStr.dquote +:+ "serviceAccount:" +:+ cloud_logs_sa +:+
              PyStr.dquote +:+ " " +:+ PyStr.backslash +:+ PyStr.newline),
             EmptyString.
      reflexivity.
Qed.

(** *** The two scenarios of the specification *)

(** No job named [job1] yet, drift thresholds only, no retraining
    parameters: one create call with the drift configuration and no skew
    configuration, and no upload, sink or grant. *)
Example scenario_without_retraining :
  let E := Example.cloud [Example.endpoint_name] [] 0 in
  calls_made (main E Example.config_without_params) Example.fresh =
    [AiplatformInit "p" "us-central1"; EndpointList Example.endpoint_filter;
     EndpointGet Example.endpoint_name; JobList Example.job_filter;
     JobCreate Example.create_args]
  /\ outcome (main E Example.config_without_params) Example.fresh = Returned tt.
Proof. vm_compute. split; reflexivity. Qed.

(** The same with the retraining parameters [{a: 1}]: the file is written
    and uploaded, the job created, the sink created with the anomaly filter
    of the new job, and the grant executed. *)
Example scenario_with_retraining :
  let E := Example.cloud [Example.endpoint_name] [] 0 in
  let made := calls_made (main E Example.config_with_params) Example.with_params in
  List.filter (fun c => is_uploader_call c || is_job_upsert c || is_sink_upsert c ||
                        is_iam_grant c) made =
    [FileWrite local_params_file
       (Json.dumps [("a", PInt 1); ("gs_pipeline_spec_path", PStr "gs://b/spec.json")])
       "w";
     StorageGetBucket "b";
     BlobUploadFromFilename "b" "params.json" local_params_file;
     JobCreate Example.create_args;
     SinkCreate "sink1" (monitoring_anomaly_log_filter "us-central1" "9001" "p")
                (anomaly_log_destination "p" "topic1");
     SubprocessRun [update_iam "p"] true true DEVNULL STDOUT]
  /\ PyStr.contains "severity>=WARNING"
        (monitoring_anomaly_log_filter "us-central1" "9001" "p")
  /\ outcome (main E Example.config_with_params) Example.with_params = Returned tt.
Proof.
  split; [vm_compute; reflexivity|]. split; [|vm_compute; reflexivity].
  eexists _, PyStr.newline. unfold monitoring_anomaly_log_filter.
  rewrite <- !append_assoc. reflexivity.
Qed.

(** ** The retraining parameters: one shared mapping *)

Lemma get_setitem_eq (k : string) (v : pyval) (d : pydict) :
  PyDict.get k (PyDict.setitem k v d) = Some v.
Proof.
  induction d as [|[k' v'] d IH]; simpl.
  - rewrite String.eqb_refl. reflexivity.
  - destruct (String.eqb k' k) eqn:Hk; simpl.
    + rewrite String.eqb_refl. reflexivity.
    + rewrite Hk. exact IH.
Qed.

Lemma get_setitem_ne (k k0 : string) (v : pyval) (d : pydict) :
  k0 <> k -> PyDict.get k0 (PyDict.setitem k v d) = PyDict.get k0 d.
Proof.
  intros Hne. induction d as [|[k' v'] d IH]; simpl.
  - destruct (String.eqb_spec k k0); [congruence | reflexivity].
  - destruct (String.eqb_spec k' k) as [->|Hk]; simpl.
    + destruct (String.eqb_spec k k0); [congruence | reflexivity].
    + destruct (String.eqb k' k0); [reflexivity | exact IH].
Qed.

Lemma upload_heap (E : env) (r : loc) (path spec bucket : string) (s : state)
    (d : pydict) :
  heap s !! r = Some d ->
  heap (final (upload_automatic_retraining_parameters E r path spec bucket) s) =
  <[r := PyDict.setitem "gs_pipeline_spec_path" (PStr spec) d]> (heap s).
Proof.
  intros Hr. unfold final.
  destruct (open_error E local_params_file) as [msg|] eqn:Hopen.
  - rewrite (upload_write_fails E r path spec bucket s d msg Hr Hopen). reflexivity.
  - rewrite (upload_succeeds E r path spec bucket s d Hr Hopen). reflexivity.
Qed.

(** C6, as the code has it: [upload_automatic_retraining_parameters] makes
    no copy.  It sets the [gs_pipeline_spec_path] key on the very mapping the
    caller passed: afterwards the caller's mapping holds the pipeline spec
    path under that key and its other keys as before, no other object of the
    store has changed, and the text written to the parameter file is the
    encoding of the caller's mapping as it now is. *)
Theorem upload_sets_key_on_callers_mapping
    (E : env) (r : loc) (path spec bucket : string) (s : state) (d : pydict) :
  heap s !! r = Some d ->
  let run := upload_automatic_retraining_parameters E r path spec bucket in
  exists d' : pydict,
    heap (final run s) !! r = Some d'
    /\ d' = PyDict.setitem "gs_pipeline_spec_path" (PStr spec) d
    /\ PyDict.get "gs_pipeline_spec_path" d' = Some (PStr spec)
    /\ (forall k, k <> "gs_pipeline_spec_path" -> PyDict.get k d' = PyDict.get k d)
    /\ (forall r', r' <> r -> heap (final run s) !! r' = heap s !! r')
    /\ (forall text mode, In (FileWrite local_params_file text mode) (calls_made run s) ->
          text = Json.dumps d').
Proof.
  intros Hr run. subst run.
  exists (PyDict.setitem "gs_pipeline_spec_path" (PStr spec) d).
  rewrite (upload_heap E r path spec bucket s d Hr).
  split; [apply lookup_insert_eq|]. split; [reflexivity|].
  split; [apply get_setitem_eq|]. split; [intros k Hk; apply get_setitem_ne, Hk|].
  split; [intros r' Hne; apply lookup_insert_ne; congruence|].
  intros text mode.
  destruct (open_error E local_params_file) as [msg|] eqn:Hopen.
  - erewrite calls_made_eq;
      [| apply (upload_write_fails E r path spec bucket s d msg Hr Hopen)
       | reflexivity].
    simpl. intros [H|[]]. injection H as <- _. reflexivity.
  - erewrite calls_made_eq;
      [| apply (upload_succeeds E r path spec bucket s d Hr Hopen)
       | reflexivity].
    simpl. intros [H|[H|[H|[]]]]; try discriminate.
    injection H as <- _. reflexivity.
Qed.

(** C6 on the parameters [{a: 1}]. *)
Lemma upload_sets_key_on_callers_mapping_witness :
  exists d' : pydict,
    heap (final (Example.run_upload (Example.cloud [] [] 0)) Example.with_params)
      !! Example.params_ref = Some d'
    /\ d' = PyDict.setitem "gs_pipeline_spec_path" (PStr "gs://b/spec.json")
                           [("a", PInt 1)]
    /\ PyDict.get "gs_pipeline_spec_path" d' = Some (PStr "gs://b/spec.json")
    /\ (forall k, k <> "gs_pipeline_spec_path" ->
          PyDict.get k d' = PyDict.get k [("a", PInt 1)])
    /\ (forall r', r' <> Example.params_ref ->
          heap (final (Example.run_upload (Example.cloud [] [] 0)) Example.with_params)
            !! r' = heap Example.with_params !! r')
    /\ (forall text mode,
          In (FileWrite local_params_file text mode)
             (calls_made (Example.run_upload (Example.cloud [] [] 0))
                         Example.with_params) ->
          text = Json.dumps d').
Proof.
  exact (upload_sets_key_on_callers_mapping (Example.cloud [] [] 0) Example.params_ref
           "gs://b/params.json" "gs://b/spec.json" "b" Example.with_params
           [("a", PInt 1)] eq_refl).
Defined.

(** C6 as stated does not hold: the caller passes the mapping [{a: 1}], and
    after the call that same mapping has a second key. *)
Lemma upload_changes_callers_mapping :
  let run := Example.run_upload (Example.cloud [] [] 0) in
  heap Example.with_params !! Example.params_ref = Some [("a", PInt 1)]
  /\ heap (final run Example.with_params) !! Example.params_ref =
       Some [("a", PInt 1); ("gs_pipeline_spec_path", PStr "gs://b/spec.json")]
  /\ heap (final run Example.with_params) !! Example.params_ref <>
       heap Example.with_params !! Example.params_ref.
Proof.
  assert (Hafter :
    heap (final (Example.run_upload (Example.cloud [] [] 0)) Example.with_params)
      !! Example.params_ref =
    Some [("a", PInt 1); ("gs_pipeline_spec_path", PStr "gs://b/spec.json")]).
  { unfold Example.run_upload.
    rewrite (upload_heap _ _ _ _ _ _ [("a", PInt 1)]) by reflexivity.
    rewrite lookup_insert_eq. reflexivity. }
  intros run. subst run. split; [reflexivity|]. split; [exact Hafter|].
  rewrite Hafter. discriminate.
Qed.

(** The script prints the parameters after the upload: the mapping it prints
    is the one the upload changed. *)
Example main_prints_changed_mapping :
  In (PPrint [("a", PInt 1); ("gs_pipeline_spec_path", PStr "gs://b/spec.json")])
     (calls_made (main (Example.cloud [Example.endpoint_name] [] 0)
                       Example.config_with_params)
                 Example.with_params).
Proof. vm_compute. tauto. Qed.




(** The scenario of the specification: the file holds the parameters and the
    injected path, the upload goes to [params.json] in the bucket. *)
Example scenario_parameter_file :
  let s' := final (Example.run_upload (Example.cloud [] [] 0)) Example.with_params in
  option_map Json.loads (files s' !! local_params_file) =
    Some (Some (PDict [("a", PInt 1);
                       ("gs_pipeline_spec_path", PStr "gs://b/spec.json")]))
  /\ blobs s' !! ("b", "params.json") = files s' !! local_params_file.
Proof.
  unfold Example.run_upload, final.
  rewrite (upload_succeeds _ _ _ _ _ _ [("a", PInt 1)]) by reflexivity.
  cbn [snd files blobs]. rewrite !lookup_insert_eq. split; reflexivity.
Qed.

(** ** Further properties of the functions *)

(** *** [write_file] *)



(** [open] as the interpreter has it: a mode it does not know and a second
    access letter are [ValueError]s that [write_file] lets through; mode [x]
    writes a new file and refuses one that is there; mode [r] cannot write. *)
Example write_file_modes :
  let E := Example.cloud [] [] 0 in
  let there := mkState ∅ {[ "f" := "0123456789" ]} ∅ ∅ None [] in
  outcome (write_file E "f" "ab" "z") Example.fresh =
    Raised (ValueError "invalid mode: 'z'")
  /\ outcome (write_file E "f" "ab" "rw") Example.fresh =
       Raised (ValueError "must have exactly one of create/read/write/append mode")
  /\ outcome (write_file E "f" "ab" "x") Example.fresh = Returned tt
  /\ files (final (write_file E "f" "ab" "x") Example.fresh) !! "f" = Some "ab"
  /\ outcome (write_file E "f" "ab" "x") there =
       Raised (OSError "Error writing to file. [Errno 17] File exists: 'f'"
                       (Some (OSError "[Errno 17] File exists: 'f'" None)))
  /\ outcome (write_file E "f" "ab" "r") there =
       Raised (OSError "Error writing to file. not writable"
                       (Some (OSError "not writable" None)))
  /\ files (final (write_file E "f" "ab" "r+") there) !! "f" = Some "ab23456789"
  /\ files (final (write_file E "f" "ab" "a") there) !! "f" = Some "0123456789ab"
  /\ files (final (write_file E "f" "ab" "w") there) !! "f" = Some "ab".
Proof. vm_compute. repeat split. Qed.

(** *** [upload_automatic_retraining_parameters] *)

Lemma upload_returned (E : env) (r : loc) (path spec bucket : string) (s : state)
    (d : pydict) :
  heap s !! r = Some d ->
  outcome (upload_automatic_retraining_parameters E r path spec bucket) s = Returned tt ->
  open_error E local_params_file = None.
Proof.
  intros Hr. unfold outcome.
  destruct (open_error E local_params_file) as [msg|] eqn:Hopen; [|reflexivity].
  rewrite (upload_write_fails E r path spec bucket s d msg Hr Hopen). discriminate.
Qed.

(** X2: when the upload returns, the bucket [storage_bucket_name] holds,
    under the object name derived from the remote path, exactly the bytes of
    the local parameter file, and these are the encoding of the caller's
    mapping with the spec path set.  No other file and no other object has
    changed, nor any sink, and the calls made are the write, the bucket
    lookup and the one upload. *)
Theorem upload_stores_the_file_text
    (E : env) (r : loc) (path spec bucket : string) (s : state) (d : pydict) :
  heap s !! r = Some d ->
  let run := upload_automatic_retraining_parameters E r path spec bucket in
  let text := Json.dumps (PyDict.setitem "gs_pipeline_spec_path" (PStr spec) d) in
  outcome run s = Returned tt ->
  files (final run s) !! local_params_file = Some text
  /\ blobs (final run s) !! (bucket, blob_filename path) = Some text
  /\ (forall f, f <> local_params_file -> files (final run s) !! f = files s !! f)
  /\ (forall o, o <> (bucket, blob_filename path) ->
        blobs (final run s) !! o = blobs s !! o)
  /\ sinks (final run s) = sinks s
  /\ calls_made run s =
       [FileWrite local_params_file text "w"; StorageGetBucket bucket;
        BlobUploadFromFilename bucket (blob_filename path) local_params_file].
Proof.
  intros Hr run text Hret. subst run text.
  pose proof (upload_returned E r path spec bucket s d Hr Hret) as Hopen.
  assert (Hcalls := calls_made_eq _ _ _ _ _
                      (upload_succeeds E r path spec bucket s d Hr Hopen) eq_refl).
  unfold final. rewrite Hcalls.
  rewrite (upload_succeeds E r path spec bucket s d Hr Hopen).
  cbn [fst snd files blobs sinks].
  repeat split; try apply lookup_insert_eq.
  - intros f Hne. apply lookup_insert_ne. congruence.
  - intros o Hne. apply lookup_insert_ne. congruence.
Qed.

(** X2 on the parameters [{a: 1}]. *)
Lemma upload_stores_the_file_text_witness :
  let run := Example.run_upload (Example.cloud [] [] 0) in
  let text := Json.dumps (PyDict.setitem "gs_pipeline_spec_path"
                            (PStr "gs://b/spec.json") [("a", PInt 1)]) in
  files (final run Example.with_params) !! local_params_file = Some text
  /\ blobs (final run Example.with_params) !! ("b", blob_filename "gs://b/params.json")
       = Some text
  /\ (forall f, f <> local_params_file ->
        files (final run Example.with_params) !! f = files Example.with_params !! f)
  /\ (forall o, o <> ("b", blob_filename "gs://b/params.json") ->
        blobs (final run Example.with_params) !! o = blobs Example.with_params !! o)
  /\ sinks (final run Example.with_params) = sinks Example.with_params
  /\ calls_made run Example.with_params =
       [FileWrite local_params_file text "w"; StorageGetBucket "b";
        BlobUploadFromFilename "b" (blob_filename "gs://b/params.json")
          local_params_file].
Proof.
  refine (upload_stores_the_file_text (Example.cloud [] [] 0) Example.params_ref
            "gs://b/params.json" "gs://b/spec.json" "b" Example.with_params
            [("a", PInt 1)] eq_refl _).
  vm_compute. reflexivity.
Defined.

Lemma append_inj (a x y : string) : a +:+ x = a +:+ y -> x = y.
Proof.
  induction a as [|c a IH]; [intros H; exact H|].
  change (String c (a +:+ x) = String c (a +:+ y) -> x = y).
  intros [= H]. apply IH, H.
Qed.

(** X3: when the upload raises the wrapped [OSError] of a failed write, the
    one call it has made is the write attempt, with the encoding of the
    caller's mapping: the bucket has not been looked up, nothing has been
    uploaded, no object has changed and no file other than the parameter
    file; that one is as it was, or cut to the bytes written before the
    error.  The caller's mapping has the spec path set all the same. *)
Theorem upload_stops_at_failed_write
    (E : env) (r : loc) (path spec bucket : string) (s : state) (d : pydict)
    (msg : string) (cause : option exn) :
  heap s !! r = Some d ->
  let run := upload_automatic_retraining_parameters E r path spec bucket in
  let d' := PyDict.setitem "gs_pipeline_spec_path" (PStr spec) d in
  outcome run s = Raised (OSError ("Error writing to file. " +:+ msg) cause) ->
  cause = Some (OSError msg None)
  /\ calls_made run s = [FileWrite local_params_file (Json.dumps d') "w"]
  /\ blobs (final run s) = blobs s
  /\ (forall f, f <> local_params_file -> files (final run s) !! f = files s !! f)
  /\ (files (final run s) !! local_params_file = files s !! local_params_file
      \/ exists n, files (final run s) !! local_params_file =
                     Some (PyStr.take n (Json.dumps d')))
  /\ heap (final run s) !! r = Some d'.
Proof.
  intros Hr run d'. subst run d'. unfold outcome, final.
  destruct (open_error E local_params_file) as [msg'|] eqn:Hopen.
  - assert (Hcalls := calls_made_eq _ _ _ _ _
                        (upload_write_fails E r path spec bucket s d msg' Hr Hopen)
                        eq_refl).
    rewrite Hcalls.
    rewrite (upload_write_fails E r path spec bucket s d msg' Hr Hopen).
    cbn [fst snd files blobs heap]. intros [= Hmsg <-].
    apply append_inj in Hmsg. subst msg'. unfold left_by_failed_write.
    split; [reflexivity|]. split; [reflexivity|]. split; [reflexivity|].
    destruct (written_before_error E local_params_file) as [n|]; repeat split;
      try apply lookup_insert_eq.
    + intros f Hne. apply lookup_insert_ne. congruence.
    + right. exists n. apply lookup_insert_eq.
    + left. reflexivity.
  - rewrite (upload_succeeds E r path spec bucket s d Hr Hopen). discriminate.
Qed.

(** X3 on a machine whose disk is full: the parameter file is left empty. *)
Lemma upload_stops_at_failed_write_witness :
  let run := Example.run_upload Example.full_disk_cloud in
  let s := Example.with_params in
  let d' := PyDict.setitem "gs_pipeline_spec_path" (PStr "gs://b/spec.json")
                           [("a", PInt 1)] in
  Some (OSError "[Errno 28] No space left on device" None) =
    Some (OSError "[Errno 28] No space left on device" None)
  /\ calls_made run s = [FileWrite local_params_file (Json.dumps d') "w"]
  /\ blobs (final run s) = blobs s
  /\ (forall f, f <> local_params_file -> files (final run s) !! f = files s !! f)
  /\ (files (final run s) !! local_params_file = files s !! local_params_file
      \/ exists n, files (final run s) !! local_params_file =
                     Some (PyStr.take n (Json.dumps d')))
  /\ heap (final run s) !! Example.params_ref = Some d'.
Proof.
  refine (upload_stops_at_failed_write Example.full_disk_cloud Example.params_ref
            "gs://b/params.json" "gs://b/spec.json" "b" Example.with_params
            [("a", PInt 1)] "[Errno 28] No space left on device"
            (Some (OSError "[Errno 28] No space left on device" None)) eq_refl _).
  vm_compute. reflexivity.
Defined.

(** The same run, with the states written out: the write to the full disk
    leaves the parameter file empty, and on the read-only machine no file
    appears at all. *)
Example failed_write_leaves :
  files (final (Example.run_upload Example.full_disk_cloud) Example.with_params)
    !! local_params_file = Some EmptyString
  /\ files (final (Example.run_upload Example.read_only_cloud) Example.with_params)
       !! local_params_file = None.
Proof. vm_compute. split; reflexivity. Qed.

Lemma setitem_idempotent (k : string) (v : pyval) (d : pydict) :
  PyDict.setitem k v (PyDict.setitem k v d) = PyDict.setitem k v d.
Proof.
  induction d as [|[k' v'] d IH]; simpl.
  - rewrite String.eqb_refl. reflexivity.
  - destruct (String.eqb k' k) eqn:Hk; simpl.
    + rewrite String.eqb_refl. reflexivity.
    + rewrite Hk, IH. reflexivity.
Qed.

(** X4: uploading again with the same arguments changes nothing but the
    trace: the second run has the outcome of the first and leaves the
    caller's mapping, the files and the bucket objects as the first run left
    them. *)
Theorem upload_again_changes_nothing
    (E : env) (r : loc) (path spec bucket : string) (s : state) (d : pydict) :
  heap s !! r = Some d ->
  let run := upload_automatic_retraining_parameters E r path spec bucket in
  let s1 := final run s in
  outcome run s1 = outcome run s
  /\ heap (final run s1) = heap s1
  /\ files (final run s1) = files s1
  /\ blobs (final run s1) = blobs s1.
Proof.
  intros Hr run s1. subst s1 run. unfold final, outcome.
  destruct (open_error E local_params_file) as [msg|] eqn:Hopen.
  - rewrite (upload_write_fails E r path spec bucket s d msg Hr Hopen). cbn [snd fst].
    erewrite upload_write_fails;
      [| cbn [heap]; apply lookup_insert_eq | exact Hopen].
    cbn [fst snd heap files blobs]. rewrite setitem_idempotent, insert_insert_eq.
    unfold left_by_failed_write.
    destruct (written_before_error E local_params_file);
      rewrite ?insert_insert_eq; repeat split.
  - rewrite (upload_succeeds E r path spec bucket s d Hr Hopen). cbn [snd fst].
    erewrite upload_succeeds;
      [| cbn [heap]; apply lookup_insert_eq | exact Hopen].
    cbn [fst snd heap files blobs].
    rewrite setitem_idempotent, !insert_insert_eq. repeat split.
Qed.

(** X4 on the parameters [{a: 1}]. *)
Lemma upload_again_changes_nothing_witness :
  let run := Example.run_upload (Example.cloud [] [] 0) in
  let s1 := final run Example.with_params in
  outcome run s1 = outcome run Example.with_params
  /\ heap (final run s1) = heap s1
  /\ files (final run s1) = files s1
  /\ blobs (final run s1) = blobs s1.
Proof.
  exact (upload_again_changes_nothing (Example.cloud [] [] 0) Example.params_ref
           "gs://b/params.json" "gs://b/spec.json" "b" Example.with_params
           [("a", PInt 1)] eq_refl).
Defined.

(** *** [create_or_update_sink] *)

(** X5: whatever the sinks were, after one call for a sink name a second call
    for that name finds the sink and updates it, creating nothing.  The
    sink then holds the filter and destination of the second call alone, as
    if the first call had not been made; dictionaries, files and bucket
    objects are not touched. *)
Theorem sink_second_call_updates
    (sink_name destination1 filter1 destination2 filter2 : string) (s : state) :
  let first := create_or_update_sink sink_name destination1 filter1 in
  let second := create_or_update_sink sink_name destination2 filter2 in
  calls_made second (final first s) =
    [SinkExists sink_name; SinkUpdate sink_name filter2 destination2;
     Print ("Updated Anomaly Log Sink " +:+ sink_name +:+ "." +:+ PyStr.newline)]
  /\ sinks (final second (final first s)) = sinks (final second s)
  /\ sinks (final second (final first s)) !! sink_name =
       Some (mkSink filter2 destination2)
  /\ heap (final second (final first s)) = heap s
  /\ files (final second (final first s)) = files s
  /\ blobs (final second (final first s)) = blobs s.
Proof.
  intros first second. subst first second.
  assert (Hcalls :
    calls_made (create_or_update_sink sink_name destination2 filter2)
      (final (create_or_update_sink sink_name destination1 filter1) s) =
    sink_calls true sink_name destination2 filter2).
  { eapply calls_made_eq; [apply create_or_update_sink_run|].
    unfold final. rewrite create_or_update_sink_run. cbn [snd trace sinks].
    rewrite lookup_insert_eq.
    rewrite (bool_decide_eq_true_2 (is_Some (Some (mkSink filter1 destination1))))
      by (eexists; reflexivity).
    reflexivity. }
  rewrite Hcalls. unfold final. rewrite !create_or_update_sink_run.
  cbn [snd heap files blobs sinks]. rewrite insert_insert_eq.
  repeat split. apply lookup_insert_eq.
Qed.

(** *** The last segment of a resource name *)

Lemma split_no_sep (sep : ascii) (a : string) :
  PyStr.mem_char sep a = false -> PyStr.split sep a = [a].
Proof.
  induction a as [|c a IH]; simpl; intros Hmem; [reflexivity|].
  apply orb_false_iff in Hmem as [Hc Ha]. rewrite Hc, (IH Ha). reflexivity.
Qed.

Lemma split_app_pre (sep : ascii) (a b : string) :
  exists pre, pre <> [] /\ PyStr.split sep (a +:+ String sep b) = pre ++ PyStr.split sep b.
Proof.
  induction a as [|c a (pre & Hpre & IH)].
  - exists [EmptyString]. split; [discriminate|]. simpl.
    rewrite Ascii.eqb_refl. reflexivity.
  - change (String c a +:+ String sep b) with (String c (a +:+ String sep b)).
    simpl. rewrite IH. destruct (Ascii.eqb c sep).
    + exists (EmptyString :: pre). split; [discriminate | reflexivity].
    + destruct pre as [|h pre]; [contradiction|].
      exists (String c h :: pre). split; [discriminate | reflexivity].
Qed.

Lemma last_app_nonempty {A} (pre l : list A) (d : A) :
  l <> [] -> List.last (pre ++ l) d = List.last l d.
Proof.
  intros Hl. induction pre as [|x pre IH]; [reflexivity|].
  simpl. destruct (pre ++ l) eqn:Happ; [|exact IH].
  apply app_eq_nil in Happ as [_ ->]. contradiction.
Qed.

Lemma split_segments_no_sep (sep : ascii) (s : string) :
  Forall (fun seg => PyStr.mem_char sep seg = false) (PyStr.split sep s).
Proof.
  induction s as [|c s IH]; simpl.
  - repeat constructor.
  - destruct (Ascii.eqb c sep) eqn:Hc.
    + constructor; [reflexivity | exact IH].
    + destruct (PyStr.split sep s) as [|h t].
      * repeat constructor. simpl. rewrite Hc. reflexivity.
      * inversion IH as [|? ? Hh Ht]; subst. constructor; [|exact Ht].
        simpl. rewrite Hc, Hh. reflexivity.
Qed.

Lemma last_in_list {A} (l : list A) (d : A) : l <> [] -> In (List.last l d) l.
Proof.
  induction l as [|x l IH]; [contradiction|]. intros _.
  destruct l as [|y l]; [left; reflexivity|].
  right. apply IH. discriminate.
Qed.

Lemma join_ends_with_last (sep : string) (l : list string) (d : string) :
  l <> [] -> exists prefix, PyStr.join sep l = prefix +:+ List.last l d.
Proof.
  induction l as [|x l IH]; [contradiction|]. intros _.
  destruct l as [|y l].
  - exists EmptyString. reflexivity.
  - destruct (IH ltac:(discriminate)) as (prefix & Hjoin).
    exists (x +:+ sep +:+ prefix).
    rewrite join_cons by discriminate. rewrite Hjoin.
    rewrite !append_assoc. reflexivity.
Qed.

(** X6: the identifier the script takes from a resource name, the last
    segment of its split at [/] (for the endpoint filter and for both job
    identifiers), is the text after the last slash: it holds no slash, the
    name ends with it, for [a/b] with [b] free of slashes it is [b], and a
    name without a slash is its own last segment. *)
Theorem last_segment_is_text_after_last_slash (s : string) :
  PyStr.mem_char PyStr.slash (PyStr.last_segment s) = false
  /\ (exists prefix, s = prefix +:+ PyStr.last_segment s)
  /\ (forall a b, s = a +:+ "/" +:+ b -> PyStr.mem_char PyStr.slash b = false ->
        PyStr.last_segment s = b)
  /\ (PyStr.mem_char PyStr.slash s = false -> PyStr.last_segment s = s).
Proof.
  unfold PyStr.last_segment. split; [|split; [|split]].
  - pose proof (split_segments_no_sep PyStr.slash s) as Hall.
    rewrite List.Forall_forall in Hall. apply Hall.
    apply last_in_list, split_nonempty.
  - destruct (join_ends_with_last (String PyStr.slash EmptyString)
                (PyStr.split PyStr.slash s) EmptyString (split_nonempty _ _))
      as (prefix & Hjoin).
    exists prefix. rewrite <- Hjoin. symmetry. apply join_split.
  - intros a b -> Hb. rewrite slash_app.
    destruct (split_app_pre PyStr.slash a b) as (pre & _ & ->).
    rewrite last_app_nonempty by apply split_nonempty.
    rewrite (split_no_sep _ _ Hb). reflexivity.
  - intros Hs. rewrite (split_no_sep _ _ Hs). reflexivity.
Qed.

(** *** The script body *)


(** Each of the four outcomes occurs: on a full disk, without the endpoint,
    with a grant that exits with status 1, and when all goes through. *)
Example the_four_outcomes :
  let cfg := Example.config_with_params in
  let s := Example.with_params in
  outcome (main Example.full_disk_cloud cfg) s =
    Raised (OSError ("Error writing to file. " +:+ "[Errno 28] No space left on device")
                    (Some (OSError "[Errno 28] No space left on device" None)))
  /\ outcome (main (Example.cloud [] [] 0) cfg) s =
       Raised (endpoint_not_found Example.endpoint_name "us-central1")
  /\ (exists msg,
        outcome (main (Example.cloud [Example.endpoint_name] [] 1) cfg) s =
          Raised (RuntimeError msg (Some (CalledProcessError 1 [update_iam "p"]))))
  /\ outcome (main (Example.cloud [Example.endpoint_name] [] 0) cfg) s = Returned tt.
Proof.
  vm_compute. repeat split. eexists. reflexivity.
Qed.

(** X10: nothing is undone.  When the parameters are uploaded and the job and
    the sink upserted but the IAM grant then exits non-zero, the script
    raises the wrapped [RuntimeError], and the bucket still holds the
    uploaded parameter text, the sink is still registered and the caller's
    mapping still has the spec path set; the trace holds the uploader call,
    the job upsert, the sink upsert and the grant, in this order. *)
Theorem failed_grant_undoes_nothing
    (E : env) (cfg : config) (s : state) (r : loc) (d : pydict) :
  auto_retraining_params (monitoring cfg) = Some r ->
  heap s !! r = Some d -> d <> [] ->
  open_error E local_params_file = None ->
  endpoint_list E (project_id (gcp cfg)) (monitoring_location (monitoring cfg))
    ("endpoint=" +:+ PyStr.dquote +:+
     PyStr.last_segment (model_endpoint (monitoring cfg)) +:+ PyStr.dquote) <> [] ->
  returncode_of E [update_iam (project_id (gcp cfg))] <> 0%Z ->
  let d' := PyDict.setitem "gs_pipeline_spec_path"
              (PStr (gs_pipeline_job_spec_path (pipelines cfg))) d in
  let s' := final (main E cfg) s in
  (exists msg cause, outcome (main E cfg) s = Raised (RuntimeError msg (Some cause)))
  /\ heap s' !! r = Some d'
  /\ files s' !! local_params_file = Some (Json.dumps d')
  /\ blobs s' !! (storage_bucket_name (gcp cfg),
                  blob_filename (gs_auto_retraining_params_path (monitoring cfg))) =
       Some (Json.dumps d')
  /\ (exists filter_,
        sinks s' !! log_sink_name (monitoring cfg) =
          Some (mkSink filter_
                  (anomaly_log_destination (project_id (gcp cfg))
                     (pubsub_topic_name (gcp cfg)))))
  /\ in_order [is_uploader_call; is_job_upsert; is_sink_upsert; is_iam_grant]
              (calls_made (main E cfg) s) = true.
Proof.
  destruct cfg as [[pid bucket topic]
                   [emails params drift skew path name sink_name endpoint interval
                      location rate target dataset]
                   [spec]].
  cbn [gcp monitoring pipelines project_id monitoring_location model_endpoint
       auto_retraining_params storage_bucket_name pubsub_topic_name
       gs_pipeline_job_spec_path gs_auto_retraining_params_path log_sink_name].
  intros Hp Hr Hne Hopen Hep Hrc. cbv zeta.
  pose proof (main_final_wired E emails params drift path name sink_name endpoint
                interval location pid topic rate skew target dataset bucket spec s r d
                Hp Hr Hne Hopen Hep) as Hrun.
  assert (Hcalls := calls_made_eq _ _ _ _ _ Hrun eq_refl).
  unfold final, outcome. rewrite Hcalls, Hrun. cbn [fst snd heap files blobs sinks].
  rewrite !lookup_insert_eq.
  destruct (Z.eqb_spec (returncode_of E [update_iam pid]) 0) as [Hz|_]; [contradiction|].
  repeat split; eauto.
  unfold sink_calls.
  destruct (endpoint_list E pid location _) as [|e es]; [contradiction|].
  destruct (job_list E pid location _);
    destruct (bool_decide (is_Some (sinks s !! sink_name))); reflexivity.
Qed.

(** X10 on the scenario with retraining parameters, the grant exiting with
    status 1. *)
Lemma failed_grant_undoes_nothing_witness :
  let E := Example.cloud [Example.endpoint_name] [] 1 in
  let cfg := Example.config_with_params in
  let d' := PyDict.setitem "gs_pipeline_spec_path" (PStr "gs://b/spec.json")
                           [("a", PInt 1)] in
  let s' := final (main E cfg) Example.with_params in
  (exists msg cause,
     outcome (main E cfg) Example.with_params = Raised (RuntimeError msg (Some cause)))
  /\ heap s' !! Example.params_ref = Some d'
  /\ files s' !! local_params_file = Some (Json.dumps d')
  /\ blobs s' !! ("b", blob_filename "gs://b/params.json") = Some (Json.dumps d')
  /\ (exists filter_,
        sinks s' !! "sink1" =
          Some (mkSink filter_ (anomaly_log_destination "p" "topic1")))
  /\ in_order [is_uploader_call; is_job_upsert; is_sink_upsert; is_iam_grant]
              (calls_made (main E cfg) Example.with_params) = true.
Proof.
  refine (failed_grant_undoes_nothing (Example.cloud [Example.endpoint_name] [] 1)
            Example.config_with_params Example.with_params Example.params_ref
            [("a", PInt 1)] eq_refl eq_refl _ eq_refl _ _).
  - discriminate.
  - vm_compute. discriminate.
  - vm_compute. discriminate.
Defined.

(** X11: the parameters the script prints are the ones it wrote: every
    mapping it pretty-prints has the spec path set, and the encoding of that
    very mapping was written to the parameter file in the same run. *)
Theorem printed_parameters_are_the_written_ones (E : env) (cfg : config) (s : state) :
  Forall (fun c =>
            match c with
            | PPrint d' =>
                PyDict.get "gs_pipeline_spec_path" d' =
                  Some (PStr (gs_pipeline_job_spec_path (pipelines cfg)))
                /\ In (FileWrite local_params_file (Json.dumps d') "w")
                      (calls_made (main E cfg) s)
            | _ => True
            end) (calls_made (main E cfg) s).
Proof.
  destruct cfg as [[pid bucket topic]
                   [emails params drift skew path name sink_name endpoint interval
                      location rate target dataset]
                   [spec]].
  cbn [pipelines gs_pipeline_job_spec_path].
  eapply Forall_impl;
    [apply (main_prints_written E emails params drift path name sink_name endpoint
              interval location pid topic rate skew target dataset bucket spec s)|].
  intros [] H; try exact I. simpl in H.
  destruct H as (d0 & -> & Hin). split; [apply get_setitem_eq | exact Hin].
Qed.

Lemma job_ignores_empty_params
    (E : env) (emails : option (list string)) (r : loc) (drift : option thresholds)
    (path name sink_name endpoint : string) (interval : Z)
    (location pid topic : string) (rate : Q) (skew : option thresholds)
    (target dataset : string) (s : state) :
  heap s !! r = Some [] ->
  create_or_update_monitoring_job E emails (Some r) drift path name sink_name endpoint
    interval location pid topic rate skew target dataset s =
  create_or_update_monitoring_job E emails None drift path name sink_name endpoint
    interval location pid topic rate skew target dataset s.
Proof.
  intros Hr.
  rewrite (whole_run E emails (Some r) drift path name sink_name endpoint interval
             location pid topic rate skew target dataset s).
  rewrite (whole_run E emails None drift path name sink_name endpoint interval
             location pid topic rate skew target dataset s).
  destruct (outcome _ s) as [job|e]; [|reflexivity].
  rewrite (route_skipped E (Some r)), (route_skipped E None);
    [ cbn [heap]; rewrite Hr; reflexivity
    | reflexivity
    | unfold retraining_configured, params_in; cbn [heap]; rewrite Hr; reflexivity ].
Qed.

(** X12: an empty mapping of retraining parameters counts as none: with
    [auto_retraining_params] an empty dictionary the script runs exactly as
    it does with the field null, with the same calls, the same outcome and
    the same final state. *)
Theorem empty_params_run_as_none (E : env) (cfg : config) (s : state) (r : loc) :
  auto_retraining_params (monitoring cfg) = Some r ->
  heap s !! r = Some [] ->
  main E cfg s = main E (without_params cfg) s.
Proof.
  destruct cfg as [[pid bucket topic]
                   [emails params drift skew path name sink_name endpoint interval
                      location rate target dataset]
                   [spec]].
  unfold without_params.
  cbn [gcp monitoring pipelines auto_retraining_params alert_emails
       drift_thresholds_cfg skew_thresholds_cfg gs_auto_retraining_params_path
       job_display_name log_sink_name model_endpoint monitoring_interval
       monitoring_location sample_rate_cfg target_field_cfg training_dataset].
  intros -> Hr.
  rewrite (main_not_configured E emails (Some r) drift path name sink_name endpoint
             interval location pid topic rate skew target dataset bucket spec s)
    by (unfold retraining_configured, params_in; rewrite Hr; reflexivity).
  rewrite (main_not_configured E emails None drift path name sink_name endpoint
             interval location pid topic rate skew target dataset bucket spec s)
    by reflexivity.
  rewrite Hr. apply job_ignores_empty_params, Hr.
Qed.

(** X12 on the scenario with the parameters [{}]. *)
Lemma empty_params_run_as_none_witness :
  main (Example.cloud [Example.endpoint_name] [] 0) Example.config_with_params
       Example.with_empty_params =
  main (Example.cloud [Example.endpoint_name] [] 0)
       (without_params Example.config_with_params) Example.with_empty_params.
Proof.
  exact (empty_params_run_as_none (Example.cloud [Example.endpoint_name] [] 0)
           Example.config_with_params Example.with_empty_params Example.params_ref
           eq_refl eq_refl).
Defined.

(** A run with an existing job [77] and a sink already registered: the one
    sink call is an update, with the filter of job [77]. *)
Example sink_call_for_existing_job :
  let E := Example.cloud [Example.endpoint_name] [Example.job_name "77"] 0 in
  let s := mkState {[ Example.params_ref := [("a", PInt 1)] ]} ∅ ∅
             {[ "sink1" := mkSink "old filter" "old destination" ]} None [] in
  List.filter is_sink_upsert (calls_made (Example.run_job E (Some Example.params_ref)) s) =
    [SinkUpdate "sink1" (monitoring_anomaly_log_filter "us-central1" "77" "p")
       "pubsub.googleapis.com/projects/p/topics/topic1"].
Proof. vm_compute. reflexivity. Qed.

Lemma mem_char_app (c : ascii) (a b : string) :
  PyStr.mem_char c (a +:+ b) = PyStr.mem_char c a || PyStr.mem_char c b.
Proof.
  induction a as [|d a IH]; simpl; [reflexivity|].
  rewrite IH. apply orb_assoc.
Qed.

(** X14: when the location, the job identifier and the project contain no
    line break, the anomaly log filter is exactly five clauses, each ended
    by a line break, and each of the three values stays inside its own
    clause, between double quotes. *)
Theorem anomaly_filter_is_five_clauses (location job_id project : string) :
  PyStr.mem_char (ascii_of_nat 10) location = false ->
  PyStr.mem_char (ascii_of_nat 10) job_id = false ->
  PyStr.mem_char (ascii_of_nat 10) project = false ->
  PyStr.split (ascii_of_nat 10) (monitoring_anomaly_log_filter location job_id project) =
  [ "resource.type=" +:+ PyStr.dquote +:+
      "aiplatform.googleapis.com/ModelDeploymentMonitoringJob" +:+ PyStr.dquote;
    "resource.labels.location=" +:+ PyStr.dquote +:+ location +:+ PyStr.dquote;
    "resource.labels.model_deployment_monitoring_job=" +:+ PyStr.dquote +:+ job_id +:+
      PyStr.dquote;
    "logName=" +:+ PyStr.dquote +:+ "projects/" +:+ project +:+
      "/logs/aiplatform.googleapis.com%2Fmodel_monitoring_anomaly" +:+ PyStr.dquote;
    "severity>=WARNING";
    EmptyString ].
Proof.
  intros Hl Hj Hp.
  set (nl := ascii_of_nat 10).
  set (c1 := "resource.type=" +:+ PyStr.dquote +:+
      "aiplatform.googleapis.com/ModelDeploymentMonitoringJob" +:+ PyStr.dquote).
  set (c2 := "resource.labels.location=" +:+ PyStr.dquote +:+ location +:+ PyStr.dquote).
  set (c3 := "resource.labels.model_deployment_monitoring_job=" +:+ PyStr.dquote +:+
      job_id +:+ PyStr.dquote).
  set (c4 := "logName=" +:+ PyStr.dquote +:+ "projects/" +:+ project +:+
      "/logs/aiplatform.googleapis.com%2Fmodel_monitoring_anomaly" +:+ PyStr.dquote).
  assert (Hshape : monitoring_anomaly_log_filter location job_id project =
            c1 +:+ String nl (c2 +:+ String nl (c3 +:+ String nl (c4 +:+
              String nl ("severity>=WARNING" +:+ String nl EmptyString))))).
  { subst c1 c2 c3 c4 nl. unfold monitoring_anomaly_log_filter.
    rewrite !append_assoc. reflexivity. }
  rewrite Hshape.
  rewrite (split_app_sep nl c1) by reflexivity.
  rewrite (split_app_sep nl c2)
    by (subst c2; rewrite !mem_char_app; fold nl in Hl; rewrite Hl; reflexivity).
  rewrite (split_app_sep nl c3)
    by (subst c3; rewrite !mem_char_app; fold nl in Hj; rewrite Hj; reflexivity).
  rewrite (split_app_sep nl c4)
    by (subst c4; rewrite !mem_char_app; fold nl in Hp; rewrite Hp; reflexivity).
  rewrite (split_app_sep nl "severity>=WARNING") by reflexivity.
  reflexivity.
Qed.

(** X14 on location [us-central1], job [9001] and project [p]. *)
Lemma anomaly_filter_is_five_clauses_witness :
  PyStr.split (ascii_of_nat 10) (monitoring_anomaly_log_filter "us-central1" "9001" "p") =
  [ "resource.type=" +:+ PyStr.dquote +:+
      "aiplatform.googleapis.com/ModelDeploymentMonitoringJob" +:+ PyStr.dquote;
    "resource.labels.location=" +:+ PyStr.dquote +:+ "us-central1" +:+ PyStr.dquote;
    "resource.labels.model_deployment_monitoring_job=" +:+ PyStr.dquote +:+ "9001" +:+
      PyStr.dquote;
    "logName=" +:+ PyStr.dquote +:+ "projects/" +:+ "p" +:+
      "/logs/aiplatform.googleapis.com%2Fmodel_monitoring_anomaly" +:+ PyStr.dquote;
    "severity>=WARNING";
    EmptyString ].
Proof.
  exact (anomaly_filter_is_five_clauses "us-central1" "9001" "p" eq_refl eq_refl eq_refl).
Defined.
